(** * The developer console of ballistica: [base/ui/dev_console.cc]

    A shallow embedding of the console controller, its three widget kinds
    and its line buffer, followed by the properties the specification states
    about them.

    Conventions of the embedding.
    - [std::string] is [string] (a list of bytes); a [const char*] obtained
      with [c_str()] is the prefix in front of the first NUL byte.
    - [float] is IEEE binary32, through [SpecFloat] at precision 24 and
      maximal exponent 128.
    - [int] is a [Z] kept in the 32-bit two's complement range by [int32].
    - Every member function takes the object and returns the new object;
      what it does to the outside (logging, the event loop, audio, input)
      is returned as a list of [Effect]s, in program order.
    - The functions are the ones the logic thread calls: the
      [InLogicThread] assertions and preconditions are taken to hold. *)

From Stdlib Require Import ZArith List String Ascii Bool Lia.
From Stdlib Require Import Floats.SpecFloat.
Import ListNotations.

Local Open Scope Z_scope.

(** ** Machine numbers *)

(** [int]: 32-bit two's complement. *)
Definition int32 (z : Z) : Z := (z + 2147483648) mod 4294967296 - 2147483648.

(** C++ [%] on [int]: the remainder of the division truncated towards zero,
    with the sign of the dividend. *)
Definition int_rem (a b : Z) : Z := Z.rem a b.

Module F32.
Definition float : Type := spec_float.
Definition prec : Z := 24.
Definition emax : Z := 128.
Definition add : float -> float -> float := SFadd prec emax.
Definition sub : float -> float -> float := SFsub prec emax.
Definition mul : float -> float -> float := SFmul prec emax.
(** [a <= b] and [a >= b] of C++: false as soon as one side is a NaN. *)
Definition le (a b : float) : bool := SFleb a b.
Definition ge (a b : float) : bool := SFleb b a.
Definition zero : float := S754_zero false.
Definition of_Z (z : Z) : float := binary_normalize prec emax z 0 false.
(** [0.5f] *)
Definition half : float := binary_normalize prec emax 1 (-1) false.
End F32.

(** ** Strings *)

Definition NUL : ascii := Ascii.zero.

(** [s.c_str()] read as a C string: the bytes in front of the first NUL. *)
Fixpoint c_str (s : string) : string :=
  match s with
  | EmptyString => EmptyString
  | String c r => if Ascii.eqb c NUL then EmptyString else String c (c_str r)
  end.

Fixpoint has_NUL (s : string) : bool :=
  match s with
  | EmptyString => false
  | String c r => Ascii.eqb c NUL || has_NUL r
  end.

Definition concat_strings (l : list string) : string :=
  fold_right String.append EmptyString l.

(** ** Constants of the file *)

Definition kDevConsoleLineLimit : Z := 80.
Definition kDevConsoleStringBreakUpSize : Z := 1950.

(** The key codes come from SDL through [min_sdl.h]; these are SDL2's values.
    They are the labels of one [switch], hence pairwise distinct. *)
Definition SDLK_BACKQUOTE : Z := 96.
Definition SDLK_F2 : Z := 1073741883.
Definition SDLK_ESCAPE : Z := 27.
Definition SDLK_BACKSPACE : Z := 8.
Definition SDLK_DELETE : Z := 127.
Definition SDLK_UP : Z := 1073741906.
Definition SDLK_DOWN : Z := 1073741905.
Definition SDLK_KP_ENTER : Z := 1073741912.
Definition SDLK_RETURN : Z := 13.
Definition kDevConsoleActivateKey1 : Z := SDLK_BACKQUOTE.
Definition kDevConsoleActivateKey2 : Z := SDLK_F2.

(** The size of [input_history_] above which [Exec] drops the oldest entry. *)
Definition kInputHistoryLimit : nat := 100.

(** ** Widgets *)

Inductive DevButtonAttach_ := kLeft | kCenter | kRight.

(** [XOffs]; [g_base->graphics->screen_virtual_width()] is read at every call
    and passed in as [screen_virtual_width]. *)
Definition XOffs (screen_virtual_width : F32.float) (attach : DevButtonAttach_)
  : F32.float :=
  match attach with
  | kLeft => F32.zero
  | kRight => screen_virtual_width
  | kCenter => F32.mul screen_virtual_width F32.half
  end.

(** The box test shared, word for word, by the three widget classes. *)
Definition InBox (svw : F32.float) (attach : DevButtonAttach_)
    (x y width height mx my : F32.float) : bool :=
  let mx := F32.sub mx (XOffs svw attach) in
  F32.ge mx x && F32.le mx (F32.add x width)
  && F32.ge my y && F32.le my (F32.add y height).

(** [Object::Ref<Runnable>] is a possibly empty reference: [option].
    [call.Get()->Run()] is recorded by returning the runnable that ran. *)
Definition Ref_Exists {Runnable : Type} (call : option Runnable) : bool :=
  match call with
  | Some _ => true
  | None => false
  end.

Definition run_if_exists {Runnable : Type} (call : option Runnable)
  : list Runnable :=
  match call with
  | Some r => [r]
  | None => []
  end.

Module Button_.
Record t (Runnable : Type) := mk {
  attach : DevButtonAttach_;
  x : F32.float;
  y : F32.float;
  width : F32.float;
  height : F32.float;
  pressed : bool;
  call : option Runnable;
  text_scale : F32.float
}.
Arguments mk {Runnable}.
Arguments attach {Runnable}.
Arguments x {Runnable}.
Arguments y {Runnable}.
Arguments width {Runnable}.
Arguments height {Runnable}.
Arguments pressed {Runnable}.
Arguments call {Runnable}.
Arguments text_scale {Runnable}.

Section Methods.
Context {Runnable : Type}.

Definition set_pressed (b : bool) (w : t Runnable) : t Runnable :=
  mk (attach w) (x w) (y w) (width w) (height w) b (call w) (text_scale w).

(** The constructor: [pressed{}] is false, [call] holds the lambda. *)
Definition new (scale : F32.float) (a : DevButtonAttach_)
    (x0 y0 w0 h0 : F32.float) (lambda : Runnable) : t Runnable :=
  mk a x0 y0 w0 h0 false (Some lambda) scale.

Definition InUs (svw : F32.float) (w : t Runnable) (mx my : F32.float)
  : bool :=
  InBox svw (attach w) (x w) (y w) (width w) (height w) mx my.

Definition HandleMouseDown (svw : F32.float) (w : t Runnable)
    (mx my : F32.float) : bool * t Runnable :=
  if InUs svw w mx my then (true, set_pressed true w) else (false, w).

Definition HandleMouseUp (svw : F32.float) (w : t Runnable)
    (mx my : F32.float) : t Runnable * list Runnable :=
  if pressed w then
    let w' := set_pressed false w in
    if InUs svw w' mx my then (w', run_if_exists (call w')) else (w', [])
  else (w, []).
End Methods.
End Button_.

Module ToggleButton_.
Record t (Runnable : Type) := mk {
  attach : DevButtonAttach_;
  x : F32.float;
  y : F32.float;
  width : F32.float;
  height : F32.float;
  pressed : bool;
  on : bool;
  on_call : option Runnable;
  off_call : option Runnable;
  text_scale : F32.float
}.
Arguments mk {Runnable}.
Arguments attach {Runnable}.
Arguments x {Runnable}.
Arguments y {Runnable}.
Arguments width {Runnable}.
Arguments height {Runnable}.
Arguments pressed {Runnable}.
Arguments on {Runnable}.
Arguments on_call {Runnable}.
Arguments off_call {Runnable}.
Arguments text_scale {Runnable}.

Section Methods.
Context {Runnable : Type}.

Definition set_pressed (b : bool) (w : t Runnable) : t Runnable :=
  mk (attach w) (x w) (y w) (width w) (height w) b (on w)
     (on_call w) (off_call w) (text_scale w).

Definition set_on (b : bool) (w : t Runnable) : t Runnable :=
  mk (attach w) (x w) (y w) (width w) (height w) (pressed w) b
     (on_call w) (off_call w) (text_scale w).

Definition new (scale : F32.float) (a : DevButtonAttach_)
    (x0 y0 w0 h0 : F32.float) (on_lambda off_lambda : Runnable)
  : t Runnable :=
  mk a x0 y0 w0 h0 false false (Some on_lambda) (Some off_lambda) scale.

Definition InUs (svw : F32.float) (w : t Runnable) (mx my : F32.float)
  : bool :=
  InBox svw (attach w) (x w) (y w) (width w) (height w) mx my.

Definition HandleMouseDown (svw : F32.float) (w : t Runnable)
    (mx my : F32.float) : bool * t Runnable :=
  if InUs svw w mx my then (true, set_pressed true w) else (false, w).

Definition HandleMouseUp (svw : F32.float) (w : t Runnable)
    (mx my : F32.float) : t Runnable * list Runnable :=
  if pressed w then
    let w' := set_pressed false w in
    if InUs svw w' mx my then
      let w'' := set_on (negb (on w')) w' in
      let call := if on w'' then on_call w'' else off_call w'' in
      (w'', run_if_exists call)
    else (w', [])
  else (w, []).
End Methods.
End ToggleButton_.

Module TabButton_.
Record t (Runnable : Type) := mk {
  attach : DevButtonAttach_;
  x : F32.float;
  y : F32.float;
  width : F32.float;
  height : F32.float;
  pressed : bool;
  selected : bool;
  call : option Runnable;
  text_scale : F32.float
}.
Arguments mk {Runnable}.
Arguments attach {Runnable}.
Arguments x {Runnable}.
Arguments y {Runnable}.
Arguments width {Runnable}.
Arguments height {Runnable}.
Arguments pressed {Runnable}.
Arguments selected {Runnable}.
Arguments call {Runnable}.
Arguments text_scale {Runnable}.

Section Methods.
Context {Runnable : Type}.

Definition set_pressed (b : bool) (w : t Runnable) : t Runnable :=
  mk (attach w) (x w) (y w) (width w) (height w) b (selected w)
     (call w) (text_scale w).

Definition new (sel : bool) (scale : F32.float) (a : DevButtonAttach_)
    (x0 y0 w0 h0 : F32.float) (lambda : Runnable) : t Runnable :=
  mk a x0 y0 w0 h0 false sel (Some lambda) scale.

Definition InUs (svw : F32.float) (w : t Runnable) (mx my : F32.float)
  : bool :=
  InBox svw (attach w) (x w) (y w) (width w) (height w) mx my.

Definition HandleMouseDown (svw : F32.float) (w : t Runnable)
    (mx my : F32.float) : bool * t Runnable :=
  if InUs svw w mx my && negb (selected w)
  then (true, set_pressed true w)
  else (false, w).

Definition HandleMouseUp (svw : F32.float) (w : t Runnable)
    (mx my : F32.float) : t Runnable * list Runnable :=
  if pressed w then
    let w' := set_pressed false w in
    if InUs svw w' mx my then (w', run_if_exists (call w')) else (w', [])
  else (w, []).
End Methods.
End TabButton_.

(** [Widget_]: the abstract class, as the closed sum of its three
    implementers, with the virtual calls dispatched on the tag. *)
Inductive Widget_ (Runnable : Type) :=
| WButton (b : Button_.t Runnable)
| WToggleButton (b : ToggleButton_.t Runnable)
| WTabButton (b : TabButton_.t Runnable).
Arguments WButton {Runnable}.
Arguments WToggleButton {Runnable}.
Arguments WTabButton {Runnable}.

Section WidgetDispatch.
Context {Runnable : Type}.

Definition Widget_InUs (svw : F32.float) (w : Widget_ Runnable)
    (mx my : F32.float) : bool :=
  match w with
  | WButton b => Button_.InUs svw b mx my
  | WToggleButton b => ToggleButton_.InUs svw b mx my
  | WTabButton b => TabButton_.InUs svw b mx my
  end.

Definition Widget_pressed (w : Widget_ Runnable) : bool :=
  match w with
  | WButton b => Button_.pressed b
  | WToggleButton b => ToggleButton_.pressed b
  | WTabButton b => TabButton_.pressed b
  end.

(** A tab that is already selected refuses presses. *)
Definition Widget_selected_tab (w : Widget_ Runnable) : bool :=
  match w with
  | WTabButton b => TabButton_.selected b
  | _ => false
  end.

(** Every reference to a runnable the widget holds is non-empty, as the
    constructors leave them. *)
Definition Widget_calls_exist (w : Widget_ Runnable) : bool :=
  match w with
  | WButton b => Ref_Exists (Button_.call b)
  | WToggleButton b =>
      Ref_Exists (ToggleButton_.on_call b)
      && Ref_Exists (ToggleButton_.off_call b)
  | WTabButton b => Ref_Exists (TabButton_.call b)
  end.

Definition Widget_HandleMouseDown (svw : F32.float) (w : Widget_ Runnable)
    (mx my : F32.float) : bool * Widget_ Runnable :=
  match w with
  | WButton b =>
      let '(r, b') := Button_.HandleMouseDown svw b mx my in (r, WButton b')
  | WToggleButton b =>
      let '(r, b') := ToggleButton_.HandleMouseDown svw b mx my in
      (r, WToggleButton b')
  | WTabButton b =>
      let '(r, b') := TabButton_.HandleMouseDown svw b mx my in
      (r, WTabButton b')
  end.

Definition Widget_HandleMouseUp (svw : F32.float) (w : Widget_ Runnable)
    (mx my : F32.float) : Widget_ Runnable * list Runnable :=
  match w with
  | WButton b =>
      let '(b', ran) := Button_.HandleMouseUp svw b mx my in (WButton b', ran)
  | WToggleButton b =>
      let '(b', ran) := ToggleButton_.HandleMouseUp svw b mx my in
      (WToggleButton b', ran)
  | WTabButton b =>
      let '(b', ran) := TabButton_.HandleMouseUp svw b mx my in
      (WTabButton b', ran)
  end.
End WidgetDispatch.

(** ** The console *)

Inductive State_ := kInactive | kMini | kFull.

(** [double] seconds of [g_base->logic->display_time()]; only stored. *)
Definition seconds_t : Type := spec_float.

Record Line_ := mkLine_ {
  creation_time : seconds_t;
  s : string
}.

(** The members of [DevConsole] that input handling, submission and
    printing read or write.  The widget lists, the text groups and meshes
    and the string-edit adapter belong to drawing and to mouse dispatch. *)
Record DevConsole := mkDevConsole {
  state_ : State_;
  state_prev_ : State_;
  transition_start_ : seconds_t;
  input_string_ : string;
  input_text_dirty_ : bool;
  input_history_ : list string;
  input_history_position_ : Z;
  input_enabled_ : bool;
  last_line_ : string;
  last_line_mesh_dirty_ : bool;
  lines_ : list Line_
}.

Definition with_state (st prev : State_) (start : seconds_t) (c : DevConsole)
  : DevConsole :=
  mkDevConsole st prev start (input_string_ c) (input_text_dirty_ c)
    (input_history_ c) (input_history_position_ c) (input_enabled_ c)
    (last_line_ c) (last_line_mesh_dirty_ c) (lines_ c).

(** [input_string_ = val; input_text_dirty_ = true;] *)
Definition with_input (val : string) (c : DevConsole) : DevConsole :=
  mkDevConsole (state_ c) (state_prev_ c) (transition_start_ c) val true
    (input_history_ c) (input_history_position_ c) (input_enabled_ c)
    (last_line_ c) (last_line_mesh_dirty_ c) (lines_ c).

Definition with_history (h : list string) (c : DevConsole) : DevConsole :=
  mkDevConsole (state_ c) (state_prev_ c) (transition_start_ c)
    (input_string_ c) (input_text_dirty_ c) h (input_history_position_ c)
    (input_enabled_ c) (last_line_ c) (last_line_mesh_dirty_ c) (lines_ c).

Definition with_history_position (p : Z) (c : DevConsole) : DevConsole :=
  mkDevConsole (state_ c) (state_prev_ c) (transition_start_ c)
    (input_string_ c) (input_text_dirty_ c) (input_history_ c) p
    (input_enabled_ c) (last_line_ c) (last_line_mesh_dirty_ c) (lines_ c).

Definition with_input_enabled (b : bool) (c : DevConsole) : DevConsole :=
  mkDevConsole (state_ c) (state_prev_ c) (transition_start_ c)
    (input_string_ c) (input_text_dirty_ c) (input_history_ c)
    (input_history_position_ c) b (last_line_ c) (last_line_mesh_dirty_ c)
    (lines_ c).

(** The line buffer: the finalized lines and the accumulator. *)
Definition with_line_buffer (ls : list Line_) (last : string) (dirty : bool)
    (c : DevConsole) : DevConsole :=
  mkDevConsole (state_ c) (state_prev_ c) (transition_start_ c)
    (input_string_ c) (input_text_dirty_ c) (input_history_ c)
    (input_history_position_ c) (input_enabled_ c) last dirty ls.

(** What a member function does outside the object. *)
Inductive Effect :=
| Log_Warning (msg : string)
    (** [Log(LogLevel::kWarning, msg)] *)
| PushCall_Command (command : string)
    (** [SubmitCommand_]: the closure holding a copy of [command], pushed on
        the logic event loop, the console's execution boundary *)
| PlaySound_Blip
| ResetHoldStates.

Record BuildConfig := mkBuildConfig {
  demo_build : bool;
  arcade_build : bool
}.

Definition set_input_string (val : string) (c : DevConsole) : DevConsole :=
  with_input val c.

Definition EnableInput (c : DevConsole) : DevConsole :=
  with_input_enabled true c.

Definition Dismiss (now : seconds_t) (c : DevConsole) : DevConsole :=
  match state_ c with
  | kInactive => c
  | _ => with_state kInactive (state_ c) now c
  end.

Definition ToggleState (now : seconds_t) (c : DevConsole)
  : DevConsole * list Effect :=
  let next :=
    match state_ c with
    | kInactive => kMini
    | kMini => kFull
    | kFull => kInactive
    end in
  (with_state next (state_ c) now c, [PlaySound_Blip]).

Definition SubmitCommand_ (command : string) : list Effect :=
  [PushCall_Command command].

(** [push_front] and then at most one [pop_back]. *)
Definition push_history (entry : string) (h : list string) : list string :=
  let h' := entry :: h in
  if (kInputHistoryLimit <? List.length h')%nat then removelast h' else h'.

Definition Exec (c : DevConsole) : DevConsole * list Effect :=
  if negb (input_enabled_ c) then
    (c, [Log_Warning "Console input is not allowed yet."])
  else
    let c := with_history_position 0 c in
    let '(c, effects) :=
      if String.eqb (input_string_ c) "clear"
      then (with_line_buffer [] EmptyString (last_line_mesh_dirty_ c) c, [])
      else (c, SubmitCommand_ (input_string_ c)) in
    let c := with_history (push_history (input_string_ c) (input_history_ c)) c in
    (with_input EmptyString c, effects).

Definition HandleTextEditing (text : string) (c : DevConsole)
  : bool * DevConsole :=
  match state_ c with
  | kInactive => (false, c)
  | _ =>
      if String.eqb text "`" then (false, c)
      else (true, with_input (String.append (input_string_ c) text) c)
  end.

Definition HandleKeyRelease (sym : Z) (c : DevConsole) : bool :=
  if (sym =? kDevConsoleActivateKey1) || (sym =? kDevConsoleActivateKey2)
  then true
  else
    match state_ c with
    | kInactive => false
    | _ => true
    end.

(** The [for] loop of the Up/Down case: [j] counts the entries walked, the
    entry at which [j == input_history_position_used] is the one taken. *)
Fixpoint history_scan (used j : Z) (h : list string) : option string :=
  match h with
  | [] => None
  | i :: rest =>
      if j =? used then Some i else history_scan used (int32 (j + 1)) rest
  end.

(** The Up/Down case, entered with a non-empty history: the moved cursor,
    the index computed from it and the entry found, if one is. *)
Definition history_move (up : bool) (c : DevConsole) : DevConsole :=
  let pos := int32 (if up then input_history_position_ c + 1
                    else input_history_position_ c - 1) in
  let c := with_history_position pos c in
  let input_history_position_used :=
    int_rem (int32 (pos - 1)) (int32 (Z.of_nat (List.length (input_history_ c)))) in
  match history_scan input_history_position_used 0 (input_history_ c) with
  | Some i => with_input i c
  | None => c
  end.

(** ** Text support the console calls into

    [Utils::GetValidUTF8], [Utils::UnicodeFromUTF8], [Utils::UTF8FromUnicode]
    ([shared/generic/utils.h]) and [TextGraphics::GetStringWidth],
    [TextGraphics::BreakUpString] ([base/graphics/text/text_graphics.h]) are
    defined elsewhere in the engine.  The console is embedded over any
    implementation of them. *)
Class TextSupport := {
  GetValidUTF8 : string -> string;
  UnicodeFromUTF8 : string -> list N;
  UTF8FromUnicode : list N -> string;
  GetStringWidth : string -> F32.float;
  BreakUpString : string -> F32.float -> list string
}.

(** The break-up budget, converted from [int] to the [float] parameter. *)
Definition break_up_budget : F32.float := F32.of_Z kDevConsoleStringBreakUpSize.

(** Modelled from the spec: [TextGraphics::BreakUpString], whose body lives
    in [text_graphics.cc] and is not embedded here, at the console's budget.
    The specification says of it that the buffer is split
    into finalized lines and a remainder accumulator (so a remainder is
    always returned), preserving byte order (the pieces, in order, are the
    text that was passed in), and that no finalized line's shaped width
    exceeds the budget. *)
Class BreakUpStringSpec (T : TextSupport) : Prop := {
  BreakUpString_remainder :
    forall text, BreakUpString text break_up_budget <> [];
  BreakUpString_bytes :
    forall text,
      concat_strings (BreakUpString text break_up_budget) = text;
  BreakUpString_width :
    forall text piece,
      In piece (removelast (BreakUpString text break_up_budget)) ->
      F32.le (GetStringWidth piece) break_up_budget = true
}.

(** A line whose shaped width does not exceed the break-up budget. *)
Definition within_budget {T : TextSupport} (line : Line_) : Prop :=
  F32.le (GetStringWidth (s line)) break_up_budget = true.

Section Console.
Context {T : TextSupport}.

(** The [for] loop of [Print]: each completed piece becomes a [Line_] at
    the back of [lines_], and the front one goes once there are more than
    [kDevConsoleLineLimit]. *)
Fixpoint emplace_lines (now : seconds_t) (pieces : list string)
    (lines : list Line_) : list Line_ :=
  match pieces with
  | [] => lines
  | p :: rest =>
      let lines := (lines ++ [mkLine_ now p])%list in
      let lines :=
        if Z.of_nat (List.length lines) >? kDevConsoleLineLimit
        then tl lines else lines in
      emplace_lines now rest lines
  end.

(** [Print].  The result carries, next to the console, the [Line_]s this
    call constructed, oldest first.  With an empty [broken_up] the
    unsigned [broken_up.size() - 1] wraps around and the vector is read
    out of bounds: no result. *)
Definition Print (now : seconds_t) (s_in : string) (c : DevConsole)
  : option (DevConsole * list Line_) :=
  let s := GetValidUTF8 (c_str s_in) in
  let last_line := String.append (last_line_ c) s in
  let broken_up := BreakUpString (c_str last_line) break_up_budget in
  match broken_up with
  | [] => None
  | _ =>
      let completed := removelast broken_up in
      Some (with_line_buffer (emplace_lines now completed (lines_ c))
              (last broken_up EmptyString) true c,
            map (mkLine_ now) completed)
  end.

(** A sequence of [Print] calls, each with the display time it runs at. *)
Fixpoint Print_all (calls : list (seconds_t * string)) (c : DevConsole)
  : option (DevConsole * list Line_) :=
  match calls with
  | [] => Some (c, [])
  | (now, s_in) :: rest =>
      match Print now s_in c with
      | None => None
      | Some (c1, finalized1) =>
          match Print_all rest c1 with
          | None => None
          | Some (c2, finalized2) => Some (c2, (finalized1 ++ finalized2)%list)
          end
      end
  end.

(** The text one [Print] call contributes to the line buffer: the valid
    UTF-8 of the argument read as a C string, as [BreakUpString] then reads
    it through [c_str()]. *)
Definition appended_text (s_in : string) : string :=
  c_str (GetValidUTF8 (c_str s_in)).

(** [HandleKeyPress].  [g_base->ui->dev_console()] is this console. *)
Definition HandleKeyPress (cfg : BuildConfig) (now : seconds_t) (sym : Z)
    (c : DevConsole) : bool * DevConsole * list Effect :=
  if (sym =? kDevConsoleActivateKey1) || (sym =? kDevConsoleActivateKey2)
  then
    if negb (demo_build cfg) && negb (arcade_build cfg) then
      let '(c', effects) := ToggleState now c in
      (true, c', ResetHoldStates :: effects)
    else (true, c, [])
  else
    match state_ c with
    | kInactive => (false, c, [])
    | _ =>
        if sym =? SDLK_ESCAPE then (true, Dismiss now c, [])
        else if (sym =? SDLK_BACKSPACE) || (sym =? SDLK_DELETE) then
          match UnicodeFromUTF8 (input_string_ c) with
          | [] => (true, c, [])
          | unichars =>
              (true, with_input (UTF8FromUnicode (removelast unichars)) c, [])
          end
        else if (sym =? SDLK_UP) || (sym =? SDLK_DOWN) then
          match input_history_ c with
          | [] => (true, c, [])
          | _ => (true, history_move (sym =? SDLK_UP) c, [])
          end
        else if (sym =? SDLK_KP_ENTER) || (sym =? SDLK_RETURN) then
          let '(c', effects) := Exec c in (true, c', effects)
        else (true, c, [])
    end.

(** A run of key presses; the consoles after each press, in order. *)
Fixpoint press_keys (cfg : BuildConfig) (now : seconds_t) (syms : list Z)
    (c : DevConsole) : list DevConsole :=
  match syms with
  | [] => []
  | sym :: rest =>
      let '(_, c', _) := HandleKeyPress cfg now sym c in
      c' :: press_keys cfg now rest c'
  end.
End Console.

(** ** Runs of calls *)

(** One submission: the input string is set, then [Exec] runs. *)
Definition submit (text : string) (c : DevConsole) : DevConsole * list Effect :=
  Exec (set_input_string text c).

Fixpoint submit_all (texts : list string) (c : DevConsole)
  : DevConsole * list Effect :=
  match texts with
  | [] => (c, [])
  | text :: rest =>
      let '(c1, effects1) := submit text c in
      let '(c2, effects2) := submit_all rest c1 in
      (c2, (effects1 ++ effects2)%list)
  end.

(** The successor of a state in the cycle [ToggleState] walks. *)
Definition next_state (st : State_) : State_ :=
  match st with
  | kInactive => kMini
  | kMini => kFull
  | kFull => kInactive
  end.

Fixpoint toggle_times (n : nat) (now : seconds_t) (c : DevConsole)
  : DevConsole :=
  match n with
  | O => c
  | S n' => toggle_times n' now (fst (ToggleState now c))
  end.

(** The commands handed to the execution boundary, in order. *)
Fixpoint pushed_commands (effects : list Effect) : list string :=
  match effects with
  | [] => []
  | PushCall_Command command :: rest => command :: pushed_commands rest
  | _ :: rest => pushed_commands rest
  end.

(** ** The specification's trimmed command

    The specification compares the trimmed command with the keyword; this is
    that trimming (white space taken off both ends), written from its words
    to be set against what [Exec] compares. *)
Definition is_space (c : ascii) : bool :=
  let n := nat_of_ascii c in
  (n =? 32)%nat || ((9 <=? n)%nat && (n <=? 13)%nat).

Fixpoint ltrim (l : list ascii) : list ascii :=
  match l with
  | [] => []
  | c :: rest => if is_space c then ltrim rest else l
  end.

Definition spec_trim (text : string) : string :=
  string_of_list_ascii
    (rev (ltrim (rev (ltrim (list_ascii_of_string text))))).

(** ** A small text support to run the console on

    Single-byte text in a fixed-advance face: every byte is one code point
    650 units wide, so that three fit in the console's budget of 1950, and
    [BreakUpString] cuts greedily after every third byte still followed by
    text. *)
Definition push_byte (c : ascii) (pieces : list string) : list string :=
  match pieces with
  | [] => [String c EmptyString]
  | p :: ps => String c p :: ps
  end.

Fixpoint chunk (n k : nat) (text : string) : list string :=
  match text with
  | EmptyString => [EmptyString]
  | String c rest =>
      match k with
      | O => EmptyString :: push_byte c (chunk n (n - 1) rest)
      | S k' => push_byte c (chunk n k' rest)
      end
  end.

Definition fixed_advance : TextSupport := {|
  GetValidUTF8 := fun text => text;
  UnicodeFromUTF8 := fun text => map N_of_ascii (list_ascii_of_string text);
  UTF8FromUnicode := fun l => string_of_list_ascii (map ascii_of_N l);
  GetStringWidth := fun text => F32.of_Z (650 * Z.of_nat (String.length text));
  BreakUpString := fun text _ => chunk 3 3 text
|}.

(** Consoles to run examples on. *)
Definition t0 : seconds_t := S754_zero false.

Definition console0 : DevConsole :=
  mkDevConsole kInactive kInactive t0 EmptyString false [] 0 false
    EmptyString false [].

Definition console_full : DevConsole :=
  EnableInput (with_state kFull kMini t0 console0).

Definition cfg0 : BuildConfig := mkBuildConfig false false.

(** The full console with "x" typed, input not enabled. *)
Definition console_typed_x : DevConsole :=
  mkDevConsole kFull kMini t0 "x" true [] 0 false EmptyString false [].

Definition console_with_output (input : string) : DevConsole :=
  with_input input
    (with_line_buffer [mkLine_ t0 "old"] "acc" false console_full).

Definition console_c3c2c1 : DevConsole :=
  with_history ["c3"; "c2"; "c1"]%string console_full.

(** ** Statements taken from the specification as it words them

    Each is a proposition about the embedded code; whether it holds is
    settled among the theorems. *)

(** "If the trimmed command equals the reserved keyword, [Exec] wipes the
    line buffer and forwards nothing; any other command is dispatched
    verbatim and the line buffer is left as it is." *)
Definition Exec_clear_on_trimmed (c : DevConsole) : Prop :=
  input_enabled_ c = true ->
  let c' := fst (Exec c) in
  let effects := snd (Exec c) in
  (spec_trim (input_string_ c) = "clear"%string ->
     lines_ c' = [] /\ last_line_ c' = EmptyString
     /\ pushed_commands effects = [])
  /\ (spec_trim (input_string_ c) <> "clear"%string ->
     pushed_commands effects = [input_string_ c]
     /\ lines_ c' = lines_ c /\ last_line_ c' = last_line_ c).

(** "Pressing Up or Down replaces the input string with the history entry
    at index ((cursor - 1) mod history_length)", the cursor being the moved
    one and [mod] the mathematical one, with values in [0, length). *)
Definition history_entry_as_stated (up : bool) (c : DevConsole) : Prop :=
  input_history_ c <> [] ->
  let c' := history_move up c in
  let index :=
    (input_history_position_ c' - 1)
      mod Z.of_nat (List.length (input_history_ c)) in
  nth_error (input_history_ c) (Z.to_nat index) = Some (input_string_ c').

(** "A press and a release that both hit invoke the action exactly once",
    for a widget of any of the three kinds. *)
Definition press_release_runs_once {Runnable : Type} (svw : F32.float)
    (w : Widget_ Runnable) (px py rx ry : F32.float) : Prop :=
  let w1 := snd (Widget_HandleMouseDown svw w px py) in
  Widget_InUs svw w px py = true ->
  Widget_InUs svw w1 rx ry = true ->
  List.length (snd (Widget_HandleMouseUp svw w1 rx ry)) = 1%nat.

(** "The finalized lines followed by the accumulator are, byte for byte,
    the appended strings one after the other", for the strings as they are
    passed to [Print]. *)
Definition Print_keeps_every_byte {T : TextSupport}
    (calls : list (seconds_t * string)) (c : DevConsole) : Prop :=
  forall c' finalized,
    Print_all calls c = Some (c', finalized) ->
    String.append (concat_strings (map s finalized)) (last_line_ c')
    = String.append (last_line_ c) (concat_strings (map snd calls)).

(** The last [n] elements of a list. *)
Definition lastn {A : Type} (n : nat) (l : list A) : list A :=
  rev (firstn n (rev l)).

(** The runnable a release inside the widget runs. *)
Definition Widget_release_call {Runnable : Type} (w : Widget_ Runnable)
  : option Runnable :=
  match w with
  | WButton b => Button_.call b
  | WToggleButton b =>
      if negb (ToggleButton_.on b)
      then ToggleButton_.on_call b else ToggleButton_.off_call b
  | WTabButton b => TabButton_.call b
  end.

(** Widgets to run examples on: a 10 by 10 box at the left edge. *)
Definition sample_tab (selected : bool) : Widget_ unit :=
  WTabButton (TabButton_.new selected (F32.of_Z 1) kLeft
                (F32.of_Z 0) (F32.of_Z 0) (F32.of_Z 10) (F32.of_Z 10) tt).

Definition sample_button : Widget_ unit :=
  WButton (Button_.new (F32.of_Z 1) kLeft
             (F32.of_Z 0) (F32.of_Z 0) (F32.of_Z 10) (F32.of_Z 10) tt).

(** ** Input events as the input boundary delivers them *)

Inductive InputEvent :=
| KeyPress (sym : Z)
| KeyRelease (sym : Z)
| TextEditing (text : string).

Definition handle_event {T : TextSupport} (cfg : BuildConfig)
    (now : seconds_t) (ev : InputEvent) (c : DevConsole)
  : bool * DevConsole * list Effect :=
  match ev with
  | KeyPress sym => HandleKeyPress cfg now sym c
  | KeyRelease sym => (HandleKeyRelease sym c, c, [])
  | TextEditing text =>
      let '(consumed, c') := HandleTextEditing text c in (consumed, c', [])
  end.

(** A run of events, each at its display time: the console it leaves and
    everything it did outside, in order. *)
Fixpoint run_events {T : TextSupport} (cfg : BuildConfig)
    (events : list (seconds_t * InputEvent)) (c : DevConsole)
  : DevConsole * list Effect :=
  match events with
  | [] => (c, [])
  | (now, ev) :: rest =>
      let '(_, c1, effects1) := handle_event cfg now ev c in
      let '(c2, effects2) := run_events cfg rest c1 in
      (c2, (effects1 ++ effects2)%list)
  end.

(** Text-input events one after the other. *)
Fixpoint type_texts (texts : list string) (c : DevConsole) : DevConsole :=
  match texts with
  | [] => c
  | text :: rest => type_texts rest (snd (HandleTextEditing text c))
  end.

(** The text-input events that are not the lone back-tick. *)
Definition typed_text (texts : list string) : string :=
  concat_strings (filter (fun text => negb (String.eqb text "`")) texts).

(** A press and the release that follows it at the same point. *)
Definition ToggleButton_click {Runnable : Type} (svw : F32.float)
    (b : ToggleButton_.t Runnable) (mx my : F32.float)
  : ToggleButton_.t Runnable * list Runnable :=
  ToggleButton_.HandleMouseUp svw
    (snd (ToggleButton_.HandleMouseDown svw b mx my)) mx my.

Definition sample_toggle : ToggleButton_.t string :=
  ToggleButton_.new (F32.of_Z 1) kLeft
    (F32.of_Z 0) (F32.of_Z 0) (F32.of_Z 10) (F32.of_Z 10)
    "on"%string "off"%string.

(** ** The console with its widgets

    The rest of [DevConsole]: the widget lists, the tabs, the pending
    console press and the string-edit adapter, around the members embedded
    in [DevConsole] above, and the member functions that use them. *)

(** [double], IEEE binary64. *)
Module F64.
Definition float : Type := spec_float.
Definition prec : Z := 53.
Definition emax : Z := 1024.
Definition add : float -> float -> float := SFadd prec emax.
Definition sub : float -> float -> float := SFsub prec emax.
Definition mul : float -> float -> float := SFmul prec emax.
Definition div : float -> float -> float := SFdiv prec emax.
Definition lt (a b : float) : bool := SFltb a b.
Definition of_Z (z : Z) : float := binary_normalize prec emax z 0 false.
End F64.

(** What C++ does between the two types, and the [float] operations the
    widgets did not need. *)
Module Cxx.
Definition f32_div : F32.float -> F32.float -> F32.float :=
  SFdiv F32.prec F32.emax.
Definition f32_lt (a b : F32.float) : bool := SFltb a b.
Definition f32_gt (a b : F32.float) : bool := SFltb b a.
Definition f32_neg (a : F32.float) : F32.float := SFopp a.

(** The literal [m / 10^k] with suffix [f]: the [float] nearest to the
    quotient of two integers that are floats themselves. *)
Definition f32_decimal (m k : Z) : F32.float :=
  f32_div (F32.of_Z m) (F32.of_Z (10 ^ k)).

Definition round_to (prec emax : Z) (x : spec_float) : spec_float :=
  match x with
  | S754_finite sign m e => binary_normalize prec emax (cond_Zopp sign (Zpos m)) e sign
  | _ => x
  end.

(** [float] to [double], exact, and [double] to [float], rounded. *)
Definition float_to_double : F32.float -> F64.float :=
  round_to F64.prec F64.emax.
Definition double_to_float : F64.float -> F32.float :=
  round_to F32.prec F32.emax.
End Cxx.

Definition kDevConsoleSize : F32.float := Cxx.f32_decimal 9 1.

(** [const double kTransitionSeconds = 0.1] *)
Definition kTransitionSeconds : F64.float := F64.div (F64.of_Z 1) (F64.of_Z 10).

Inductive UIScale := kLarge | kMedium | kSmall | kLast.

(** A reference to a Python object, by identity. *)
Definition PythonRef : Type := nat.

(** What a call reads from [g_base] while it runs. *)
Record Host := mkHost {
  ui_scale : UIScale;
  graphics_screen_virtual_width : F32.float;
  graphics_screen_virtual_height : F32.float;
  logic_display_time : seconds_t;
  UIHasDirectKeyboardInput : bool;
  HaveStringEditor : bool;
  (** [CanPyStringEditAdapterBeReplaced] when the call starts *)
  CanPyStringEditAdapterBeReplaced : PythonRef -> bool;
  (** the result of calling [kDevConsoleStringEditAdapterClass], empty when
      the call fails *)
  StringEditAdapterClass_Call : option PythonRef;
  (** [CanPyStringEditAdapterBeReplaced] once that call has returned *)
  CanPyStringEditAdapterBeReplaced_after_Call : PythonRef -> bool
}.

Definition PythonConsoleBaseScale_ (h : Host) : F32.float :=
  match ui_scale h with
  | kLarge => Cxx.f32_decimal 15 1
  | kMedium => Cxx.f32_decimal 175 2
  | kSmall | kLast => F32.of_Z 2
  end.

Definition Bottom_ (h : Host) (c : DevConsole) : F32.float :=
  let bs := PythonConsoleBaseScale_ h in
  let vh := graphics_screen_virtual_height h in
  let elapsed := F64.sub (logic_display_time h) (transition_start_ c) in
  let ratio := Cxx.double_to_float (F64.div elapsed kTransitionSeconds) in
  let mini_size := F32.mul (F32.of_Z 90) bs in
  let bottom :=
    match state_ c with
    | kMini => F32.sub vh mini_size
    | _ => F32.sub vh (F32.mul vh kDevConsoleSize)
    end in
  if F64.lt elapsed kTransitionSeconds then
    let height_of st :=
      match st with
      | kMini => F32.sub vh mini_size
      | kFull => F32.sub vh (F32.mul vh kDevConsoleSize)
      | kInactive => vh
      end in
    let from_height := height_of (state_prev_ c) in
    let to_height := height_of (state_ c) in
    Cxx.double_to_float
      (F64.add (Cxx.float_to_double (F32.mul to_height ratio))
         (F64.mul (Cxx.float_to_double from_height)
            (F64.sub (F64.of_Z 1) (Cxx.float_to_double ratio))))
  else bottom.

(** The two lambdas the console binds to its widgets. *)
Inductive Lambda :=
| Lambda_Exec
    (** [[this] { Exec(); }] *)
| Lambda_SelectTab (tab : string)
    (** [[this, tab] { active_tab_ = tab; Refresh(); }] *).

Record DevConsoleW := mkDevConsoleW {
  console : DevConsole;
  tabs_ : list string;
  active_tab_ : string;
  tab_buttons_ : list (Widget_ Lambda);
  buttons_ : list (Widget_ Lambda);
  python_console_pressed_ : bool;
  string_edit_adapter_ : option PythonRef
}.

Definition with_console (c : DevConsole) (w : DevConsoleW) : DevConsoleW :=
  mkDevConsoleW c (tabs_ w) (active_tab_ w) (tab_buttons_ w) (buttons_ w)
    (python_console_pressed_ w) (string_edit_adapter_ w).

Definition with_active_tab (tab : string) (w : DevConsoleW) : DevConsoleW :=
  mkDevConsoleW (console w) (tabs_ w) tab (tab_buttons_ w) (buttons_ w)
    (python_console_pressed_ w) (string_edit_adapter_ w).

Definition with_tab_buttons (ws : list (Widget_ Lambda)) (w : DevConsoleW)
  : DevConsoleW :=
  mkDevConsoleW (console w) (tabs_ w) (active_tab_ w) ws (buttons_ w)
    (python_console_pressed_ w) (string_edit_adapter_ w).

Definition with_buttons (ws : list (Widget_ Lambda)) (w : DevConsoleW)
  : DevConsoleW :=
  mkDevConsoleW (console w) (tabs_ w) (active_tab_ w) (tab_buttons_ w) ws
    (python_console_pressed_ w) (string_edit_adapter_ w).

Definition with_python_console_pressed (b : bool) (w : DevConsoleW)
  : DevConsoleW :=
  mkDevConsoleW (console w) (tabs_ w) (active_tab_ w) (tab_buttons_ w)
    (buttons_ w) b (string_edit_adapter_ w).

Definition with_string_edit_adapter (a : option PythonRef) (w : DevConsoleW)
  : DevConsoleW :=
  mkDevConsoleW (console w) (tabs_ w) (active_tab_ w) (tab_buttons_ w)
    (buttons_ w) (python_console_pressed_ w) a.

(** The loop of [RefreshTabsButtons_], [x] moving right by one button
    width per tab. *)
Fixpoint tab_buttons_from (bscale bwidth bheight : F32.float)
    (active_tab : string) (x : F32.float) (tabs : list string)
  : list (Widget_ Lambda) :=
  match tabs with
  | [] => []
  | tab :: rest =>
      WTabButton
        (TabButton_.new (String.eqb active_tab tab) bscale kCenter x
           (Cxx.f32_neg bheight) bwidth bheight (Lambda_SelectTab tab))
      :: tab_buttons_from bscale bwidth bheight active_tab
           (F32.add x bwidth) rest
  end.

Definition RefreshTabsButtons_ (h : Host) (w : DevConsoleW)
  : list (Widget_ Lambda) :=
  let bs := PythonConsoleBaseScale_ h in
  let bwidth := F32.mul (F32.of_Z 90) bs in
  let bheight := F32.mul (F32.of_Z 26) bs in
  let bscale := F32.mul (Cxx.f32_decimal 8 1) bs in
  let total_width :=
    F32.mul (F32.of_Z (Z.of_nat (List.length (tabs_ w)))) bwidth in
  let x := F32.mul total_width (Cxx.f32_neg F32.half) in
  tab_buttons_from bscale bwidth bheight (active_tab_ w) x (tabs_ w).

(** The button [Refresh] makes on the Python tab. *)
Definition Exec_Button_ (h : Host) : Button_.t Lambda :=
  let bs := PythonConsoleBaseScale_ h in
  Button_.new (F32.mul (Cxx.f32_decimal 75 2) bs) kRight
    (F32.mul (F32.of_Z (-33)) bs) (F32.mul (Cxx.f32_decimal 1595 2) bs)
    (F32.mul (F32.of_Z 32) bs) (F32.mul (F32.of_Z 13) bs) Lambda_Exec.

Definition Exec_button (h : Host) : Widget_ Lambda := WButton (Exec_Button_ h).

Definition Refresh (h : Host) (w : DevConsoleW) : DevConsoleW :=
  let w := with_buttons [] w in
  let w := with_tab_buttons [] w in
  let w := with_tab_buttons (RefreshTabsButtons_ h w) w in
  if String.eqb (active_tab_ w) "Python"
  then with_buttons (buttons_ w ++ [Exec_button h]) w
  else w.

(** The loops of [HandleMouseDown]: the widgets are offered the press in
    order until one takes it. *)
Fixpoint widgets_mouse_down (svw : F32.float) (ws : list (Widget_ Lambda))
    (mx my : F32.float) : bool * list (Widget_ Lambda) :=
  match ws with
  | [] => (false, [])
  | wd :: rest =>
      let '(taken, wd') := Widget_HandleMouseDown svw wd mx my in
      if taken then (true, wd' :: rest)
      else
        let '(taken_later, rest') := widgets_mouse_down svw rest mx my in
        (taken_later, wd' :: rest')
  end.

Definition HandleMouseDown (h : Host) (button : Z) (x y : F32.float)
    (w : DevConsoleW) : bool * DevConsoleW :=
  match state_ (console w) with
  | kInactive => (false, w)
  | _ =>
      let bottom := Bottom_ h (console w) in
      let svw := graphics_screen_virtual_width h in
      let after_widgets :=
        if button =? 1 then
          let '(taken, tabs') :=
            widgets_mouse_down svw (tab_buttons_ w) x (F32.sub y bottom) in
          let w := with_tab_buttons tabs' w in
          if taken then (true, w)
          else
            let '(taken, buttons') :=
              widgets_mouse_down svw (buttons_ w) x (F32.sub y bottom) in
            (taken, with_buttons buttons' w)
        else (false, w) in
      let '(taken, w) := after_widgets in
      if taken then (true, w)
      else if Cxx.f32_lt y bottom then (false, w)
      else
        (true, if button =? 1 then with_python_console_pressed true w else w)
  end.

(** What the console does outside, with the string editor. *)
Inductive WEffect :=
| Core (e : Effect)
| Log_Error (msg : string)
| Call_StringEditAdapterClass
| Platform_InvokeStringEditor (adapter : PythonRef).

Definition InvokeStringEditor_ (h : Host) (w : DevConsoleW)
  : DevConsoleW * list WEffect :=
  let held_and_valid :=
    match string_edit_adapter_ w with
    | Some adapter => negb (CanPyStringEditAdapterBeReplaced h adapter)
    | None => false
    end in
  if held_and_valid then (w, [])
  else
    match StringEditAdapterClass_Call h with
    | None =>
        (w, [Call_StringEditAdapterClass;
             Log_Error "Error invoking string edit dialog."])
    | Some result =>
        if CanPyStringEditAdapterBeReplaced_after_Call h result
        then (w, [Call_StringEditAdapterClass])
        else (with_string_edit_adapter (Some result) w,
              [Call_StringEditAdapterClass;
               Platform_InvokeStringEditor result])
    end.

Definition InputAdapterFinish (w : DevConsoleW) : DevConsoleW :=
  with_string_edit_adapter None w.

(** The list a loop of [HandleMouseUp] walks, and the list put back. *)
Definition widget_list (tabs : bool) (w : DevConsoleW)
  : list (Widget_ Lambda) :=
  if tabs then tab_buttons_ w else buttons_ w.

Definition with_widget_list (tabs : bool) (ws : list (Widget_ Lambda))
    (w : DevConsoleW) : DevConsoleW :=
  if tabs then with_tab_buttons ws w else with_buttons ws w.

Fixpoint set_nth {A : Type} (place : nat) (x : A) (l : list A) : list A :=
  match l, place with
  | [], _ => []
  | _ :: rest, O => x :: rest
  | y :: rest, S place' => y :: set_nth place' x rest
  end.

(** The calls one release ran, in order: [Exec] works on the console
    members; a tab's lambda assigns [active_tab_] and calls [Refresh], which
    clears and refills both widget lists. *)
Fixpoint run_lambdas (h : Host) (ran : list Lambda) (w : DevConsoleW)
  : DevConsoleW * list Effect :=
  match ran with
  | [] => (w, [])
  | Lambda_Exec :: rest =>
      let '(c1, effects1) := Exec (console w) in
      let '(w2, effects2) := run_lambdas h rest (with_console c1 w) in
      (w2, (effects1 ++ effects2)%list)
  | Lambda_SelectTab tab :: rest =>
      run_lambdas h rest (Refresh h (with_active_tab tab w))
  end.

(** One of the two [for] loops of [HandleMouseUp].  The loop has no exit:
    it walks the places of the vector from its first to the one that was the
    last when the loop started ([steps] places, from [place] on).  The
    widget at a place takes the release, with its new flags in the vector
    before its lambda runs; when a tab's lambda has rebuilt the lists, the
    walk goes on at the next place of the rebuilt list (a place the rebuilt
    list does not have is passed over). *)
Fixpoint widgets_mouse_up (h : Host) (tabs : bool) (steps place : nat)
    (mx my : F32.float) (w : DevConsoleW) : DevConsoleW * list Effect :=
  match steps with
  | O => (w, [])
  | S steps' =>
      match nth_error (widget_list tabs w) place with
      | None => widgets_mouse_up h tabs steps' (S place) mx my w
      | Some wd =>
          let '(wd', ran) :=
            Widget_HandleMouseUp (graphics_screen_virtual_width h) wd mx my in
          let w1 :=
            with_widget_list tabs (set_nth place wd' (widget_list tabs w)) w in
          let '(w2, effects1) := run_lambdas h ran w1 in
          let '(w3, effects2) :=
            widgets_mouse_up h tabs steps' (S place) mx my w2 in
          (w3, (effects1 ++ effects2)%list)
      end
  end.

(** What [HandleMouseUp] leaves: the console and what was done outside. *)
Inductive MouseUp :=
| Returned (w : DevConsoleW) (effects : list WEffect).

(** The end of [HandleMouseUp], after the loops. *)
Definition release_console_press (h : Host) (button : Z) (y bottom : F32.float)
    (w : DevConsoleW) : DevConsoleW * list WEffect :=
  if (button =? 1) && python_console_pressed_ w then
    let w := with_python_console_pressed false w in
    if Cxx.f32_gt y bottom then
      if negb (UIHasDirectKeyboardInput h) && HaveStringEditor h
      then InvokeStringEditor_ h w
      else (w, [])
    else (w, [])
  else (w, []).

Definition HandleMouseUp (h : Host) (button : Z) (x y : F32.float)
    (w : DevConsoleW) : MouseUp :=
  let bottom := Bottom_ h (console w) in
  if button =? 1 then
    let '(w1, effects1) :=
      widgets_mouse_up h true (List.length (tab_buttons_ w)) 0 x
        (F32.sub y bottom) w in
    let '(w2, effects2) :=
      widgets_mouse_up h false (List.length (buttons_ w1)) 0 x
        (F32.sub y bottom) w1 in
    let '(w3, effects3) := release_console_press h button y bottom w2 in
    Returned w3 (map Core (effects1 ++ effects2) ++ effects3)
  else
    let '(w, effects) := release_console_press h button y bottom w in
    Returned w effects.

Definition all_released (ws : list (Widget_ Lambda)) : Prop :=
  Forall (fun wd => Widget_pressed wd = false) ws.

(** A host and a console with widgets to run examples on: large UI scale,
    an 800 by 600 screen, ten seconds after the last transition. *)
Definition host0 : Host :=
  mkHost kLarge (F32.of_Z 800) (F32.of_Z 600) (F64.of_Z 10) false true
    (fun _ => false) (Some 7%nat) (fun _ => false).

Definition consoleW0 : DevConsoleW :=
  Refresh host0
    (mkDevConsoleW console_full ["Python"; "AppModes"; "Logging"]%string
       "Python" [] [] false None).

Definition count_pressed (ws : list (Widget_ Lambda)) : nat :=
  List.length (filter Widget_pressed ws).

(** The adapter the console holds is still the registered one. *)
Definition holds_valid_adapter (h : Host) (w : DevConsoleW) : Prop :=
  exists adapter,
    string_edit_adapter_ w = Some adapter
    /\ CanPyStringEditAdapterBeReplaced h adapter = false.

(** The console before [EnableInput], "quit()" typed, the Exec button
    held down. *)
Definition disabled_with_Exec_pressed : DevConsoleW :=
  with_console
    (with_input "quit()" (with_input_enabled false console_full))
    (with_buttons [WButton (Button_.set_pressed true (Exec_Button_ host0))]
       consoleW0).

(** * The data asset component: [assets/component/data.cc]

    [Data] derives from [AssetComponent], which keeps the name and the scene
    and is defined elsewhere; what [scene()] and [GetGameStream()] return
    when a member function runs is passed in. *)
Module DataComponent.

(** Scenes, game streams, loaded data and the component itself, by
    identity. *)
Definition SceneRef : Type := nat.
Definition GameStreamRef : Type := nat.
Definition DataDataRef : Type := nat.
Definition ObjectId : Type := nat.

Record Data := mkData {
  this : ObjectId;
  name : string;
  dead_ : bool;
  data_data_ : DataDataRef
}.

Inductive Effect :=
| AddData (stream : GameStreamRef) (data : ObjectId)
| RemoveData (stream : GameStreamRef) (data : ObjectId).

(** What the scene graph answers during one call: the component's scene,
    if it has one, and the game stream of a scene, if it has one. *)
Record World := mkWorld {
  scene : option SceneRef;
  GetGameStream : SceneRef -> option GameStreamRef
}.

(** The stream of the component's scene, when both exist. *)
Definition stream_of_scene (world : World) : option GameStreamRef :=
  match scene world with
  | Some s => GetGameStream world s
  | None => None
  end.

(** [Data::Data(name, scene)]; [g_assets->GetDataData(name)] is
    [loaded]. *)
Definition new (id : ObjectId) (data_name : string) (world : World)
    (loaded : DataDataRef) : Data * list Effect :=
  (mkData id data_name false loaded,
   match stream_of_scene world with
   | Some os => [AddData os id]
   | None => []
   end).

Definition MarkDead (world : World) (d : Data) : Data * list Effect :=
  if dead_ d then (d, [])
  else
    (mkData (this d) (name d) true (data_data_ d),
     match stream_of_scene world with
     | Some os => [RemoveData os (this d)]
     | None => []
     end).

(** [Data::~Data()] *)
Definition destroy (world : World) (d : Data) : list Effect :=
  snd (MarkDead world d).


Definition world0 : World :=
  mkWorld (Some 1%nat) (fun _ => Some 5%nat).

Definition no_scene : World := mkWorld None (fun _ => None).

End DataComponent.

(** A key press that is not one of the activation keys; any other
    event. *)
Definition not_an_activation_press (ev : InputEvent) : Prop :=
  match ev with
  | KeyPress sym =>
      sym <> kDevConsoleActivateKey1 /\ sym <> kDevConsoleActivateKey2
  | _ => True
  end.

Definition is_activation_key (sym : Z) : bool :=
  (sym =? kDevConsoleActivateKey1) || (sym =? kDevConsoleActivateKey2).

(** * Properties *)

(** ** The visibility state machine *)

Lemma ToggleState_state (now : seconds_t) (c : DevConsole) :
  state_ (fst (ToggleState now c)) = next_state (state_ c).
Proof. destruct c as [st]; destruct st; reflexivity. Qed.

Lemma toggle_times_state (n : nat) (now : seconds_t) (c : DevConsole) :
  state_ (toggle_times n now c) = Nat.iter n next_state (state_ c).
Proof.
  revert c; induction n as [|n IH]; intros c; [reflexivity|].
  cbn [toggle_times]. now rewrite IH, ToggleState_state, Nat.iter_succ_r.
Qed.

Lemma iter_next_state_3 (k : nat) (st : State_) :
  Nat.iter (3 * k) next_state st = st.
Proof.
  induction k as [|k IH]; [reflexivity|].
  replace (3 * S k)%nat with (3 + 3 * k)%nat by lia.
  rewrite Nat.iter_add, IH. destruct st; reflexivity.
Qed.

(** C5. [ToggleState] takes Inactive to Mini, Mini to Full and Full to
    Inactive; from Inactive, a number of toggles that is a multiple of three
    ends in Inactive, and after [n] toggles the state is the one at place
    [n mod 3] of the cycle Inactive, Mini, Full, so no other state is
    reached; [Dismiss] ends in Inactive from every state. *)
Theorem toggle_cycle_and_dismiss (N : nat) (now : seconds_t) (c : DevConsole)
    (Hstart : state_ c = kInactive) (HN : (N mod 3 = 0)%nat) :
  state_ (toggle_times N now c) = kInactive
  /\ (forall c1, state_ c1 = kInactive ->
                 state_ (fst (ToggleState now c1)) = kMini)
  /\ (forall c1, state_ c1 = kMini ->
                 state_ (fst (ToggleState now c1)) = kFull)
  /\ (forall c1, state_ c1 = kFull ->
                 state_ (fst (ToggleState now c1)) = kInactive)
  /\ (forall n, state_ (toggle_times n now c)
                = nth (n mod 3) [kInactive; kMini; kFull] kInactive)
  /\ (forall c1, state_ (Dismiss now c1) = kInactive).
Proof.
  assert (Hn : forall n, state_ (toggle_times n now c)
                         = nth (n mod 3) [kInactive; kMini; kFull] kInactive).
  { intros n. rewrite toggle_times_state, Hstart.
    pose proof (Nat.div_mod_eq n 3) as E.
    pose proof (Nat.mod_upper_bound n 3 ltac:(discriminate)) as Hlt.
    remember (n mod 3)%nat as r eqn:Hr. remember (n / 3)%nat as q eqn:Hq.
    rewrite E, Nat.add_comm, Nat.iter_add, iter_next_state_3.
    destruct r as [|[|[|r]]]; try reflexivity; lia. }
  repeat split.
  - rewrite Hn, HN. reflexivity.
  - intros c1 H. now rewrite ToggleState_state, H.
  - intros c1 H. now rewrite ToggleState_state, H.
  - intros c1 H. now rewrite ToggleState_state, H.
  - exact Hn.
  - intros [st]; destruct st; reflexivity.
Qed.

Lemma toggle_cycle_and_dismiss_witness :
  state_ (toggle_times 6 t0 console0) = kInactive.
Proof.
  exact (proj1 (toggle_cycle_and_dismiss 6 t0 console0 eq_refl eq_refl)).
Defined.

(** ** Submission *)

Lemma Exec_enabled (c : DevConsole) :
  input_enabled_ c = true ->
  Exec c =
    (if String.eqb (input_string_ c) "clear"
     then
       (mkDevConsole (state_ c) (state_prev_ c) (transition_start_ c)
          EmptyString true
          (push_history (input_string_ c) (input_history_ c)) 0 true
          EmptyString (last_line_mesh_dirty_ c) [],
        [])
     else
       (mkDevConsole (state_ c) (state_prev_ c) (transition_start_ c)
          EmptyString true
          (push_history (input_string_ c) (input_history_ c)) 0 true
          (last_line_ c) (last_line_mesh_dirty_ c) (lines_ c),
        [PushCall_Command (input_string_ c)])).
Proof.
  intros Hen. unfold Exec. rewrite Hen. cbn [negb].
  destruct c as [st sp ts inp dirty hist pos en ll lld ls].
  cbn in Hen |- *. subst en. destruct (String.eqb inp "clear"); reflexivity.
Qed.

(** C6. With [input_enabled_] false, [Exec] returns the console it was given,
    field for field (input string, command history, history cursor and line
    buffer included), logs one warning and pushes no command. *)
Theorem Exec_before_input_enabled (c : DevConsole)
    (Hdisabled : input_enabled_ c = false) :
  Exec c = (c, [Log_Warning "Console input is not allowed yet."])
  /\ pushed_commands (snd (Exec c)) = [].
Proof.
  unfold Exec. rewrite Hdisabled. split; reflexivity.
Qed.

Lemma Exec_before_input_enabled_witness :
  Exec (with_input "print(1)" console0)
  = (with_input "print(1)" console0,
     [Log_Warning "Console input is not allowed yet."]).
Proof.
  exact (proj1 (Exec_before_input_enabled
                  (with_input "print(1)" console0) eq_refl)).
Defined.

(** C2, as the code has it.  With input enabled: when the input string is
    exactly [clear] (the string as typed; nothing is trimmed), [Exec] empties
    the finalized lines and the accumulator and pushes no command; with any
    other input string, [clear] with white space around it included, it
    pushes that string unchanged and leaves the line buffer as it was. *)
Theorem Exec_clear_on_exact_keyword (c : DevConsole)
    (Henabled : input_enabled_ c = true) :
  let c' := fst (Exec c) in
  let effects := snd (Exec c) in
  (input_string_ c = "clear"%string ->
     lines_ c' = [] /\ last_line_ c' = EmptyString /\ effects = [])
  /\ (input_string_ c <> "clear"%string ->
      effects = [PushCall_Command (input_string_ c)]
      /\ lines_ c' = lines_ c /\ last_line_ c' = last_line_ c
      /\ last_line_mesh_dirty_ c' = last_line_mesh_dirty_ c).
Proof.
  cbv zeta. rewrite (Exec_enabled c Henabled).
  destruct (String.eqb_spec (input_string_ c) "clear") as [E|E]; cbn.
  - split; [intros _; repeat split | intros H; contradiction].
  - split; [intros H; contradiction | intros _; repeat split].
Qed.

Lemma Exec_clear_on_exact_keyword_witness :
  lines_ (fst (Exec (console_with_output "clear"))) = []
  /\ last_line_ (fst (Exec (console_with_output "clear"))) = EmptyString
  /\ snd (Exec (console_with_output "clear")) = [].
Proof.
  exact (proj1 (Exec_clear_on_exact_keyword
                  (console_with_output "clear") eq_refl) eq_refl).
Defined.

(** C2, as the specification words it, fails: the input [" clear"] trims to
    the keyword, yet [Exec] pushes it to the event loop and keeps the line
    buffer. *)
Lemma Exec_padded_clear_is_dispatched :
  ~ Exec_clear_on_trimmed (console_with_output " clear").
Proof.
  intros H. destruct (H eq_refl) as [Hclear _].
  destruct (Hclear eq_refl) as [Hlines _]. discriminate Hlines.
Qed.

(** ** The command history *)

Lemma push_history_firstn (entry : string) (h : list string) :
  (List.length h <= kInputHistoryLimit)%nat ->
  push_history entry h = firstn kInputHistoryLimit (entry :: h).
Proof.
  intros Hlen. unfold push_history.
  destruct (Nat.ltb_spec kInputHistoryLimit (List.length (entry :: h)))
    as [Hgt|Hle].
  - cbn [List.length] in Hgt.
    assert (E : List.length (entry :: h) = S kInputHistoryLimit)
      by (cbn [List.length]; lia).
    rewrite removelast_firstn_len, E. reflexivity.
  - now rewrite firstn_all2.
Qed.

Lemma firstn_app_firstn {A : Type} (n : nat) (a b : list A) :
  firstn n (a ++ firstn n b) = firstn n (a ++ b).
Proof.
  rewrite !firstn_app, firstn_firstn.
  now replace (Nat.min (n - List.length a) n) with (n - List.length a)%nat
    by lia.
Qed.

Lemma submit_enabled (text : string) (c : DevConsole) :
  input_enabled_ c = true ->
  let c' := fst (submit text c) in
  input_enabled_ c' = true
  /\ input_string_ c' = EmptyString
  /\ input_history_position_ c' = 0
  /\ input_history_ c' = push_history text (input_history_ c).
Proof.
  intros Hen. unfold submit, set_input_string.
  rewrite Exec_enabled by exact Hen. cbn [input_string_ with_input].
  destruct (String.eqb text "clear"); cbn; auto.
Qed.

Lemma submit_all_history (texts : list string) (c : DevConsole) :
  input_enabled_ c = true ->
  (List.length (input_history_ c) <= kInputHistoryLimit)%nat ->
  let c' := fst (submit_all texts c) in
  input_enabled_ c' = true
  /\ input_history_ c'
     = firstn kInputHistoryLimit (rev texts ++ input_history_ c)
  /\ (texts <> [] -> input_string_ c' = EmptyString).
Proof.
  revert c. induction texts as [|text rest IH]; intros c Hen Hlen.
  - cbn [submit_all fst rev app].
    repeat split; [exact Hen | now rewrite firstn_all2 | congruence].
  - cbn [submit_all].
    destruct (submit_enabled text c Hen) as (Hen1 & Hin1 & _ & Hh1).
    destruct (submit text c) as [c1 e1] eqn:E1. cbn [fst] in *.
    rewrite push_history_firstn in Hh1 by exact Hlen.
    assert (Hlen1 : (List.length (input_history_ c1) <= kInputHistoryLimit)%nat).
    { rewrite Hh1, length_firstn. lia. }
    specialize (IH c1 Hen1 Hlen1).
    destruct (submit_all rest c1) as [c2 e2] eqn:E2. cbn [fst] in *.
    destruct IH as (Hen2 & Hh2 & Hin2).
    repeat split.
    + exact Hen2.
    + rewrite Hh2, Hh1, firstn_app_firstn. cbn [rev].
      now rewrite <- app_assoc.
    + intros _. destruct rest as [|t' rest'].
      * cbn in E2. now inversion E2; subst.
      * apply Hin2. discriminate.
Qed.

(** C7. With input enabled and a history within its capacity of 100, every
    submission puts the input string as it is (empty, repeated or [clear])
    at the front of the history and empties the input string; after any run
    of submissions the history holds the first 100 entries of the
    submissions, newest first, followed by the earlier history, so it never
    has more than 100 entries; after 101 submissions it holds exactly the
    last 100 of them, newest first, the first of the 101 having gone. *)
Theorem history_ring_after_submissions (texts : list string) (c : DevConsole)
    (Henabled : input_enabled_ c = true)
    (Hcap : (List.length (input_history_ c) <= kInputHistoryLimit)%nat) :
  let c' := fst (submit_all texts c) in
  input_history_ c' = firstn kInputHistoryLimit (rev texts ++ input_history_ c)
  /\ (List.length (input_history_ c') <= kInputHistoryLimit)%nat
  /\ (texts <> [] -> input_string_ c' = EmptyString)
  /\ (List.length texts = S kInputHistoryLimit ->
      input_history_ c' = rev (tl texts))
  /\ (forall text,
        hd_error (input_history_ (fst (submit text c))) = Some text
        /\ input_string_ (fst (submit text c)) = EmptyString).
Proof.
  cbv zeta.
  destruct (submit_all_history texts c Henabled Hcap) as (_ & Hh & Hin).
  repeat split.
  - exact Hh.
  - rewrite Hh, length_firstn. lia.
  - exact Hin.
  - intros Hlen. rewrite Hh.
    destruct texts as [|t rest]; [discriminate|].
    cbn [List.length] in Hlen. cbn [tl rev].
    rewrite <- app_assoc, firstn_app.
    replace (kInputHistoryLimit - List.length (rev rest))%nat with 0%nat
      by (rewrite length_rev; lia).
    rewrite firstn_all2 by (rewrite length_rev; lia).
    cbn. now rewrite app_nil_r.
  - destruct (submit_enabled text c Henabled) as (_ & _ & _ & Hh1).
    rewrite Hh1, push_history_firstn by exact Hcap. reflexivity.
  - now destruct (submit_enabled text c Henabled) as (_ & Hin1 & _).
Qed.

Lemma history_ring_after_submissions_witness :
  input_history_ (fst (submit_all ["a"; ""; "clear"; "a"]%string console_full))
  = ["a"; "clear"; ""; "a"]%string.
Proof.
  exact (proj1 (history_ring_after_submissions
                  ["a"; ""; "clear"; "a"]%string console_full
                  eq_refl ltac:(cbn; lia))).
Defined.

(** ** Keys and text input *)

(** C9. A release of one of the two activation keys is reported consumed
    in every state of the console, Inactive included; a release of any other
    key is reported consumed exactly when the state is not Inactive. *)
Theorem HandleKeyRelease_consumed (sym : Z) (c : DevConsole) :
  (sym = kDevConsoleActivateKey1 \/ sym = kDevConsoleActivateKey2 ->
   HandleKeyRelease sym c = true)
  /\ (sym <> kDevConsoleActivateKey1 -> sym <> kDevConsoleActivateKey2 ->
      (HandleKeyRelease sym c = true <-> state_ c <> kInactive)).
Proof.
  unfold HandleKeyRelease. split.
  - intros [E|E]; subst sym.
    + now rewrite Z.eqb_refl.
    + now rewrite Z.eqb_refl, orb_true_r.
  - intros H1 H2.
    apply Z.eqb_neq in H1. apply Z.eqb_neq in H2. rewrite H1, H2. cbn [orb].
    destruct (state_ c); split; congruence.
Qed.

Lemma HandleKeyRelease_consumed_witness :
  HandleKeyRelease SDLK_F2 console0 = true
  /\ (HandleKeyRelease SDLK_UP console_full = true
      <-> state_ console_full <> kInactive).
Proof.
  split.
  - apply (proj1 (HandleKeyRelease_consumed SDLK_F2 console0)).
    right; reflexivity.
  - apply (proj2 (HandleKeyRelease_consumed SDLK_UP console_full));
      discriminate.
Defined.

(** C10. While the console is not Inactive, the one-character string of a
    back-tick, and no other string, is ignored: the console stays as it is
    and the event is reported not consumed; every other string, one that
    has a back-tick among other characters included, is put unchanged at the
    end of the input string (the input string after the event is the one
    before it followed by the text, the dirty flag is set, and no other
    member changes) and the event is reported consumed.  While Inactive,
    every text-input event is reported not consumed and the console, its
    input string included, stays as it is. *)
Theorem HandleTextEditing_backtick (text : string) (c : DevConsole) :
  (state_ c <> kInactive ->
     (text = "`"%string -> HandleTextEditing text c = (false, c))
     /\ (text <> "`"%string ->
         let c' := snd (HandleTextEditing text c) in
         fst (HandleTextEditing text c) = true
         /\ input_string_ c' = String.append (input_string_ c) text
         /\ input_text_dirty_ c' = true
         /\ state_ c' = state_ c
         /\ state_prev_ c' = state_prev_ c
         /\ transition_start_ c' = transition_start_ c
         /\ input_history_ c' = input_history_ c
         /\ input_history_position_ c' = input_history_position_ c
         /\ input_enabled_ c' = input_enabled_ c
         /\ last_line_ c' = last_line_ c
         /\ last_line_mesh_dirty_ c' = last_line_mesh_dirty_ c
         /\ lines_ c' = lines_ c
         /\ HandleTextEditing text c
            = (true, with_input (String.append (input_string_ c) text) c)))
  /\ (state_ c = kInactive -> HandleTextEditing text c = (false, c)).
Proof.
  unfold HandleTextEditing. split.
  - intros Hact. destruct (String.eqb_spec text "`") as [E|E].
    + split; [intros _ | intros H; contradiction].
      destruct (state_ c); [contradiction| |]; reflexivity.
    + split; [intros H; contradiction | intros _].
      destruct c as [st sp ts inp dirty hist pos en ll lld ls].
      cbn in Hact |- *.
      destruct st; [contradiction| |]; cbn; repeat split.
  - intros Hin. now rewrite Hin.
Qed.

Lemma HandleTextEditing_backtick_witness :
  HandleTextEditing "`" console_typed_x = (false, console_typed_x)
  /\ fst (HandleTextEditing "a`b" console_typed_x) = true
  /\ input_string_ (snd (HandleTextEditing "a`b" console_typed_x))
     = "xa`b"%string
  /\ HandleTextEditing "a" console0 = (false, console0).
Proof.
  split; [|split; [|split]].
  - apply (proj1 (HandleTextEditing_backtick "`" console_typed_x));
      [discriminate | reflexivity].
  - apply (proj1 (HandleTextEditing_backtick "a`b" console_typed_x));
      discriminate.
  - apply (proj1 (HandleTextEditing_backtick "a`b" console_typed_x));
      discriminate.
  - apply (proj2 (HandleTextEditing_backtick "a" console0)). reflexivity.
Defined.

(** C8. In a console that is not Inactive, with the history
    ["c3"; "c2"; "c1"] and the cursor at 0, four presses of Up leave the
    input string at c3, then c2, then c1, then c3 again. *)
Theorem four_ups_cycle {T : TextSupport} (cfg : BuildConfig)
    (now : seconds_t) (c : DevConsole)
    (Hactive : state_ c <> kInactive)
    (Hhistory : input_history_ c = ["c3"; "c2"; "c1"]%string)
    (Hcursor : input_history_position_ c = 0) :
  map input_string_ (press_keys cfg now [SDLK_UP; SDLK_UP; SDLK_UP; SDLK_UP] c)
  = ["c3"; "c2"; "c1"; "c3"]%string.
Proof.
  destruct c as [st sp ts inp dirty hist pos en ll lld ls].
  cbn in Hactive, Hhistory, Hcursor. subst hist pos.
  destruct st; [contradiction| |]; reflexivity.
Qed.

Lemma four_ups_cycle_witness :
  map input_string_
    (@press_keys fixed_advance cfg0 t0
       [SDLK_UP; SDLK_UP; SDLK_UP; SDLK_UP] console_c3c2c1)
  = ["c3"; "c2"; "c1"; "c3"]%string.
Proof.
  apply (@four_ups_cycle fixed_advance cfg0 t0 console_c3c2c1);
    [discriminate | reflexivity | reflexivity].
Defined.

(** ** The history cursor below one *)

Lemma int32_small (z : Z) :
  -2147483648 <= z < 2147483648 -> int32 z = z.
Proof.
  intros H. unfold int32.
  rewrite Z.mod_small by lia. lia.
Qed.

Lemma history_scan_nth (h : list string) (used j : Z) :
  0 <= j -> j <= used ->
  j + Z.of_nat (List.length h) < 2147483648 ->
  history_scan used j h = nth_error h (Z.to_nat (used - j)).
Proof.
  revert j. induction h as [|i rest IH]; intros j Hj Hle Hlen.
  - cbn. now destruct (Z.to_nat (used - j)).
  - cbn [history_scan]. cbn [List.length] in Hlen.
    destruct (Z.eqb_spec j used) as [E|E].
    + subst j. now rewrite Z.sub_diag.
    + rewrite int32_small by lia. rewrite IH by lia.
      replace (Z.to_nat (used - j)) with (S (Z.to_nat (used - (j + 1))))
        by lia.
      reflexivity.
Qed.

Lemma history_scan_below (h : list string) (used j : Z) :
  0 <= j -> used < j ->
  j + Z.of_nat (List.length h) < 2147483648 ->
  history_scan used j h = None.
Proof.
  revert j. induction h as [|i rest IH]; intros j Hj Hlt Hlen.
  - reflexivity.
  - cbn [history_scan]. cbn [List.length] in Hlen.
    destruct (Z.eqb_spec j used) as [E|E]; [lia|].
    rewrite int32_small by lia. apply IH; lia.
Qed.

(** Where the moved cursor is at least one, the entry taken is the one the
    specification names. *)
Lemma history_move_cursor_positive (up : bool) (c : DevConsole) :
  input_history_ c <> [] ->
  Z.of_nat (List.length (input_history_ c)) < 2147483648 ->
  let moved := if up then input_history_position_ c + 1
               else input_history_position_ c - 1 in
  1 <= moved < 2147483648 ->
  let c' := history_move up c in
  input_history_position_ c' = moved
  /\ nth_error (input_history_ c)
       (Z.to_nat ((moved - 1) mod Z.of_nat (List.length (input_history_ c))))
     = Some (input_string_ c').
Proof.
  intros Hne Hlen moved Hmoved. unfold history_move. fold moved.
  rewrite (int32_small moved) by lia.
  cbn [input_history_ with_history_position].
  rewrite (int32_small (moved - 1)) by lia.
  rewrite (int32_small (Z.of_nat _)) by lia.
  set (len := Z.of_nat (List.length (input_history_ c))) in *.
  assert (Hpos : 0 < len).
  { subst len. destruct (input_history_ c); [congruence | cbn; lia]. }
  unfold int_rem. rewrite Z.rem_mod_nonneg by lia.
  pose proof (Z.mod_pos_bound (moved - 1) len Hpos) as Hb.
  rewrite history_scan_nth by (subst len; lia).
  rewrite Z.sub_0_r.
  destruct (nth_error (input_history_ c) (Z.to_nat ((moved - 1) mod len)))
    as [i|] eqn:E.
  - split; reflexivity.
  - apply nth_error_None in E. subst len. lia.
Qed.

(** C1, at the input where the code leaves it: the history
    ["c3"; "c2"; "c1"], the cursor at 0, Down pressed.  The cursor moves to
    -1, the remainder of -2 by 3 is -2 in C++, the loop over the three
    entries meets no index equal to it, and the input string stays empty; the
    entry at (-1 - 1) mod 3 = 1 is c2. *)
Theorem Down_at_cursor_zero_finds_no_entry :
  let c' := history_move false console_c3c2c1 in
  @HandleKeyPress fixed_advance cfg0 t0 SDLK_DOWN console_c3c2c1
  = (true, c', [])
  /\ input_history_position_ c' = -1
  /\ int_rem (int32 (input_history_position_ c' - 1)) 3 = -2
  /\ input_string_ c' = input_string_ console_c3c2c1
  /\ nth_error (input_history_ console_c3c2c1)
       (Z.to_nat ((input_history_position_ c' - 1) mod 3))
     = Some "c2"%string
  /\ ~ history_entry_as_stated false console_c3c2c1.
Proof.
  repeat split.
  intros H. specialize (H ltac:(discriminate)). discriminate H.
Qed.

(** ** Widgets: press and release *)

Section WidgetProperties.
Context {Runnable : Type}.
Implicit Types (w : Widget_ Runnable) (svw mx my : F32.float).

(** The hit test reads the position and size only: the flags do not
    move a widget. *)
Lemma Widget_InUs_after_down svw svw' w mx my mx' my' :
  Widget_InUs svw' (snd (Widget_HandleMouseDown svw w mx my)) mx' my'
  = Widget_InUs svw' w mx' my'.
Proof.
  destruct w as [b|b|b]; cbn.
  - unfold Button_.HandleMouseDown.
    destruct (Button_.InUs svw b mx my); reflexivity.
  - unfold ToggleButton_.HandleMouseDown.
    destruct (ToggleButton_.InUs svw b mx my); reflexivity.
  - unfold TabButton_.HandleMouseDown.
    destruct (TabButton_.InUs svw b mx my && negb (TabButton_.selected b));
      reflexivity.
Qed.

(** A press: consumed exactly when it hits a widget that is not a selected
    tab, and then, and only then, does it set [pressed]. *)
Lemma Widget_HandleMouseDown_spec svw w mx my :
  let accepted := Widget_InUs svw w mx my && negb (Widget_selected_tab w) in
  fst (Widget_HandleMouseDown svw w mx my) = accepted
  /\ Widget_pressed (snd (Widget_HandleMouseDown svw w mx my))
     = accepted || Widget_pressed w.
Proof.
  destruct w as [b|b|b]; cbn.
  - unfold Button_.HandleMouseDown.
    destruct (Button_.InUs svw b mx my); cbn; auto.
  - unfold ToggleButton_.HandleMouseDown.
    destruct (ToggleButton_.InUs svw b mx my); cbn; auto.
  - unfold TabButton_.HandleMouseDown.
    destruct (TabButton_.InUs svw b mx my), (TabButton_.selected b);
      cbn; auto.
Qed.

(** A release: [pressed] is false afterwards, and what ran is the
    widget's call when it was pressed and the release hits, nothing
    otherwise. *)
Lemma Widget_HandleMouseUp_spec svw w mx my :
  Widget_pressed (fst (Widget_HandleMouseUp svw w mx my)) = false
  /\ snd (Widget_HandleMouseUp svw w mx my)
     = if Widget_pressed w && Widget_InUs svw w mx my
       then run_if_exists (Widget_release_call w) else [].
Proof.
  destruct w as [b|b|b]; cbn.
  - unfold Button_.HandleMouseUp.
    destruct b as [a x y wd ht p cl sc]; cbn.
    destruct p; cbn; [|auto].
    change (Button_.InUs svw (Button_.set_pressed false
              (Button_.mk a x y wd ht true cl sc)) mx my)
      with (Button_.InUs svw (Button_.mk a x y wd ht true cl sc) mx my).
    destruct (Button_.InUs svw _ mx my); cbn; auto.
  - unfold ToggleButton_.HandleMouseUp.
    destruct b as [a x y wd ht p o c1 c2 sc]; cbn.
    destruct p; cbn; [|auto].
    change (ToggleButton_.InUs svw (ToggleButton_.set_pressed false
              (ToggleButton_.mk a x y wd ht true o c1 c2 sc)) mx my)
      with (ToggleButton_.InUs svw
              (ToggleButton_.mk a x y wd ht true o c1 c2 sc) mx my).
    destruct (ToggleButton_.InUs svw _ mx my); cbn; [|auto].
    destruct o; cbn; auto.
  - unfold TabButton_.HandleMouseUp.
    destruct b as [a x y wd ht p sel cl sc]; cbn.
    destruct p; cbn; [|auto].
    change (TabButton_.InUs svw (TabButton_.set_pressed false
              (TabButton_.mk a x y wd ht true sel cl sc)) mx my)
      with (TabButton_.InUs svw
              (TabButton_.mk a x y wd ht true sel cl sc) mx my).
    destruct (TabButton_.InUs svw _ mx my); cbn; auto.
Qed.

Lemma Widget_release_call_exists w :
  Widget_calls_exist w = true ->
  List.length (run_if_exists (Widget_release_call w)) = 1%nat.
Proof.
  destruct w as [b|b|b]; cbn.
  - destruct (Button_.call b); [reflexivity | discriminate].
  - destruct (ToggleButton_.on_call b), (ToggleButton_.off_call b),
      (ToggleButton_.on b); cbn; congruence.
  - destruct (TabButton_.call b); [reflexivity | discriminate].
Qed.

Lemma Widget_calls_exist_after_down svw w mx my :
  Widget_calls_exist (snd (Widget_HandleMouseDown svw w mx my))
  = Widget_calls_exist w.
Proof.
  destruct w as [b|b|b]; cbn.
  - unfold Button_.HandleMouseDown.
    destruct (Button_.InUs svw b mx my); reflexivity.
  - unfold ToggleButton_.HandleMouseDown.
    destruct (ToggleButton_.InUs svw b mx my); reflexivity.
  - unfold TabButton_.HandleMouseDown.
    destruct (TabButton_.InUs svw b mx my && negb (TabButton_.selected b));
      reflexivity.
Qed.

(** C3, as the code has it.  For a widget of any of the three kinds whose
    calls exist, a press at [(px, py)] and then a release at [(rx, ry)]:
    - the press sets [pressed] only if it hits (a widget not pressed
      before and pressed after was hit);
    - the release leaves [pressed] false wherever it falls;
    - a call runs exactly when [pressed] was set and the release hits,
      and then it runs once;
    - a press that hits and a release that misses leave [pressed] false
      and run nothing;
    - a press and a release that both hit run the call once, unless the
      widget is a tab that is already selected: such a tab does not accept
      the press, and if it was not pressed before, nothing runs. *)
Theorem press_then_release (svw_down svw_up : F32.float) w
    (px py rx ry : F32.float)
    (Hcalls : Widget_calls_exist w = true) :
  let w1 := snd (Widget_HandleMouseDown svw_down w px py) in
  let w2 := fst (Widget_HandleMouseUp svw_up w1 rx ry) in
  let ran := snd (Widget_HandleMouseUp svw_up w1 rx ry) in
  (Widget_pressed w = false -> Widget_pressed w1 = true ->
   Widget_InUs svw_down w px py = true)
  /\ Widget_pressed w2 = false
  /\ (ran <> [] <->
      Widget_pressed w1 = true /\ Widget_InUs svw_up w1 rx ry = true)
  /\ (List.length ran <= 1)%nat
  /\ (Widget_InUs svw_down w px py = true ->
      Widget_InUs svw_up w1 rx ry = false ->
      Widget_pressed w2 = false /\ ran = [])
  /\ (Widget_InUs svw_down w px py = true ->
      Widget_InUs svw_up w1 rx ry = true ->
      Widget_selected_tab w = false ->
      List.length ran = 1%nat)
  /\ (Widget_selected_tab w = true -> Widget_pressed w = false ->
      Widget_pressed w1 = false /\ ran = []).
Proof.
  cbv zeta.
  destruct (Widget_HandleMouseDown_spec svw_down w px py) as [_ Hp1].
  cbv zeta in Hp1.
  destruct (Widget_HandleMouseUp_spec svw_up
              (snd (Widget_HandleMouseDown svw_down w px py)) rx ry)
    as [Hp2 Hran].
  pose proof (Widget_release_call_exists
                (snd (Widget_HandleMouseDown svw_down w px py))) as Hone.
  rewrite Widget_calls_exist_after_down in Hone. specialize (Hone Hcalls).
  set (w1 := snd (Widget_HandleMouseDown svw_down w px py)) in *.
  set (ran := snd (Widget_HandleMouseUp svw_up w1 rx ry)) in *.
  repeat split.
  - intros H0 H1. rewrite H1, H0, orb_false_r in Hp1.
    symmetry in Hp1. now apply andb_true_iff in Hp1.
  - exact Hp2.
  - destruct (Widget_pressed w1); [reflexivity|].
    cbn in Hran. congruence.
  - destruct (Widget_pressed w1), (Widget_InUs svw_up w1 rx ry);
      cbn in Hran; congruence.
  - intros [H1 H2]. rewrite H1, H2 in Hran. cbn in Hran.
    intros E. rewrite Hran in E. rewrite E in Hone. discriminate.
  - rewrite Hran.
    destruct (Widget_pressed w1 && Widget_InUs svw_up w1 rx ry);
      [rewrite Hone|cbn]; lia.
  - exact Hp2.
  - rewrite Hran, H0, andb_false_r. reflexivity.
  - intros Hd Hu Hsel. rewrite Hran, Hp1, Hd, Hsel, Hu. cbn. exact Hone.
  - rewrite Hp1, H, H0, andb_false_r. reflexivity.
  - rewrite Hran, Hp1, H, H0, andb_false_r. reflexivity.
Qed.
End WidgetProperties.

Lemma press_then_release_witness :
  List.length
    (snd (Widget_HandleMouseUp (F32.of_Z 800)
            (snd (Widget_HandleMouseDown (F32.of_Z 800) sample_button
                    (F32.of_Z 5) (F32.of_Z 5)))
            (F32.of_Z 10) (F32.of_Z 0)))
  = 1%nat.
Proof.
  refine (proj1 (proj2 (proj2 (proj2 (proj2 (proj2
            (press_then_release (F32.of_Z 800) (F32.of_Z 800) sample_button
               (F32.of_Z 5) (F32.of_Z 5) (F32.of_Z 10) (F32.of_Z 0)
               eq_refl)))))) _ _ _);
    reflexivity.
Defined.

(** C3, as the specification words it, fails for a tab that is selected: a
    press and a release inside it both hit, and nothing runs. *)
Lemma selected_tab_runs_nothing :
  ~ press_release_runs_once (F32.of_Z 800) (sample_tab true)
      (F32.of_Z 5) (F32.of_Z 5) (F32.of_Z 5) (F32.of_Z 5).
Proof.
  intros H. specialize (H eq_refl eq_refl). discriminate H.
Qed.

(** ** The line buffer *)

Lemma append_assoc (a b c : string) :
  String.append (String.append a b) c = String.append a (String.append b c).
Proof. induction a as [|x a IH]; cbn; [reflexivity | now rewrite IH]. Qed.

Lemma append_empty_r (a : string) : String.append a EmptyString = a.
Proof. induction a as [|x a IH]; cbn; [reflexivity | now rewrite IH]. Qed.

Lemma has_NUL_append (a b : string) :
  has_NUL (String.append a b) = has_NUL a || has_NUL b.
Proof.
  induction a as [|x a IH]; cbn; [reflexivity|].
  now rewrite IH, orb_assoc.
Qed.

Lemma c_str_has_no_NUL (text : string) : has_NUL (c_str text) = false.
Proof.
  induction text as [|x text IH]; cbn; [reflexivity|].
  destruct (Ascii.eqb x NUL) eqn:E; cbn; [reflexivity|].
  now rewrite E, IH.
Qed.

Lemma c_str_append (a b : string) :
  has_NUL a = false -> c_str (String.append a b) = String.append a (c_str b).
Proof.
  induction a as [|x a IH]; cbn; [reflexivity|].
  intros H. apply orb_false_iff in H as [Hx Ha].
  now rewrite Hx, IH.
Qed.

Lemma c_str_without_NUL (text : string) :
  has_NUL text = false -> c_str text = text.
Proof.
  intros H. rewrite <- (append_empty_r text) at 1.
  rewrite c_str_append by exact H. cbn. apply append_empty_r.
Qed.

(** [Print] reads its argument up to the first NUL only, whatever the text
    support does. *)
Lemma Print_reads_a_C_string {T : TextSupport} (now : seconds_t)
    (s1 s2 : string) (c : DevConsole) :
  c_str s1 = c_str s2 -> Print now s1 c = Print now s2 c.
Proof. intros E. unfold Print. now rewrite E. Qed.

Lemma concat_strings_app (a b : list string) :
  concat_strings (a ++ b)
  = String.append (concat_strings a) (concat_strings b).
Proof.
  unfold concat_strings.
  induction a as [|x a IH]; cbn [app fold_right String.append];
    [reflexivity|].
  now rewrite IH, append_assoc.
Qed.

Lemma concat_strings_lines (now : seconds_t) (pieces : list string) :
  concat_strings (map s (map (mkLine_ now) pieces)) = concat_strings pieces.
Proof. rewrite map_map. cbn. now rewrite map_id. Qed.

Lemma concat_strings_split (pieces : list string) :
  pieces <> [] ->
  String.append (concat_strings (removelast pieces)) (last pieces EmptyString)
  = concat_strings pieces.
Proof.
  intros Hne.
  transitivity
    (concat_strings (removelast pieces ++ [last pieces EmptyString])).
  - rewrite concat_strings_app. cbn. now rewrite append_empty_r.
  - f_equal. symmetry. now apply app_removelast_last.
Qed.

Lemma In_removelast {A : Type} (x : A) (l : list A) :
  In x (removelast l) -> In x l.
Proof.
  induction l as [|y l IH]; cbn; [tauto|].
  destruct l as [|z l]; [tauto|].
  intros [E|H]; [now left | right; now apply IH].
Qed.

(** *** The history of finalized lines keeps the newest 80 *)

Lemma lastn_app_lastn {A : Type} (n : nat) (a b : list A) :
  lastn n (lastn n a ++ b) = lastn n (a ++ b).
Proof.
  unfold lastn. now rewrite !rev_app_distr, rev_involutive, firstn_app_firstn.
Qed.

Lemma lastn_all {A : Type} (n : nat) (l : list A) :
  (List.length l <= n)%nat -> lastn n l = l.
Proof.
  intros H. unfold lastn.
  rewrite firstn_all2 by (now rewrite length_rev). apply rev_involutive.
Qed.

Lemma length_lastn {A : Type} (n : nat) (l : list A) :
  (List.length (lastn n l) <= n)%nat.
Proof. unfold lastn. rewrite length_rev, length_firstn. lia. Qed.

Lemma lastn_push_back {A : Type} (n : nat) (x : A) (l : list A) :
  List.length l = S n -> lastn (S n) (l ++ [x]) = tl (l ++ [x]).
Proof.
  intros Hlen. destruct l as [|y l]; [discriminate|].
  cbn [List.length] in Hlen. cbn [app tl]. unfold lastn.
  change (y :: l ++ [x]) with ((y :: l) ++ [x]).
  rewrite rev_app_distr. cbn [rev app firstn].
  rewrite firstn_app, length_rev.
  replace (n - List.length l)%nat with 0%nat by lia.
  rewrite firstn_all2 by (rewrite length_rev; lia).
  cbn [firstn]. rewrite app_nil_r. cbn [rev]. now rewrite rev_involutive.
Qed.

Lemma emplace_lines_lastn (now : seconds_t) (pieces : list string)
    (lines : list Line_) :
  (List.length lines <= 80)%nat ->
  emplace_lines now pieces lines
  = lastn 80 (lines ++ map (mkLine_ now) pieces).
Proof.
  revert lines. induction pieces as [|p rest IH]; intros lines Hlen.
  - cbn [emplace_lines map]. rewrite app_nil_r. symmetry. now apply lastn_all.
  - cbn [emplace_lines map].
    assert (E : (if Z.of_nat (List.length (lines ++ [mkLine_ now p]))
                      >? kDevConsoleLineLimit
                 then tl (lines ++ [mkLine_ now p])
                 else lines ++ [mkLine_ now p])
                = lastn 80 (lines ++ [mkLine_ now p])).
    { rewrite length_app. cbn [List.length]. unfold kDevConsoleLineLimit.
      destruct (Z.gtb_spec (Z.of_nat (List.length lines + 1)) 80) as [G|G].
      - symmetry. apply lastn_push_back. lia.
      - symmetry. apply lastn_all. rewrite length_app. cbn. lia. }
    rewrite E, IH by apply length_lastn.
    rewrite lastn_app_lastn, <- app_assoc. reflexivity.
Qed.

(** *** One call *)

Section PrintProperties.
Context {T : TextSupport} {Hspec : BreakUpStringSpec T}.

Lemma Print_step (now : seconds_t) (s_in : string) (c : DevConsole) :
  has_NUL (last_line_ c) = false ->
  exists c' pieces,
    Print now s_in c = Some (c', map (mkLine_ now) pieces)
    /\ String.append (concat_strings pieces) (last_line_ c')
       = String.append (last_line_ c) (appended_text s_in)
    /\ Forall within_budget (map (mkLine_ now) pieces)
    /\ has_NUL (last_line_ c') = false
    /\ lines_ c' = emplace_lines now pieces (lines_ c).
Proof.
  intros Hacc. unfold Print.
  set (text := c_str (String.append (last_line_ c)
                        (GetValidUTF8 (c_str s_in)))).
  pose proof (BreakUpString_remainder text) as Hne.
  pose proof (BreakUpString_bytes text) as Hbytes.
  pose proof (BreakUpString_width text) as Hwidth.
  destruct (BreakUpString text break_up_budget) as [|p ps] eqn:E;
    [congruence|].
  eexists _, _. split; [reflexivity|].
  cbn [last_line_ lines_ with_line_buffer].
  repeat split.
  - rewrite concat_strings_split by discriminate. rewrite Hbytes.
    subst text. now rewrite c_str_append.
  - apply Forall_forall. intros line Hin.
    apply in_map_iff in Hin as (piece & <- & Hin).
    apply Hwidth, Hin.
  - assert (Htext : has_NUL (concat_strings (p :: ps)) = false).
    { rewrite Hbytes. subst text. apply c_str_has_no_NUL. }
    rewrite <- (concat_strings_split (p :: ps)) in Htext by discriminate.
    rewrite has_NUL_append in Htext.
    now apply orb_false_iff in Htext.
Qed.

(** C4, as the code has it.  Given a [BreakUpString] as the specification
    describes it and an accumulator free of NUL bytes (the empty one of a
    new console is), every sequence of [Print] calls returns, and
    - the text of every line it finalized, in order, followed by the
      final accumulator is, byte for byte, the first accumulator followed
      by what each call appended: the valid UTF-8 of its argument, the
      argument being read as a C string, up to its first NUL byte;
    - no finalized line is wider than the break-up budget;
    - of the finalized lines the history keeps the newest 80. *)
Theorem Print_all_keeps_appended_text (calls : list (seconds_t * string))
    (c : DevConsole)
    (Hacc : has_NUL (last_line_ c) = false) :
  exists c' finalized,
    Print_all calls c = Some (c', finalized)
    /\ String.append (concat_strings (map s finalized)) (last_line_ c')
       = String.append (last_line_ c)
           (concat_strings (map (fun call => appended_text (snd call)) calls))
    /\ Forall within_budget finalized
    /\ has_NUL (last_line_ c') = false
    /\ ((List.length (lines_ c) <= 80)%nat ->
        lines_ c' = lastn 80 (lines_ c ++ finalized)).
Proof.
  revert c Hacc. induction calls as [|[now s_in] rest IH]; intros c Hacc.
  - exists c, []. cbn [Print_all map concat_strings fold_right].
    rewrite append_empty_r, app_nil_r.
    repeat split; auto. intros H. symmetry. now apply lastn_all.
  - destruct (Print_step now s_in c Hacc)
      as (c1 & p1 & E1 & Hcat1 & Hw1 & Hacc1 & Hlines1).
    destruct (IH c1 Hacc1) as (c2 & f2 & E2 & Hcat2 & Hw2 & Hacc2 & Hlines2).
    exists c2, (map (mkLine_ now) p1 ++ f2)%list.
    cbn [Print_all]. rewrite E1, E2.
    split; [reflexivity|]. repeat split.
    + rewrite map_app, concat_strings_app, concat_strings_lines.
      rewrite append_assoc, Hcat2, <- append_assoc, Hcat1.
      cbn [map concat_strings fold_right snd].
      now rewrite append_assoc.
    + apply Forall_app. now split.
    + exact Hacc2.
    + intros Hlen.
      assert (Hl1 : lines_ c1 = lastn 80 (lines_ c ++ map (mkLine_ now) p1))
        by (rewrite Hlines1; now apply emplace_lines_lastn).
      rewrite Hlines2 by (rewrite Hl1; apply length_lastn).
      rewrite Hl1, lastn_app_lastn, app_assoc. reflexivity.
Qed.
(** Two arguments that differ only behind a NUL byte leave the same
    console: the bytes of both cannot have been kept, whatever the text
    support. *)
Lemma Print_cannot_keep_bytes_behind_NUL (now : seconds_t) (c : DevConsole)
    (head tail1 tail2 : string) :
  has_NUL (last_line_ c) = false ->
  tail1 <> tail2 ->
  ~ (Print_keeps_every_byte
       [(now, String.append head (String NUL tail1))] c
     /\ Print_keeps_every_byte
          [(now, String.append head (String NUL tail2))] c).
Proof.
  intros Hacc Hdiff [K1 K2].
  destruct (Print_step now (String.append head (String NUL tail1)) c Hacc)
    as (c' & pieces & E1 & _).
  assert (E2 : Print now (String.append head (String NUL tail2)) c
               = Some (c', map (mkLine_ now) pieces)).
  { rewrite <- E1. apply Print_reads_a_C_string.
    clear. induction head as [|x head IH]; cbn; [reflexivity|].
    now rewrite IH. }
  specialize (K1 c' (map (mkLine_ now) pieces ++ [])%list).
  specialize (K2 c' (map (mkLine_ now) pieces ++ [])%list).
  cbn [Print_all] in K1, K2. rewrite E1 in K1. rewrite E2 in K2.
  specialize (K1 eq_refl). specialize (K2 eq_refl).
  rewrite K1 in K2. cbn [map concat_strings fold_right snd] in K2.
  rewrite !append_empty_r in K2.
  apply Hdiff. clear - K2.
  assert (Hinj : forall a b b', String.append a b = String.append a b' -> b = b').
  { induction a as [|x a IH]; cbn; intros b b' H; [exact H|].
    inversion H. now apply IH. }
  apply Hinj in K2. apply Hinj in K2. now inversion K2.
Qed.
End PrintProperties.

(** *** The fixed-advance text support meets the description *)

Lemma concat_strings_push_byte (x : ascii) (pieces : list string) :
  concat_strings (push_byte x pieces) = String x (concat_strings pieces).
Proof. destruct pieces; reflexivity. Qed.

Lemma chunk_bytes (n k : nat) (text : string) :
  concat_strings (chunk n k text) = text.
Proof.
  revert k. induction text as [|x text IH]; intros k; [reflexivity|].
  destruct k as [|k]; cbn [chunk].
  - change (concat_strings (EmptyString :: ?l)) with (concat_strings l).
    now rewrite concat_strings_push_byte, IH.
  - now rewrite concat_strings_push_byte, IH.
Qed.

Lemma chunk_nonempty (n k : nat) (text : string) : chunk n k text <> [].
Proof.
  destruct text as [|x text]; [discriminate|].
  destruct k; cbn [chunk]; [discriminate|].
  destruct (chunk n k text); discriminate.
Qed.

(** The first piece has room for [k] bytes, the following ones for [n]. *)
Lemma chunk_lengths (n k : nat) (text : string) :
  (1 <= n)%nat ->
  exists p ps,
    chunk n k text = p :: ps
    /\ (String.length p <= k)%nat
    /\ Forall (fun q => (String.length q <= n)%nat) ps.
Proof.
  intros Hn. revert k.
  induction text as [|x text IH]; intros k.
  - exists EmptyString, []. cbn. repeat split; [lia | constructor].
  - destruct k as [|k]; cbn [chunk].
    + destruct (IH (n - 1)%nat) as (p & ps & E & Hp & Hps). rewrite E.
      exists EmptyString, (String x p :: ps). cbn.
      repeat split; [lia|]. constructor; [cbn; lia | exact Hps].
    + destruct (IH k) as (p & ps & E & Hp & Hps). rewrite E.
      exists (String x p), ps. cbn. repeat split; [lia | exact Hps].
Qed.

Lemma fixed_advance_meets_spec : BreakUpStringSpec fixed_advance.
Proof.
  constructor; cbn [BreakUpString GetStringWidth fixed_advance].
  - intros text. apply chunk_nonempty.
  - intros text. apply chunk_bytes.
  - intros text piece Hin. apply In_removelast in Hin.
    destruct (chunk_lengths 3 3 text ltac:(lia)) as (p & ps & E & Hp & Hps).
    rewrite E in Hin.
    assert (Hlen : (String.length piece <= 3)%nat).
    { destruct Hin as [<-|Hin]; [exact Hp|].
      rewrite Forall_forall in Hps. now apply Hps. }
    destruct (String.length piece) as [|[|[|[|n]]]]; [reflexivity.. | lia].
Qed.

Lemma Print_all_keeps_appended_text_witness :
  exists c' finalized,
    @Print_all fixed_advance
      [(t0, "abcdefgh"); (t0, "ij")]%string console0
    = Some (c', finalized)
    /\ map s finalized = ["abc"; "def"; "ghi"]%string
    /\ last_line_ c' = "j"%string.
Proof.
  destruct (@Print_all_keeps_appended_text fixed_advance
              fixed_advance_meets_spec
              [(t0, "abcdefgh"); (t0, "ij")]%string console0 eq_refl)
    as (c' & finalized & E & _).
  exists c', finalized. split; [exact E|].
  vm_compute in E. inversion E; subst. split; reflexivity.
Defined.

(** C4, as the specification words it, fails on a string with a NUL byte
    inside: [Print] of the three bytes k, NUL, z appends k alone. *)
Lemma Print_stops_at_NUL :
  ~ @Print_keeps_every_byte fixed_advance
      [(t0, String "k" (String NUL (String "z" EmptyString)))] console0.
Proof.
  intros H.
  specialize (H _ _ eq_refl). discriminate H.
Qed.

(** * Further properties of the code *)

(** ** Key presses *)

Lemma HandleKeyPress_arrow {T : TextSupport} (cfg : BuildConfig)
    (now : seconds_t) (up : bool) (c : DevConsole) :
  state_ c <> kInactive ->
  input_history_ c <> [] ->
  HandleKeyPress cfg now (if up then SDLK_UP else SDLK_DOWN) c
  = (true, history_move up c, []).
Proof.
  intros Hact Hne. unfold HandleKeyPress.
  destruct up; cbn; destruct (state_ c); try contradiction;
    destruct (input_history_ c); congruence.
Qed.

Lemma history_move_frame (up : bool) (c : DevConsole) :
  state_ (history_move up c) = state_ c
  /\ input_history_ (history_move up c) = input_history_ c
  /\ input_enabled_ (history_move up c) = input_enabled_ c
  /\ lines_ (history_move up c) = lines_ c
  /\ last_line_ (history_move up c) = last_line_ c.
Proof.
  unfold history_move.
  destruct (history_scan _ _ _); cbn; repeat split; reflexivity.
Qed.

(** While the console is Inactive, a press of any key but the two
    activation keys is reported not consumed and changes nothing. *)
Theorem inactive_console_ignores_keys {T : TextSupport} (cfg : BuildConfig)
    (now : seconds_t) (sym : Z) (c : DevConsole)
    (Hinactive : state_ c = kInactive)
    (Hkey1 : sym <> kDevConsoleActivateKey1)
    (Hkey2 : sym <> kDevConsoleActivateKey2) :
  HandleKeyPress cfg now sym c = (false, c, []).
Proof.
  unfold HandleKeyPress.
  apply Z.eqb_neq in Hkey1. apply Z.eqb_neq in Hkey2.
  now rewrite Hkey1, Hkey2, Hinactive.
Qed.

Lemma inactive_console_ignores_keys_witness :
  @HandleKeyPress fixed_advance cfg0 t0 SDLK_RETURN
    (with_input "print(1)" (EnableInput console0))
  = (false, with_input "print(1)" (EnableInput console0), []).
Proof.
  apply (@inactive_console_ignores_keys fixed_advance);
    [reflexivity | discriminate | discriminate].
Defined.

(** With an empty command history, Up and Down are consumed by an active
    console and change nothing, the cursor included. *)
Theorem arrows_on_empty_history {T : TextSupport} (cfg : BuildConfig)
    (now : seconds_t) (sym : Z) (c : DevConsole)
    (Hactive : state_ c <> kInactive)
    (Hempty : input_history_ c = [])
    (Harrow : sym = SDLK_UP \/ sym = SDLK_DOWN) :
  HandleKeyPress cfg now sym c = (true, c, []).
Proof.
  unfold HandleKeyPress.
  destruct Harrow; subst sym; cbn; rewrite Hempty;
    destruct (state_ c); try contradiction; reflexivity.
Qed.

Lemma arrows_on_empty_history_witness :
  @HandleKeyPress fixed_advance cfg0 t0 SDLK_DOWN console_full
  = (true, console_full, []).
Proof.
  apply (@arrows_on_empty_history fixed_advance);
    [discriminate | reflexivity | right; reflexivity].
Defined.

Lemma last_cons_default {A : Type} (a d : A) (l : list A) :
  last (a :: l) d = last l a.
Proof.
  revert a d. induction l as [|b l IH]; intros a d; [reflexivity|].
  change (last (a :: b :: l) d) with (last (b :: l) d).
  now rewrite !IH.
Qed.

Lemma ups_from_cursor {T : TextSupport} (cfg : BuildConfig) (now : seconds_t)
    (k : nat) (c : DevConsole) :
  state_ c <> kInactive ->
  input_history_ c <> [] ->
  Z.of_nat (List.length (input_history_ c)) < 2147483648 ->
  0 <= input_history_position_ c ->
  input_history_position_ c + Z.of_nat k < 2147483648 ->
  let c' := last (press_keys cfg now (repeat SDLK_UP k) c) c in
  input_history_position_ c' = input_history_position_ c + Z.of_nat k
  /\ input_history_ c' = input_history_ c
  /\ ((1 <= k)%nat ->
      nth_error (input_history_ c)
        (Z.to_nat ((input_history_position_ c + Z.of_nat k - 1)
                   mod Z.of_nat (List.length (input_history_ c))))
      = Some (input_string_ c')).
Proof.
  revert c. induction k as [|k IH]; intros c Hact Hne Hlen Hpos Hk.
  - cbn [repeat press_keys last]. repeat split; [lia | lia].
  - cbn [repeat press_keys].
    rewrite (HandleKeyPress_arrow cfg now true c Hact Hne).
    destruct (history_move_frame true c) as (Hst & Hh & _).
    destruct (history_move_cursor_positive true c Hne Hlen ltac:(lia))
      as [Hc1 Hin1].
    set (c1 := history_move true c) in *.
    rewrite last_cons_default.
    specialize (IH c1). rewrite Hst, Hh, Hc1 in IH.
    specialize (IH Hact Hne Hlen ltac:(lia) ltac:(lia)).
    cbv zeta in IH. destruct IH as (Hc' & Hh' & Hin').
    repeat split.
    + lia.
    + exact Hh'.
    + intros _. destruct k as [|k].
      * cbn [repeat press_keys last].
        replace (input_history_position_ c + Z.of_nat 1 - 1)
          with (input_history_position_ c + 1 - 1) by lia.
        exact Hin1.
      * replace (input_history_position_ c + Z.of_nat (S (S k)) - 1)
          with (input_history_position_ c + 1 + Z.of_nat (S k) - 1) by lia.
        apply Hin'. lia.
Qed.

(** X3. From the cursor at 0, where every submission leaves it, [k] presses of
    Up show the entry at place (k - 1) mod length of the history, newest
    first: Up walks from the newest entry to the oldest and starts over. *)
Theorem ups_walk_the_history {T : TextSupport} (cfg : BuildConfig)
    (now : seconds_t) (k : nat) (c : DevConsole)
    (Hactive : state_ c <> kInactive)
    (Hhistory : input_history_ c <> [])
    (Hlength : Z.of_nat (List.length (input_history_ c)) < 2147483648)
    (Hcursor : input_history_position_ c = 0)
    (Hk : (1 <= k)%nat)
    (Hkmax : Z.of_nat k < 2147483648) :
  let c' := last (press_keys cfg now (repeat SDLK_UP k) c) c in
  nth_error (input_history_ c)
    ((k - 1) mod List.length (input_history_ c))%nat
  = Some (input_string_ c').
Proof.
  cbv zeta.
  destruct (ups_from_cursor cfg now k c Hactive Hhistory Hlength
              ltac:(lia) ltac:(lia)) as (_ & _ & Hin).
  specialize (Hin Hk). rewrite Hcursor in Hin. rewrite <- Hin. f_equal.
  assert (Hn : List.length (input_history_ c) <> 0%nat)
    by (destruct (input_history_ c); [congruence | discriminate]).
  replace (0 + Z.of_nat k - 1) with (Z.of_nat (k - 1)) by lia.
  rewrite <- Nat2Z.inj_mod. now rewrite Nat2Z.id.
Qed.

Lemma ups_walk_the_history_witness :
  nth_error ["c3"; "c2"; "c1"]%string 1
  = Some (input_string_
            (last (@press_keys fixed_advance cfg0 t0 (repeat SDLK_UP 5)
                     console_c3c2c1) console_c3c2c1)).
Proof.
  apply (@ups_walk_the_history fixed_advance cfg0 t0 5 console_c3c2c1);
    [discriminate | discriminate | cbn; lia | reflexivity | lia | lia].
Defined.

(** X4. Up or Down that leaves the cursor at 0 or below: the C++ remainder of
    cursor - 1 is then negative or zero.  When cursor - 1 is a multiple of
    the length the newest entry is shown; otherwise no entry is met and the
    input string stays as it is.  The cursor moves in both cases. *)
Theorem arrows_with_cursor_below_one (up : bool) (c : DevConsole)
    (Hhistory : input_history_ c <> [])
    (Hlength : Z.of_nat (List.length (input_history_ c)) < 2147483648)
    (Hmoved : -2147483648 < (if up then input_history_position_ c + 1
                            else input_history_position_ c - 1) <= 0) :
  let moved := if up then input_history_position_ c + 1
               else input_history_position_ c - 1 in
  let c' := history_move up c in
  input_history_position_ c' = moved
  /\ input_string_ c'
     = if (moved - 1) mod Z.of_nat (List.length (input_history_ c)) =? 0
       then hd EmptyString (input_history_ c)
       else input_string_ c.
Proof.
  cbv zeta. set (moved := if up then _ else _) in *.
  unfold history_move. fold moved.
  rewrite (int32_small moved) by lia.
  cbn [input_history_ with_history_position].
  rewrite (int32_small (moved - 1)) by lia.
  rewrite (int32_small (Z.of_nat _)) by lia.
  set (len := Z.of_nat (List.length (input_history_ c))) in *.
  assert (Hpos : 0 < len).
  { subst len. destruct (input_history_ c); [congruence | cbn; lia]. }
  unfold int_rem.
  pose proof (Z.rem_nonpos (moved - 1) len ltac:(lia) ltac:(lia)) as Hrem.
  pose proof (Z.rem_mod_eq_0 (moved - 1) len ltac:(lia)) as Hiff.
  destruct (Z.eqb_spec ((moved - 1) mod len) 0) as [E|E].
  - apply Hiff in E. rewrite E.
    destruct (input_history_ c) as [|e h]; [congruence|].
    cbn. split; reflexivity.
  - assert (Hneg : Z.rem (moved - 1) len < 0).
    { destruct (Z.eq_dec (Z.rem (moved - 1) len) 0) as [E0|E0];
        [apply Hiff in E0; contradiction | lia]. }
    rewrite history_scan_below by (subst len; lia).
    cbn. split; reflexivity.
Qed.

Lemma arrows_with_cursor_below_one_witness :
  input_string_ (history_move false (with_history_position (-1) console_c3c2c1))
  = "c3"%string.
Proof.
  exact (proj2 (arrows_with_cursor_below_one false
                  (with_history_position (-1) console_c3c2c1)
                  ltac:(discriminate) ltac:(cbn; lia) ltac:(cbn; lia))).
Defined.

(** ** Keys, text and submission together *)

Lemma HandleKeyPress_return {T : TextSupport} (cfg : BuildConfig)
    (now : seconds_t) (c : DevConsole) :
  state_ c <> kInactive ->
  HandleKeyPress cfg now SDLK_RETURN c = (true, fst (Exec c), snd (Exec c)).
Proof.
  intros Hact. unfold HandleKeyPress. cbn.
  destruct (state_ c); try contradiction; now destruct (Exec c).
Qed.

Lemma Exec_state (c : DevConsole) : state_ (fst (Exec c)) = state_ c.
Proof.
  unfold Exec. destruct (input_enabled_ c); cbn; [|reflexivity].
  destruct (String.eqb (input_string_ c) "clear"); reflexivity.
Qed.

(** X5. Return and then Up, on an active console with input enabled and a
    history within its capacity: the command is recorded and the input
    emptied, and Up brings the very text that was submitted back into the
    input string. *)
Theorem up_recalls_the_submitted_text {T : TextSupport} (cfg : BuildConfig)
    (now : seconds_t) (c : DevConsole)
    (Hactive : state_ c <> kInactive)
    (Henabled : input_enabled_ c = true)
    (Hcap : (List.length (input_history_ c) <= kInputHistoryLimit)%nat) :
  map input_string_ (press_keys cfg now [SDLK_RETURN; SDLK_UP] c)
  = [EmptyString; input_string_ c].
Proof.
  cbn [press_keys].
  rewrite (HandleKeyPress_return cfg now c Hactive).
  pose proof (Exec_state c) as Hst.
  pose proof (Exec_enabled c Henabled) as HE.
  destruct (Exec c) as [c1 e1]. cbn [fst snd] in *.
  assert (Hc1 : input_string_ c1 = EmptyString
                /\ input_history_position_ c1 = 0
                /\ input_history_ c1
                   = push_history (input_string_ c) (input_history_ c)).
  { destruct (String.eqb (input_string_ c) "clear");
      inversion HE; subst; cbn; auto. }
  destruct Hc1 as (Hin & Hpos & Hh).
  rewrite push_history_firstn in Hh by exact Hcap.
  change (firstn kInputHistoryLimit (input_string_ c :: input_history_ c))
    with (input_string_ c :: firstn 99 (input_history_ c)) in Hh.
  assert (Hne : input_history_ c1 <> []) by (rewrite Hh; discriminate).
  assert (Hlen : Z.of_nat (List.length (input_history_ c1)) < 2147483648).
  { rewrite Hh. cbn [List.length]. rewrite length_firstn.
    unfold kInputHistoryLimit in Hcap. lia. }
  rewrite (HandleKeyPress_arrow cfg now true c1) by (rewrite ?Hst; assumption).
  destruct (history_move_cursor_positive true c1 Hne Hlen ltac:(lia))
    as [_ Hnth].
  rewrite Hpos in Hnth. change (0 + 1 - 1) with 0 in Hnth.
  rewrite Z.mod_0_l in Hnth
    by (destruct (input_history_ c1); [congruence | cbn; lia]).
  rewrite Hh in Hnth. cbn in Hnth. inversion Hnth as [Hs].
  cbn [map]. now rewrite Hin, <- Hs.
Qed.

Lemma up_recalls_the_submitted_text_witness :
  map input_string_
    (@press_keys fixed_advance cfg0 t0 [SDLK_RETURN; SDLK_UP]
       (with_input "print(1)" console_c3c2c1))
  = [EmptyString; "print(1)"%string].
Proof.
  apply (@up_recalls_the_submitted_text fixed_advance cfg0 t0
           (with_input "print(1)" console_c3c2c1));
    [discriminate | reflexivity | unfold kInputHistoryLimit; cbn; lia].
Defined.

Lemma hd_push_history (entry : string) (h : list string) :
  hd_error (push_history entry h) = Some entry.
Proof.
  unfold push_history.
  destruct (Nat.ltb_spec kInputHistoryLimit (List.length (entry :: h)))
    as [Hgt|Hle]; [|reflexivity].
  destruct h as [|e h]; [|reflexivity].
  unfold kInputHistoryLimit in Hgt. cbn in Hgt. lia.
Qed.

Lemma type_texts_input (texts : list string) (c : DevConsole) :
  state_ c <> kInactive ->
  let c' := type_texts texts c in
  state_ c' = state_ c
  /\ input_enabled_ c' = input_enabled_ c
  /\ input_history_ c' = input_history_ c
  /\ input_string_ c' = String.append (input_string_ c) (typed_text texts).
Proof.
  revert c. induction texts as [|text rest IH]; intros c Hact.
  - cbn. now rewrite append_empty_r.
  - cbn [type_texts]. unfold typed_text. cbn [filter].
    unfold HandleTextEditing.
    destruct (String.eqb text "`") eqn:E; cbn [negb].
    + replace (snd (match state_ c with
                    | kInactive => (false, c)
                    | _ => (false, c)
                    end)) with c by (now destruct (state_ c)).
      apply (IH c Hact).
    + replace (snd (match state_ c with
                    | kInactive => (false, c)
                    | _ => (true, with_input
                                    (String.append (input_string_ c) text) c)
                    end))
        with (with_input (String.append (input_string_ c) text) c)
        by (destruct (state_ c); [contradiction| |]; reflexivity).
      destruct (IH (with_input (String.append (input_string_ c) text) c) Hact)
        as (H1 & H2 & H3 & H4).
      cbn [state_ input_enabled_ input_history_ input_string_ with_input]
        in H1, H2, H3, H4.
      repeat split; try assumption.
      rewrite H4. cbn [concat_strings fold_right].
      now rewrite append_assoc.
Qed.

(** X6. Text typed into an active, enabled console and then Return: the input
    string at Return is the earlier input followed by the typed strings in
    order, lone back-ticks left out; unless that is exactly [clear], it is
    the one command pushed to the event loop, and in both cases it is what
    the history records. *)
Theorem typed_text_is_what_runs {T : TextSupport} (cfg : BuildConfig)
    (now : seconds_t) (texts : list string) (c : DevConsole)
    (Hactive : state_ c <> kInactive)
    (Henabled : input_enabled_ c = true) :
  let command := String.append (input_string_ c) (typed_text texts) in
  let '(consumed, c', effects) :=
    HandleKeyPress cfg now SDLK_RETURN (type_texts texts c) in
  consumed = true
  /\ effects = (if String.eqb command "clear" then []
                else [PushCall_Command command])
  /\ hd_error (input_history_ c') = Some command
  /\ input_string_ c' = EmptyString.
Proof.
  cbv zeta.
  destruct (type_texts_input texts c Hactive) as (Hst & Hen & _ & Hin).
  rewrite HandleKeyPress_return by (rewrite Hst; exact Hactive).
  rewrite Exec_enabled by (rewrite Hen; exact Henabled).
  rewrite Hin.
  destruct (String.eqb _ "clear"); cbn [fst snd input_history_ input_string_];
    repeat split; apply hd_push_history.
Qed.

Lemma typed_text_is_what_runs_witness :
  let '(consumed, c', effects) :=
    @HandleKeyPress fixed_advance cfg0 t0 SDLK_RETURN
      (type_texts ["pri"; "`"; "nt(`1`)"]%string console_full) in
  consumed = true
  /\ effects = [PushCall_Command "print(`1`)"]
  /\ hd_error (input_history_ c') = Some "print(`1`)"%string
  /\ input_string_ c' = EmptyString.
Proof.
  exact (@typed_text_is_what_runs fixed_advance cfg0 t0
           ["pri"; "`"; "nt(`1`)"]%string console_full
           ltac:(discriminate) eq_refl).
Defined.

(** ** What no run of key and text events does *)

Lemma Exec_frame (c : DevConsole) :
  let '(c', effects) := Exec c in
  input_enabled_ c' = input_enabled_ c
  /\ (input_enabled_ c = false -> pushed_commands effects = [] /\ c' = c).
Proof.
  destruct (input_enabled_ c) eqn:Hen.
  - rewrite (Exec_enabled c Hen).
    destruct (String.eqb (input_string_ c) "clear"); cbn;
      (split; [reflexivity | discriminate]).
  - unfold Exec. rewrite Hen. cbn. auto.
Qed.

Lemma HandleKeyPress_frame {T : TextSupport} (cfg : BuildConfig)
    (now : seconds_t) (sym : Z) (c : DevConsole) :
  let '(_, c', effects) := HandleKeyPress cfg now sym c in
  input_enabled_ c' = input_enabled_ c
  /\ (input_enabled_ c = false ->
      pushed_commands effects = []
      /\ input_history_ c' = input_history_ c
      /\ lines_ c' = lines_ c
      /\ last_line_ c' = last_line_ c).
Proof.
  unfold HandleKeyPress.
  destruct ((sym =? kDevConsoleActivateKey1) || (sym =? kDevConsoleActivateKey2)).
  { destruct (negb (demo_build cfg) && negb (arcade_build cfg)); cbn; auto. }
  destruct (state_ c) eqn:Hst; [cbn; auto | |].
  all: destruct (sym =? SDLK_ESCAPE);
    [unfold Dismiss; rewrite Hst; cbn; auto|].
  all: destruct ((sym =? SDLK_BACKSPACE) || (sym =? SDLK_DELETE));
    [destruct (UnicodeFromUTF8 (input_string_ c)); cbn; auto|].
  all: destruct ((sym =? SDLK_UP) || (sym =? SDLK_DOWN));
    [destruct (input_history_ c) eqn:Hh; [cbn; auto|];
     destruct (history_move_frame (sym =? SDLK_UP) c) as (_ & H1 & H2 & H3 & H4);
     rewrite H1, H2, H3, H4, Hh; cbn; auto|].
  all: destruct ((sym =? SDLK_KP_ENTER) || (sym =? SDLK_RETURN)); [|cbn; auto].
  all: pose proof (Exec_frame c) as HE; destruct (Exec c) as [c1 e1];
    destruct HE as [H1 H2]; split; [exact H1|];
    intros Hd; destruct (H2 Hd) as [H3 H4]; subst c1; auto.
Qed.

Lemma handle_event_frame {T : TextSupport} (cfg : BuildConfig)
    (now : seconds_t) (ev : InputEvent) (c : DevConsole) :
  let '(_, c', effects) := handle_event cfg now ev c in
  input_enabled_ c' = input_enabled_ c
  /\ (input_enabled_ c = false ->
      pushed_commands effects = []
      /\ input_history_ c' = input_history_ c
      /\ lines_ c' = lines_ c
      /\ last_line_ c' = last_line_ c).
Proof.
  destruct ev as [sym|sym|text]; cbn [handle_event].
  - apply HandleKeyPress_frame.
  - cbn. auto.
  - unfold HandleTextEditing.
    destruct (state_ c), (String.eqb text "`"); cbn; auto.
Qed.

Lemma pushed_commands_app (a b : list Effect) :
  pushed_commands (a ++ b) = (pushed_commands a ++ pushed_commands b)%list.
Proof.
  induction a as [|e a IH]; [reflexivity|].
  destruct e; cbn; now rewrite IH.
Qed.

(** X7. Until [EnableInput] is called, no run of key presses, key releases and
    text-input events enables input, pushes a command to the event loop,
    records anything in the command history or changes the line buffer. *)
Theorem nothing_runs_before_EnableInput {T : TextSupport} (cfg : BuildConfig)
    (events : list (seconds_t * InputEvent)) (c : DevConsole)
    (Hdisabled : input_enabled_ c = false) :
  let '(c', effects) := run_events cfg events c in
  input_enabled_ c' = false
  /\ pushed_commands effects = []
  /\ input_history_ c' = input_history_ c
  /\ lines_ c' = lines_ c
  /\ last_line_ c' = last_line_ c.
Proof.
  revert c Hdisabled.
  induction events as [|[now ev] rest IH]; intros c Hdisabled.
  - cbn. auto.
  - cbn [run_events].
    pose proof (handle_event_frame cfg now ev c) as Hstep.
    destruct (handle_event cfg now ev c) as [[consumed c1] e1].
    destruct Hstep as [Hen Hrest]. destruct (Hrest Hdisabled) as (P1 & H1 & L1 & A1).
    rewrite Hdisabled in Hen. specialize (IH c1 Hen).
    destruct (run_events cfg rest c1) as [c2 e2].
    destruct IH as (Hen2 & P2 & H2 & L2 & A2).
    rewrite pushed_commands_app, P1, P2. repeat split; congruence.
Qed.

Lemma nothing_runs_before_EnableInput_witness :
  pushed_commands
    (snd (@run_events fixed_advance cfg0
            [(t0, KeyPress SDLK_F2); (t0, KeyPress SDLK_F2);
             (t0, TextEditing "quit()"); (t0, KeyPress SDLK_RETURN);
             (t0, KeyRelease SDLK_RETURN)]
            console0))
  = [].
Proof.
  pose proof (@nothing_runs_before_EnableInput fixed_advance cfg0
                [(t0, KeyPress SDLK_F2); (t0, KeyPress SDLK_F2);
                 (t0, TextEditing "quit()"); (t0, KeyPress SDLK_RETURN);
                 (t0, KeyRelease SDLK_RETURN)]
                console0 eq_refl) as H.
  destruct (run_events _ _ _) as [c' effects].
  exact (proj1 (proj2 H)).
Defined.

(** X8. In a demo or arcade build, a console that is Inactive stays exactly as
    it is under every run of key presses, key releases and text-input
    events, and nothing is done outside: the keyboard cannot open it. *)
Theorem locked_build_keeps_console_closed {T : TextSupport}
    (cfg : BuildConfig) (events : list (seconds_t * InputEvent))
    (c : DevConsole)
    (Hlocked : demo_build cfg = true \/ arcade_build cfg = true)
    (Hinactive : state_ c = kInactive) :
  run_events cfg events c = (c, []).
Proof.
  induction events as [|[now ev] rest IH]; [reflexivity|].
  cbn [run_events].
  assert (Hstep : exists consumed, handle_event cfg now ev c = (consumed, c, [])).
  { destruct ev as [sym|sym|text]; cbn [handle_event].
    - unfold HandleKeyPress.
      destruct ((sym =? kDevConsoleActivateKey1)
                || (sym =? kDevConsoleActivateKey2)).
      + exists true.
        destruct Hlocked as [H|H]; rewrite H; cbn;
          [|rewrite andb_false_r]; reflexivity.
      + exists false. now rewrite Hinactive.
    - eexists. reflexivity.
    - exists false. unfold HandleTextEditing. now rewrite Hinactive. }
  destruct Hstep as [consumed Hstep]. rewrite Hstep, IH. reflexivity.
Qed.

Lemma locked_build_keeps_console_closed_witness :
  @run_events fixed_advance (mkBuildConfig true false)
    [(t0, KeyPress SDLK_BACKQUOTE); (t0, TextEditing "x");
     (t0, KeyPress SDLK_F2)]
    console0
  = (console0, []).
Proof.
  apply (@locked_build_keeps_console_closed fixed_advance);
    [left; reflexivity | reflexivity].
Defined.

(** X9. Escape on an active console: the key is consumed, the console becomes
    Inactive with the state it had as the previous one and [now] as the
    start of the transition, nothing else changes, and from then on a press
    of any key but the activation keys is not consumed. *)
Theorem escape_closes_the_console {T : TextSupport} (cfg : BuildConfig)
    (now later : seconds_t) (sym : Z) (c : DevConsole)
    (Hactive : state_ c <> kInactive)
    (Hkey1 : sym <> kDevConsoleActivateKey1)
    (Hkey2 : sym <> kDevConsoleActivateKey2) :
  let closed := with_state kInactive (state_ c) now c in
  HandleKeyPress cfg now SDLK_ESCAPE c = (true, closed, [])
  /\ HandleKeyPress cfg later sym closed = (false, closed, [])
  /\ HandleKeyPress cfg later SDLK_ESCAPE closed = (false, closed, []).
Proof.
  cbv zeta. repeat split.
  - unfold HandleKeyPress, Dismiss. cbn.
    destruct (state_ c); [contradiction| |]; reflexivity.
  - unfold HandleKeyPress.
    apply Z.eqb_neq in Hkey1. apply Z.eqb_neq in Hkey2.
    now rewrite Hkey1, Hkey2.
Qed.

Lemma escape_closes_the_console_witness :
  @HandleKeyPress fixed_advance cfg0 t0 SDLK_ESCAPE console_full
  = (true, with_state kInactive kFull t0 console_full, []).
Proof.
  exact (proj1 (@escape_closes_the_console fixed_advance cfg0 t0 t0 SDLK_UP
                  console_full ltac:(discriminate) ltac:(discriminate)
                  ltac:(discriminate))).
Defined.

(** X10. [Dismiss] on a console that is already Inactive changes nothing: a
    second dismissal does not restart the transition of the first, and the
    previous state it recorded is kept. *)
Theorem Dismiss_once_is_enough (now later : seconds_t) (c : DevConsole) :
  Dismiss later (Dismiss now c) = Dismiss now c
  /\ state_ (Dismiss now c) = kInactive
  /\ (state_ c <> kInactive ->
      state_prev_ (Dismiss later (Dismiss now c)) = state_ c
      /\ transition_start_ (Dismiss later (Dismiss now c)) = now).
Proof.
  unfold Dismiss. destruct c as [st sp ts inp dirty hist pos en ll lld ls].
  destruct st; cbn; repeat split; congruence.
Qed.

Lemma Dismiss_once_is_enough_witness :
  state_prev_ (Dismiss t0 (Dismiss t0 console_full)) = kFull.
Proof.
  exact (proj1 (proj2 (proj2 (Dismiss_once_is_enough t0 t0 console_full))
                  ltac:(discriminate))).
Defined.

(** ** The line history under [Print], for any text support *)

Lemma Print_inversion {T : TextSupport} (now : seconds_t) (s_in : string)
    (c c' : DevConsole) (finalized : list Line_) :
  Print now s_in c = Some (c', finalized) ->
  exists pieces,
    finalized = map (mkLine_ now) pieces
    /\ lines_ c' = emplace_lines now pieces (lines_ c)
    /\ state_ c' = state_ c
    /\ input_string_ c' = input_string_ c
    /\ input_history_ c' = input_history_ c
    /\ input_history_position_ c' = input_history_position_ c
    /\ input_enabled_ c' = input_enabled_ c.
Proof.
  unfold Print. intros H.
  destruct (BreakUpString _ _) as [|p ps]; [discriminate|].
  inversion H; subst. eexists. repeat split.
Qed.

(** X12. Whatever [GetValidUTF8] and [BreakUpString] do: when a sequence of
    [Print] calls on a history of at most 80 lines returns, the history is
    the last 80 of the earlier lines followed by the lines finalized, in
    order; it has at most 80 lines; every finalized line carries the display
    time of one of the calls; and the input string, the command history, its
    cursor, the input gate and the visibility state are as before. *)
Theorem Print_keeps_the_newest_lines {T : TextSupport}
    (calls : list (seconds_t * string)) (c c' : DevConsole)
    (finalized : list Line_)
    (Hreturns : Print_all calls c = Some (c', finalized))
    (Hbound : (List.length (lines_ c) <= 80)%nat) :
  lines_ c' = lastn 80 (lines_ c ++ finalized)
  /\ (List.length (lines_ c') <= 80)%nat
  /\ Forall (fun line => In (creation_time line) (map fst calls)) finalized
  /\ state_ c' = state_ c
  /\ input_string_ c' = input_string_ c
  /\ input_history_ c' = input_history_ c
  /\ input_history_position_ c' = input_history_position_ c
  /\ input_enabled_ c' = input_enabled_ c.
Proof.
  revert c c' finalized Hreturns Hbound.
  induction calls as [|[now s_in] rest IH]; intros c c' finalized Hret Hb.
  - cbn in Hret. inversion Hret; subst. rewrite app_nil_r.
    rewrite lastn_all by exact Hb. repeat split; auto.
  - cbn [Print_all] in Hret.
    destruct (Print now s_in c) as [[c1 f1]|] eqn:E1; [|discriminate].
    destruct (Print_all rest c1) as [[c2 f2]|] eqn:E2; [|discriminate].
    inversion Hret; subst c2 finalized. clear Hret.
    destruct (Print_inversion now s_in c c1 f1 E1)
      as (pieces & -> & Hl1 & S1 & I1 & H1 & P1 & N1).
    rewrite emplace_lines_lastn in Hl1 by exact Hb.
    assert (Hb1 : (List.length (lines_ c1) <= 80)%nat)
      by (rewrite Hl1; apply length_lastn).
    destruct (IH c1 c' f2 E2 Hb1) as (Hl2 & Hb2 & Ht2 & S2 & I2 & H2 & P2 & N2).
    repeat split; try congruence.
    + rewrite Hl2, Hl1, lastn_app_lastn, app_assoc. reflexivity.
    + apply Forall_app. split.
      * apply Forall_forall. intros line Hin.
        apply in_map_iff in Hin as (piece & <- & _). cbn. now left.
      * eapply Forall_impl; [|exact Ht2]. cbn. intros line Hin. now right.
Qed.

Lemma Print_keeps_the_newest_lines_witness :
  exists c',
    @Print_all fixed_advance [(t0, "abcdefgh"); (t0, "ij")]%string
      console0
    = Some (c', map (mkLine_ t0) ["abc"; "def"; "ghi"]%string)
    /\ lines_ c' = map (mkLine_ t0) ["abc"; "def"; "ghi"]%string.
Proof.
  eexists. split; [reflexivity|].
  exact (proj1 (@Print_keeps_the_newest_lines fixed_advance
                  [(t0, "abcdefgh"); (t0, "ij")]%string console0 _ _
                  eq_refl ltac:(cbn; lia))).
Defined.

Lemma c_str_idempotent (text : string) : c_str (c_str text) = c_str text.
Proof. apply c_str_without_NUL, c_str_has_no_NUL. Qed.

Lemma c_str_cut (head tail : string) :
  c_str (String.append head (String NUL tail)) = c_str head.
Proof.
  induction head as [|x head IH]; cbn; [reflexivity|].
  destruct (Ascii.eqb x NUL); [reflexivity | now rewrite IH].
Qed.

(** X13. [Print] passes its argument on with [c_str()]: what it does with a
    string is what it does with the bytes in front of the string's first
    NUL byte, so whatever follows a NUL byte has no effect at all. *)
Theorem Print_sees_only_the_C_string {T : TextSupport} (now : seconds_t)
    (c : DevConsole) (s_in head tail : string) :
  Print now s_in c = Print now (c_str s_in) c
  /\ Print now (String.append head (String NUL tail)) c = Print now head c.
Proof.
  unfold Print. now rewrite c_str_idempotent, c_str_cut.
Qed.

(** ** Widgets: further behaviour *)

Lemma Widget_HandleMouseUp_idle {Runnable : Type} (svw : F32.float)
    (w : Widget_ Runnable) (mx my : F32.float) :
  Widget_pressed w = false -> Widget_HandleMouseUp svw w mx my = (w, []).
Proof.
  intros Hidle. destruct w as [b|b|b]; cbn in Hidle |- *.
  - unfold Button_.HandleMouseUp. now rewrite Hidle.
  - unfold ToggleButton_.HandleMouseUp. now rewrite Hidle.
  - unfold TabButton_.HandleMouseUp. now rewrite Hidle.
Qed.

(** A release that reaches a widget which is not pressed does nothing:
    the widget is as before and no call runs, wherever the release falls.
    (The console forwards every release to every widget.) *)
Theorem release_without_press {Runnable : Type} (svw : F32.float)
    (w : Widget_ Runnable) (mx my : F32.float)
    (Hidle : Widget_pressed w = false) :
  Widget_HandleMouseUp svw w mx my = (w, [])
  /\ Widget_pressed (fst (Widget_HandleMouseUp svw w mx my)) = false.
Proof.
  rewrite (Widget_HandleMouseUp_idle svw w mx my Hidle). now split.
Qed.

Lemma release_without_press_witness :
  Widget_HandleMouseUp (F32.of_Z 800) sample_button (F32.of_Z 5) (F32.of_Z 5)
  = (sample_button, []).
Proof.
  exact (proj1 (release_without_press _ sample_button _ _ eq_refl)).
Defined.

(** X14. Two clicks inside a toggle button that is not pressed: the first
    flips [on] and runs the call of the new setting, the second flips it
    back and runs the other call, and the button is then as it was. *)
Theorem toggle_button_two_clicks {Runnable : Type} (svw : F32.float)
    (b : ToggleButton_.t Runnable) (mx my : F32.float)
    (Hidle : ToggleButton_.pressed b = false)
    (Hhit : ToggleButton_.InUs svw b mx my = true) :
  let '(b1, ran1) := ToggleButton_click svw b mx my in
  let '(b2, ran2) := ToggleButton_click svw b1 mx my in
  ToggleButton_.on b1 = negb (ToggleButton_.on b)
  /\ ran1 = run_if_exists (if ToggleButton_.on b
                           then ToggleButton_.off_call b
                           else ToggleButton_.on_call b)
  /\ ran2 = run_if_exists (if ToggleButton_.on b
                           then ToggleButton_.on_call b
                           else ToggleButton_.off_call b)
  /\ b2 = b.
Proof.
  assert (Hclick : forall o,
            ToggleButton_click svw
              (ToggleButton_.mk (ToggleButton_.attach b) (ToggleButton_.x b)
                 (ToggleButton_.y b) (ToggleButton_.width b)
                 (ToggleButton_.height b) false o (ToggleButton_.on_call b)
                 (ToggleButton_.off_call b) (ToggleButton_.text_scale b))
              mx my
            = (ToggleButton_.mk (ToggleButton_.attach b) (ToggleButton_.x b)
                 (ToggleButton_.y b) (ToggleButton_.width b)
                 (ToggleButton_.height b) false (negb o)
                 (ToggleButton_.on_call b) (ToggleButton_.off_call b)
                 (ToggleButton_.text_scale b),
               run_if_exists (if negb o then ToggleButton_.on_call b
                              else ToggleButton_.off_call b))).
  { intros o.
    unfold ToggleButton_click, ToggleButton_.HandleMouseDown,
      ToggleButton_.HandleMouseUp, ToggleButton_.InUs,
      ToggleButton_.set_pressed, ToggleButton_.set_on in *.
    cbn [ToggleButton_.attach ToggleButton_.x ToggleButton_.y
         ToggleButton_.width ToggleButton_.height ToggleButton_.pressed
         ToggleButton_.on ToggleButton_.on_call ToggleButton_.off_call
         ToggleButton_.text_scale snd].
    rewrite Hhit.
    cbn [ToggleButton_.attach ToggleButton_.x ToggleButton_.y
         ToggleButton_.width ToggleButton_.height ToggleButton_.pressed
         ToggleButton_.on ToggleButton_.on_call ToggleButton_.off_call
         ToggleButton_.text_scale snd].
    rewrite Hhit. reflexivity. }
  destruct b as [a x y wd ht p o c1 c2 sc]. cbn in Hidle. subst p.
  cbn [ToggleButton_.attach ToggleButton_.x ToggleButton_.y
       ToggleButton_.width ToggleButton_.height ToggleButton_.pressed
       ToggleButton_.on ToggleButton_.on_call ToggleButton_.off_call
       ToggleButton_.text_scale] in Hclick |- *.
  rewrite (Hclick o), (Hclick (negb o)), negb_involutive.
  destruct o; cbn; repeat split; reflexivity.
Qed.

Lemma toggle_button_two_clicks_witness :
  let '(b1, ran1) :=
    ToggleButton_click (F32.of_Z 800) sample_toggle (F32.of_Z 5) (F32.of_Z 5) in
  let '(b2, ran2) :=
    ToggleButton_click (F32.of_Z 800) b1 (F32.of_Z 5) (F32.of_Z 5) in
  ToggleButton_.on b1 = true
  /\ ran1 = ["on"%string] /\ ran2 = ["off"%string] /\ b2 = sample_toggle.
Proof.
  exact (toggle_button_two_clicks (F32.of_Z 800) sample_toggle
           (F32.of_Z 5) (F32.of_Z 5) eq_refl eq_refl).
Defined.

Lemma InBox_NaN (svw : F32.float) (attach : DevButtonAttach_)
    (x y width height mx my : F32.float) :
  InBox svw attach x y width height S754_nan my = false
  /\ InBox svw attach x y width height mx S754_nan = false.
Proof.
  unfold InBox, F32.ge, F32.le, F32.sub, SFleb.
  assert (Hnan : forall a, SFsub F32.prec F32.emax S754_nan a = S754_nan)
    by reflexivity.
  assert (Hr : forall a, SFcompare a S754_nan = None)
    by (intros a; destruct a; reflexivity).
  split.
  - now rewrite Hnan, Hr.
  - rewrite (Hr y). now rewrite andb_false_r.
Qed.

(** X15. A press with a NaN coordinate hits no widget: it is not consumed and
    the widget stays as it is. *)
Theorem press_at_NaN_is_refused {Runnable : Type} (svw : F32.float)
    (w : Widget_ Runnable) (mx my : F32.float) :
  Widget_HandleMouseDown svw w S754_nan my = (false, w)
  /\ Widget_HandleMouseDown svw w mx S754_nan = (false, w).
Proof.
  destruct w as [b|b|b]; cbn.
  - unfold Button_.HandleMouseDown, Button_.InUs.
    destruct (InBox_NaN svw (Button_.attach b) (Button_.x b) (Button_.y b)
                (Button_.width b) (Button_.height b) mx my) as [H1 H2].
    now rewrite H1, H2.
  - unfold ToggleButton_.HandleMouseDown, ToggleButton_.InUs.
    destruct (InBox_NaN svw (ToggleButton_.attach b) (ToggleButton_.x b)
                (ToggleButton_.y b) (ToggleButton_.width b)
                (ToggleButton_.height b) mx my) as [H1 H2].
    now rewrite H1, H2.
  - unfold TabButton_.HandleMouseDown, TabButton_.InUs.
    destruct (InBox_NaN svw (TabButton_.attach b) (TabButton_.x b)
                (TabButton_.y b) (TabButton_.width b)
                (TabButton_.height b) mx my) as [H1 H2].
    now rewrite H1, H2.
Qed.

(** ** The console and the mouse *)

Lemma Widget_HandleMouseDown_refused {Runnable : Type} (svw : F32.float)
    (w : Widget_ Runnable) (mx my : F32.float) :
  fst (Widget_HandleMouseDown svw w mx my) = false ->
  snd (Widget_HandleMouseDown svw w mx my) = w.
Proof.
  destruct w as [b|b|b]; cbn.
  - unfold Button_.HandleMouseDown.
    destruct (Button_.InUs svw b mx my); cbn; [discriminate | reflexivity].
  - unfold ToggleButton_.HandleMouseDown.
    destruct (ToggleButton_.InUs svw b mx my); cbn;
      [discriminate | reflexivity].
  - unfold TabButton_.HandleMouseDown.
    destruct (TabButton_.InUs svw b mx my && negb (TabButton_.selected b));
      cbn; [discriminate | reflexivity].
Qed.

Lemma count_pressed_released (ws : list (Widget_ Lambda)) :
  all_released ws -> count_pressed ws = 0%nat.
Proof.
  unfold count_pressed. induction 1 as [|wd ws Hwd _ IH]; [reflexivity|].
  cbn. now rewrite Hwd.
Qed.

Lemma widgets_mouse_down_spec (svw : F32.float) (ws : list (Widget_ Lambda))
    (mx my : F32.float) :
  all_released ws ->
  let '(taken, ws') := widgets_mouse_down svw ws mx my in
  (taken = true -> count_pressed ws' = 1%nat)
  /\ (taken = false -> ws' = ws).
Proof.
  induction 1 as [|wd ws Hwd Hws IH]; [cbn; split; [discriminate | reflexivity]|].
  cbn [widgets_mouse_down].
  destruct (Widget_HandleMouseDown_spec svw wd mx my) as [Hfst Hpr].
  pose proof (Widget_HandleMouseDown_refused svw wd mx my) as Href.
  destruct (Widget_HandleMouseDown svw wd mx my) as [taken wd'].
  cbn [fst snd] in *. rewrite Hwd, orb_false_r in Hpr.
  destruct taken.
  - split; [intros _ | discriminate].
    unfold count_pressed. cbn [filter]. rewrite Hpr, <- Hfst. cbn.
    f_equal. now apply count_pressed_released.
  - specialize (Href eq_refl). subst wd'.
    destruct (widgets_mouse_down svw ws mx my) as [later ws'].
    destruct IH as [IH1 IH2]. split.
    + intros ->. unfold count_pressed. cbn [filter]. rewrite Hwd.
      now apply IH1.
    + intros ->. now rewrite IH2.
Qed.

Lemma count_pressed_app (a b : list (Widget_ Lambda)) :
  count_pressed (a ++ b) = (count_pressed a + count_pressed b)%nat.
Proof. unfold count_pressed. now rewrite filter_app, length_app. Qed.

(** X16. A left press on a console none of whose widgets is pressed: at most
    one widget is pressed afterwards.  If one is, the press was consumed and
    the pending console press is as before.  If none is, the widgets are as
    before, a consumed press is remembered as the pending console press, and
    a press not consumed changes nothing.  The console members behind the
    widgets are never touched by a press. *)
Theorem mouse_down_presses_at_most_one (h : Host) (x y : F32.float)
    (w : DevConsoleW)
    (Htabs : all_released (tab_buttons_ w))
    (Hbuttons : all_released (buttons_ w)) :
  let '(consumed, w') := HandleMouseDown h 1 x y w in
  let pressed := count_pressed (tab_buttons_ w' ++ buttons_ w') in
  (pressed <= 1)%nat
  /\ (pressed = 1%nat ->
      consumed = true
      /\ python_console_pressed_ w' = python_console_pressed_ w)
  /\ (pressed = 0%nat ->
      tab_buttons_ w' = tab_buttons_ w /\ buttons_ w' = buttons_ w
      /\ (consumed = true -> w' = with_python_console_pressed true w)
      /\ (consumed = false -> w' = w))
  /\ console w' = console w.
Proof.
  unfold HandleMouseDown.
  assert (Hsame : forall u : DevConsoleW,
            with_buttons (buttons_ u) (with_tab_buttons (tab_buttons_ u) u) = u)
    by (intros []; reflexivity).
  destruct (state_ (console w)).
  { cbv zeta. rewrite count_pressed_app,
      (count_pressed_released _ Htabs), (count_pressed_released _ Hbuttons).
    repeat split; try lia; try discriminate. }
  all: cbn [Z.eqb Pos.eqb].
  all: pose proof (widgets_mouse_down_spec (graphics_screen_virtual_width h)
                     (tab_buttons_ w) x
                     (F32.sub y (Bottom_ h (console w))) Htabs) as Ht.
  all: destruct (widgets_mouse_down _ (tab_buttons_ w) _ _) as [taken tabs'].
  all: destruct Ht as [Ht1 Ht0].
  all: destruct taken.
  all: try (cbv zeta; cbn [tab_buttons_ buttons_ with_tab_buttons console
                            python_console_pressed_];
            rewrite count_pressed_app, (Ht1 eq_refl),
              (count_pressed_released _ Hbuttons);
            repeat split; try lia; try discriminate).
  all: rewrite (Ht0 eq_refl).
  all: cbn [buttons_ with_tab_buttons].
  all: pose proof (widgets_mouse_down_spec (graphics_screen_virtual_width h)
                     (buttons_ w) x
                     (F32.sub y (Bottom_ h (console w))) Hbuttons) as Hb.
  all: destruct (widgets_mouse_down _ (buttons_ w) _ _) as [taken buttons'].
  all: destruct Hb as [Hb1 Hb0].
  all: destruct taken.
  all: try (cbv zeta; cbn [tab_buttons_ buttons_ with_tab_buttons with_buttons
                            console python_console_pressed_];
            rewrite count_pressed_app, (Hb1 eq_refl),
              (count_pressed_released _ Htabs);
            repeat split; try lia; try discriminate).
  all: rewrite (Hb0 eq_refl), Hsame.
  all: destruct (Cxx.f32_lt y (Bottom_ h (console w))); cbv zeta.
  all: cbn [tab_buttons_ buttons_ with_python_console_pressed console
            python_console_pressed_].
  all: rewrite count_pressed_app, (count_pressed_released _ Htabs),
         (count_pressed_released _ Hbuttons).
  all: repeat split; try lia; try discriminate.
Qed.

Lemma mouse_down_presses_at_most_one_witness :
  let '(consumed, w') :=
    HandleMouseDown host0 1 (F32.of_Z 770) (F32.of_Z 90) consoleW0 in
  consumed = true
  /\ python_console_pressed_ w' = python_console_pressed_ consoleW0.
Proof.
  pose proof (mouse_down_presses_at_most_one host0 (F32.of_Z 770)
                (F32.of_Z 90) consoleW0
                ltac:(repeat constructor) ltac:(repeat constructor)) as H.
  destruct (HandleMouseDown host0 1 (F32.of_Z 770) (F32.of_Z 90) consoleW0)
    as [consumed w'] eqn:E.
  vm_compute in E. inversion E; subst. clear E.
  exact (proj1 (proj2 H) eq_refl).
Defined.

(** X17. A press of any mouse button but the left one reaches no widget and
    changes nothing; it is consumed exactly when the console is not
    Inactive and the press is not below the panel boundary. *)
Theorem mouse_down_other_buttons (h : Host) (button : Z) (x y : F32.float)
    (w : DevConsoleW)
    (Hbutton : button <> 1) :
  HandleMouseDown h button x y w
  = (match state_ (console w) with
     | kInactive => false
     | _ => negb (Cxx.f32_lt y (Bottom_ h (console w)))
     end, w).
Proof.
  unfold HandleMouseDown. apply Z.eqb_neq in Hbutton. rewrite Hbutton.
  destruct (state_ (console w)); [reflexivity| |];
    destruct (Cxx.f32_lt y (Bottom_ h (console w))); reflexivity.
Qed.

Lemma mouse_down_other_buttons_witness :
  HandleMouseDown host0 3 (F32.of_Z 770) (F32.of_Z 90) consoleW0
  = (true, consoleW0).
Proof.
  exact (mouse_down_other_buttons host0 3 (F32.of_Z 770) (F32.of_Z 90)
           consoleW0 ltac:(discriminate)).
Defined.

(** While the console is Inactive no mouse press is consumed, with any
    button and at any point, and nothing changes. *)
Theorem mouse_down_while_inactive (h : Host) (button : Z) (x y : F32.float)
    (w : DevConsoleW)
    (Hinactive : state_ (console w) = kInactive) :
  HandleMouseDown h button x y w = (false, w).
Proof. unfold HandleMouseDown. now rewrite Hinactive. Qed.

Lemma mouse_down_while_inactive_witness :
  HandleMouseDown host0 1 (F32.of_Z 770) (F32.of_Z 90)
    (with_console console0 consoleW0)
  = (false, with_console console0 consoleW0).
Proof.
  exact (mouse_down_while_inactive host0 1 (F32.of_Z 770) (F32.of_Z 90)
           (with_console console0 consoleW0) eq_refl).
Defined.

Lemma Refresh_released (h : Host) (w : DevConsoleW) :
  all_released (tab_buttons_ (Refresh h w))
  /\ all_released (buttons_ (Refresh h w)).
Proof.
  assert (Ht : forall bscale bwidth bheight active x tabs,
            all_released
              (tab_buttons_from bscale bwidth bheight active x tabs)).
  { intros bscale bwidth bheight active x tabs. revert x.
    induction tabs as [|tab rest IH]; intros x; cbn; constructor;
      [reflexivity | apply IH]. }
  unfold Refresh, RefreshTabsButtons_.
  cbn [active_tab_ tabs_ with_buttons with_tab_buttons buttons_ tab_buttons_].
  destruct (String.eqb (active_tab_ w) "Python");
    cbn [tab_buttons_ buttons_ with_buttons app]; split;
    try apply Ht; repeat constructor.
Qed.

Lemma Refresh_frame (h : Host) (w : DevConsoleW) :
  console (Refresh h w) = console w
  /\ tabs_ (Refresh h w) = tabs_ w
  /\ active_tab_ (Refresh h w) = active_tab_ w
  /\ python_console_pressed_ (Refresh h w) = python_console_pressed_ w
  /\ string_edit_adapter_ (Refresh h w) = string_edit_adapter_ w.
Proof.
  unfold Refresh. cbn [active_tab_ with_buttons with_tab_buttons].
  destruct (String.eqb (active_tab_ w) "Python"); repeat split.
Qed.

Lemma set_nth_same {A : Type} (place : nat) (x : A) (l : list A) :
  nth_error l place = Some x -> set_nth place x l = l.
Proof.
  revert place. induction l as [|y l IH]; intros [|place] H; cbn in *;
    try congruence. now rewrite IH.
Qed.

Lemma length_set_nth {A : Type} (place : nat) (x : A) (l : list A) :
  List.length (set_nth place x l) = List.length l.
Proof.
  revert place. induction l as [|y l IH]; intros [|place]; cbn; auto.
Qed.

Lemma firstn_S_set_nth {A : Type} (place : nat) (x y : A) (l : list A) :
  nth_error l place = Some y ->
  firstn (S place) (set_nth place x l) = (firstn place l ++ [x])%list.
Proof.
  revert place. induction l as [|z l IH]; intros [|place] H; cbn in *;
    try congruence. f_equal. now apply IH.
Qed.

Lemma with_widget_list_same (tabs : bool) (w : DevConsoleW) :
  with_widget_list tabs (widget_list tabs w) w = w.
Proof. destruct w, tabs; reflexivity. Qed.

Lemma widget_list_with (tabs : bool) (ws : list (Widget_ Lambda))
    (w : DevConsoleW) :
  widget_list tabs (with_widget_list tabs ws w) = ws
  /\ widget_list (negb tabs) (with_widget_list tabs ws w)
     = widget_list (negb tabs) w
  /\ console (with_widget_list tabs ws w) = console w
  /\ tabs_ (with_widget_list tabs ws w) = tabs_ w
  /\ active_tab_ (with_widget_list tabs ws w) = active_tab_ w
  /\ python_console_pressed_ (with_widget_list tabs ws w)
     = python_console_pressed_ w
  /\ string_edit_adapter_ (with_widget_list tabs ws w)
     = string_edit_adapter_ w.
Proof. destruct tabs; repeat split. Qed.

(** A walk over widgets none of which is pressed does nothing. *)
Lemma widgets_mouse_up_idle (h : Host) (tabs : bool) (steps place : nat)
    (mx my : F32.float) (w : DevConsoleW) :
  all_released (widget_list tabs w) ->
  widgets_mouse_up h tabs steps place mx my w = (w, []).
Proof.
  intros Hidle. revert place.
  induction steps as [|steps IH]; intros place; [reflexivity|].
  cbn [widgets_mouse_up].
  destruct (nth_error (widget_list tabs w) place) as [wd|] eqn:E; [|apply IH].
  assert (Hwd : Widget_pressed wd = false).
  { unfold all_released in Hidle. rewrite Forall_forall in Hidle.
    apply Hidle. eapply nth_error_In; exact E. }
  rewrite (Widget_HandleMouseUp_idle _ wd mx my Hwd).
  rewrite (set_nth_same place wd _ E), with_widget_list_same.
  cbn [run_lambdas]. now rewrite IH.
Qed.

(** The walk passes over widgets that are not pressed. *)
Lemma widgets_mouse_up_skip (h : Host) (tabs : bool) (k steps place : nat)
    (mx my : F32.float) (w : DevConsoleW) :
  (forall j wd, (place <= j < place + k)%nat ->
                nth_error (widget_list tabs w) j = Some wd ->
                Widget_pressed wd = false) ->
  widgets_mouse_up h tabs (k + steps) place mx my w
  = widgets_mouse_up h tabs steps (place + k) mx my w.
Proof.
  revert place. induction k as [|k IH]; intros place Hidle.
  - now rewrite Nat.add_0_r.
  - cbn [Nat.add widgets_mouse_up].
    replace (place + S k)%nat with (S place + k)%nat by lia.
    assert (Hrest : forall j wd, (S place <= j < S place + k)%nat ->
                      nth_error (widget_list tabs w) j = Some wd ->
                      Widget_pressed wd = false)
      by (intros j wd Hj; apply Hidle; lia).
    destruct (nth_error (widget_list tabs w) place) as [wd|] eqn:E;
      [|now apply IH].
    rewrite (Widget_HandleMouseUp_idle _ wd mx my
               (Hidle place wd ltac:(lia) E)).
    rewrite (set_nth_same place wd _ E), with_widget_list_same.
    cbn [run_lambdas]. rewrite (IH (S place) Hrest).
    now destruct (widgets_mouse_up h tabs steps (S place + k) mx my w).
Qed.

(** What the lambdas of one release leave: the lists as they were, or
    rebuilt with nothing pressed. *)
Lemma run_lambdas_frame (h : Host) (ran : list Lambda) (w : DevConsoleW) :
  let '(w', _) := run_lambdas h ran w in
  tabs_ w' = tabs_ w
  /\ python_console_pressed_ w' = python_console_pressed_ w
  /\ string_edit_adapter_ w' = string_edit_adapter_ w
  /\ ((tab_buttons_ w' = tab_buttons_ w /\ buttons_ w' = buttons_ w
       /\ active_tab_ w' = active_tab_ w)
      \/ (all_released (tab_buttons_ w') /\ all_released (buttons_ w'))).
Proof.
  revert w. induction ran as [|l rest IH]; intros w.
  - cbn. repeat split; auto.
  - destruct l as [|tab]; cbn [run_lambdas].
    + destruct (Exec (console w)) as [c1 e1].
      specialize (IH (with_console c1 w)).
      destruct (run_lambdas h rest (with_console c1 w)) as [w2 e2].
      exact IH.
    + specialize (IH (Refresh h (with_active_tab tab w))).
      destruct (run_lambdas h rest (Refresh h (with_active_tab tab w)))
        as [w2 e2].
      destruct (Refresh_frame h (with_active_tab tab w))
        as (_ & F1 & _ & F2 & F3).
      destruct (Refresh_released h (with_active_tab tab w)) as [R1 R2].
      destruct IH as (I1 & I2 & I3 & I4).
      rewrite I1, I2, I3, F1, F2, F3. repeat split. right.
      destruct I4 as [(E1 & E2 & _)|I4]; [now rewrite E1, E2 | exact I4].
Qed.

(** After a walk that reaches the end of the list, nothing in it is
    pressed; the other list is as it was or was rebuilt with nothing
    pressed. *)
Lemma widgets_mouse_up_released (h : Host) (tabs : bool) (steps place : nat)
    (mx my : F32.float) (w : DevConsoleW) :
  all_released (firstn place (widget_list tabs w)) ->
  (List.length (widget_list tabs w) <= place + steps)%nat ->
  let '(w', _) := widgets_mouse_up h tabs steps place mx my w in
  all_released (widget_list tabs w')
  /\ (widget_list (negb tabs) w' = widget_list (negb tabs) w
      \/ all_released (widget_list (negb tabs) w'))
  /\ tabs_ w' = tabs_ w
  /\ python_console_pressed_ w' = python_console_pressed_ w
  /\ string_edit_adapter_ w' = string_edit_adapter_ w.
Proof.
  revert place w. induction steps as [|steps IH]; intros place w Hpre Hlen.
  - cbn. rewrite firstn_all2 in Hpre by lia. repeat split; auto.
  - cbn [widgets_mouse_up].
    destruct (nth_error (widget_list tabs w) place) as [wd|] eqn:E.
    + destruct (Widget_HandleMouseUp_spec (graphics_screen_virtual_width h)
                  wd mx my) as [Hreleased _].
      destruct (Widget_HandleMouseUp (graphics_screen_virtual_width h)
                  wd mx my) as [wd' ran].
      cbn [fst] in Hreleased.
      set (w1 := with_widget_list tabs
                   (set_nth place wd' (widget_list tabs w)) w).
      destruct (widget_list_with tabs
                  (set_nth place wd' (widget_list tabs w)) w)
        as (L1 & L2 & _ & L4 & _ & L6 & L7).
      fold w1 in L1, L2, L4, L6, L7.
      pose proof (run_lambdas_frame h ran w1) as HF.
      destruct (run_lambdas h ran w1) as [w2 e1].
      destruct HF as (F1 & F2 & F3 & F4).
      assert (Hcase :
                (widget_list tabs w2 = widget_list tabs w1
                 /\ widget_list (negb tabs) w2 = widget_list (negb tabs) w1)
                \/ (all_released (widget_list tabs w2)
                    /\ all_released (widget_list (negb tabs) w2))).
      { destruct F4 as [(E1 & E2 & _)|[R1 R2]];
          [left | right]; destruct tabs; cbn; auto. }
      destruct Hcase as [[S1 S2]|[R1 R2]].
      * specialize (IH (S place) w2).
        rewrite S1, L1 in IH.
        rewrite (firstn_S_set_nth place wd' wd _ E), length_set_nth in IH.
        assert (Hpre' : all_released
                          (firstn place (widget_list tabs w) ++ [wd']))
          by (apply Forall_app; split; [exact Hpre | now repeat constructor]).
        specialize (IH Hpre' ltac:(lia)).
        destruct (widgets_mouse_up h tabs steps (S place) mx my w2)
          as [w3 e2].
        destruct IH as (I1 & I2 & I3 & I4 & I5).
        repeat split; try congruence;
          try (destruct I2 as [I2|I2]; [left; congruence | now right]).
      * rewrite (widgets_mouse_up_idle h tabs steps (S place) mx my w2 R1).
        repeat split; try congruence. now right.
    + apply (IH (S place) w).
      * rewrite firstn_all2; [|apply nth_error_None in E; lia].
        rewrite firstn_all2 in Hpre by (apply nth_error_None in E; lia).
        exact Hpre.
      * lia.
Qed.

Lemma release_console_press_spec (h : Host) (button : Z) (y bottom : F32.float)
    (w : DevConsoleW) :
  let '(w', effects) := release_console_press h button y bottom w in
  tab_buttons_ w' = tab_buttons_ w
  /\ buttons_ w' = buttons_ w
  /\ console w' = console w
  /\ tabs_ w' = tabs_ w
  /\ active_tab_ w' = active_tab_ w
  /\ (button = 1 -> python_console_pressed_ w' = false)
  /\ (forall e, ~ In (Core e) effects).
Proof.
  unfold release_console_press.
  destruct (Z.eqb_spec button 1) as [E|E]; cbn [andb].
  - destruct (python_console_pressed_ w) eqn:Hp.
    + destruct (Cxx.f32_gt y bottom);
        [|cbn; repeat split; auto].
      destruct (negb (UIHasDirectKeyboardInput h) && HaveStringEditor h);
        [|cbn; repeat split; auto].
      unfold InvokeStringEditor_.
      cbn [string_edit_adapter_ with_python_console_pressed].
      destruct (match string_edit_adapter_ w with
                | Some adapter => negb (CanPyStringEditAdapterBeReplaced h adapter)
                | None => false
                end); [cbn; repeat split; auto|].
      destruct (StringEditAdapterClass_Call h) as [result|].
      * destruct (CanPyStringEditAdapterBeReplaced_after_Call h result);
          cbn; repeat split; auto; intros e Hin; intuition congruence.
      * cbn; repeat split; auto; intros e Hin; intuition congruence.
    + cbn. repeat split; auto.
  - cbn. repeat split; auto. congruence.
Qed.

(** A release of any mouse button but the left one changes nothing and
    does nothing outside, pending console press included. *)
Theorem mouse_up_other_buttons (h : Host) (button : Z) (x y : F32.float)
    (w : DevConsoleW)
    (Hbutton : button <> 1) :
  HandleMouseUp h button x y w = Returned w [].
Proof.
  unfold HandleMouseUp, release_console_press.
  apply Z.eqb_neq in Hbutton. now rewrite Hbutton.
Qed.

Lemma mouse_up_other_buttons_witness :
  HandleMouseUp host0 2 (F32.of_Z 770) (F32.of_Z 90)
    (with_python_console_pressed true consoleW0)
  = Returned (with_python_console_pressed true consoleW0) [].
Proof.
  exact (mouse_up_other_buttons host0 2 (F32.of_Z 770) (F32.of_Z 90)
           (with_python_console_pressed true consoleW0)
           ltac:(discriminate)).
Defined.

(** X19. After a left release no widget of either list is pressed, also
    when a tab's lambda rebuilt the lists while the loops were walking them;
    the pending console press is cleared and the tabs are as before. *)
Theorem mouse_up_releases_everything (h : Host) (x y : F32.float)
    (w : DevConsoleW) :
  match HandleMouseUp h 1 x y w with
  | Returned w' _ =>
      all_released (tab_buttons_ w') /\ all_released (buttons_ w')
      /\ python_console_pressed_ w' = false
      /\ tabs_ w' = tabs_ w
  end.
Proof.
  unfold HandleMouseUp. cbn [Z.eqb Pos.eqb].
  pose proof (widgets_mouse_up_released h true
                (List.length (tab_buttons_ w)) 0 x
                (F32.sub y (Bottom_ h (console w))) w
                ltac:(constructor) ltac:(cbn; lia)) as H1.
  destruct (widgets_mouse_up h true _ 0 x _ w) as [w1 e1].
  destruct H1 as (T1 & _ & G1 & _).
  pose proof (widgets_mouse_up_released h false
                (List.length (buttons_ w1)) 0 x
                (F32.sub y (Bottom_ h (console w))) w1
                ltac:(constructor) ltac:(cbn; lia)) as H2.
  destruct (widgets_mouse_up h false _ 0 x _ w1) as [w2 e2].
  destruct H2 as (B2 & T2 & G2 & _).
  cbn [widget_list negb] in T1, B2, T2.
  pose proof (release_console_press_spec h 1 y (Bottom_ h (console w)) w2)
    as Hr.
  destruct (release_console_press h 1 y (Bottom_ h (console w)) w2)
    as [w3 e3].
  destruct Hr as (Ht & Hb & _ & Htabs & _ & Hp & _).
  rewrite Ht, Hb, Htabs. repeat split; auto; try congruence.
  destruct T2 as [T2|T2]; [now rewrite T2 | exact T2].
Qed.

(** ** Rebuilding the widgets *)

Lemma tab_buttons_from_spec (bscale bwidth bheight : F32.float)
    (active : string) (x : F32.float) (tabs : list string) :
  map Widget_release_call (tab_buttons_from bscale bwidth bheight active x tabs)
  = map (fun tab => Some (Lambda_SelectTab tab)) tabs
  /\ map Widget_selected_tab
       (tab_buttons_from bscale bwidth bheight active x tabs)
     = map (String.eqb active) tabs.
Proof.
  revert x. induction tabs as [|tab rest IH]; intros x; [split; reflexivity|].
  destruct (IH (F32.add x bwidth)) as [IH1 IH2].
  cbn. now rewrite IH1, IH2.
Qed.

(** X20. [Refresh] builds one tab button per tab, in the order of the tabs, each
    bound to selecting its own tab and selected exactly when its tab is the
    active one; the Exec button is there exactly on the Python tab; nothing
    is pressed afterwards; the console members, the tabs, the active tab,
    the pending console press and the adapter are untouched; and a second
    [Refresh] under the same host changes nothing more. *)
Theorem Refresh_rebuilds_from_the_tabs (h : Host) (w : DevConsoleW) :
  let w' := Refresh h w in
  map Widget_release_call (tab_buttons_ w')
  = map (fun tab => Some (Lambda_SelectTab tab)) (tabs_ w)
  /\ map Widget_selected_tab (tab_buttons_ w')
     = map (String.eqb (active_tab_ w)) (tabs_ w)
  /\ buttons_ w' = (if String.eqb (active_tab_ w) "Python"
                    then [Exec_button h] else [])
  /\ all_released (tab_buttons_ w') /\ all_released (buttons_ w')
  /\ w' = with_buttons (buttons_ w')
            (with_tab_buttons (tab_buttons_ w') w)
  /\ Refresh h w' = w'.
Proof.
  cbv zeta. destruct (Refresh_released h w) as [Hr1 Hr2].
  unfold Refresh, RefreshTabsButtons_ in *.
  cbn [active_tab_ tabs_ with_buttons with_tab_buttons buttons_ tab_buttons_]
    in *.
  match goal with
  | |- context [tab_buttons_from ?a ?b ?c ?d ?e ?f] =>
      destruct (tab_buttons_from_spec a b c d e f) as [H1 H2]
  end.
  destruct (String.eqb (active_tab_ w) "Python") eqn:E;
    cbn [active_tab_ tabs_ with_buttons with_tab_buttons buttons_
         tab_buttons_ app] in *;
    rewrite ?E; repeat split; auto.
Qed.

(** ** Clicks *)

Lemma Button_release_after_press {Runnable : Type} (svw : F32.float)
    (b : Button_.t Runnable) (mx my : F32.float) :
  Button_.InUs svw b mx my = true ->
  Button_.HandleMouseUp svw (Button_.set_pressed true b) mx my
  = (Button_.set_pressed false b, run_if_exists (Button_.call b)).
Proof.
  destruct b as [a x y wd ht p cl sc]. unfold Button_.InUs. cbn.
  intros Hhit. unfold Button_.HandleMouseUp, Button_.InUs. cbn.
  now rewrite Hhit.
Qed.

Lemma Button_set_pressed_same {Runnable : Type} (b : Button_.t Runnable) :
  Button_.set_pressed (Button_.pressed b) b = b.
Proof. destruct b; reflexivity. Qed.

(** X21. A click on the Exec button.  On a console that is not Inactive, with
    no widget pressed and no console press pending, a left press that no tab
    button takes and that hits the Exec button, followed by a left release at
    the same point under the same host: the press is consumed, [Exec] runs
    once on the console members, its effects are all that happens outside,
    and the widgets are as before the press. *)
Theorem click_on_Exec_runs_Exec (h : Host) (x y : F32.float) (w : DevConsoleW)
    (Hactive : state_ (console w) <> kInactive)
    (Htabs : all_released (tab_buttons_ w))
    (Hbuttons : buttons_ w = [Exec_button h])
    (Hpending : python_console_pressed_ w = false)
    (Hmiss : fst (widgets_mouse_down (graphics_screen_virtual_width h)
                    (tab_buttons_ w) x
                    (F32.sub y (Bottom_ h (console w)))) = false)
    (Hhit : Widget_InUs (graphics_screen_virtual_width h) (Exec_button h) x
              (F32.sub y (Bottom_ h (console w))) = true) :
  let '(consumed, w1) := HandleMouseDown h 1 x y w in
  consumed = true
  /\ HandleMouseUp h 1 x y w1
     = Returned (with_console (fst (Exec (console w))) w)
         (map Core (snd (Exec (console w)))).
Proof.
  set (svw := graphics_screen_virtual_width h) in *.
  set (my := F32.sub y (Bottom_ h (console w))) in *.
  assert (Hdown : HandleMouseDown h 1 x y w
                  = (true, with_buttons
                             [WButton (Button_.set_pressed true
                                         (Exec_Button_ h))] w)).
  { unfold HandleMouseDown. fold svw. fold my.
    pose proof (widgets_mouse_down_spec svw (tab_buttons_ w) x my Htabs) as Ht.
    destruct (widgets_mouse_down svw (tab_buttons_ w) x my) as [taken tabs'].
    cbn [fst] in Hmiss. subst taken. destruct Ht as [_ Ht].
    rewrite (Ht eq_refl). cbn [Z.eqb Pos.eqb buttons_ with_tab_buttons].
    rewrite Hbuttons. unfold Exec_button in *.
    cbn [widgets_mouse_down Widget_HandleMouseDown].
    unfold Button_.HandleMouseDown. cbn [Widget_InUs] in Hhit. rewrite Hhit.
    destruct w as [c tabs act tb bs pend ad]; cbn in *; subst.
    destruct (state_ c); [contradiction| |]; reflexivity. }
  set (w1 := with_buttons
               [WButton (Button_.set_pressed true (Exec_Button_ h))] w) in *.
  assert (Hloop : widgets_mouse_up h false 1 0 x my w1
                  = (with_console (fst (Exec (console w))) w,
                     snd (Exec (console w)))).
  { unfold Exec_button in Hhit, Hbuttons. cbn [Widget_InUs] in Hhit.
    pose proof (Button_release_after_press svw (Exec_Button_ h) x my Hhit)
      as Hrelease.
    change (Button_.set_pressed false (Exec_Button_ h))
      with (Button_.set_pressed (Button_.pressed (Exec_Button_ h))
              (Exec_Button_ h)) in Hrelease.
    rewrite Button_set_pressed_same in Hrelease.
    change (Button_.call (Exec_Button_ h)) with (Some Lambda_Exec) in Hrelease.
    subst w1. clear Hdown.
    remember (Exec_Button_ h) as b eqn:Hb. clear Hb.
    destruct w as [c tabs act tb bs pend ad].
    cbn [buttons_] in Hbuttons. subst bs.
    cbn [widgets_mouse_up widget_list buttons_ with_buttons nth_error
         Widget_HandleMouseUp].
    fold svw. rewrite Hrelease.
    cbn [run_if_exists run_lambdas set_nth with_widget_list console
         with_buttons with_console buttons_ tabs_ active_tab_ tab_buttons_
         python_console_pressed_ string_edit_adapter_].
    destruct (Exec c) as [c1 e1]. cbn [fst snd app].
    now rewrite ?app_nil_r. }
  rewrite Hdown. split; [reflexivity|].
  unfold HandleMouseUp. cbn [Z.eqb Pos.eqb].
  change (console w1) with (console w).
  change (tab_buttons_ w1) with (tab_buttons_ w).
  fold my.
  rewrite (widgets_mouse_up_idle h true _ 0 x my w1 Htabs).
  change (List.length (buttons_ w1)) with 1%nat.
  rewrite Hloop.
  unfold release_console_press.
  cbn [python_console_pressed_ with_console].
  rewrite Hpending, andb_false_r. cbn [app]. now rewrite app_nil_r.
Qed.

Lemma click_on_Exec_runs_Exec_witness :
  let w := with_console (with_input "1+1" console_full) consoleW0 in
  let '(consumed, w1) :=
    HandleMouseDown host0 1 (F32.of_Z 770) (F32.of_Z 90) w in
  consumed = true
  /\ HandleMouseUp host0 1 (F32.of_Z 770) (F32.of_Z 90) w1
     = Returned
         (with_console
            (with_history ["1+1"%string] (with_input EmptyString console_full))
            consoleW0)
         [Core (PushCall_Command "1+1")].
Proof.
  exact (click_on_Exec_runs_Exec host0 (F32.of_Z 770) (F32.of_Z 90)
           (with_console (with_input "1+1" console_full) consoleW0)
           ltac:(discriminate) ltac:(repeat constructor)
           eq_refl eq_refl eq_refl eq_refl).
Defined.

Lemma widgets_mouse_down_app (svw : F32.float)
    (before rest : list (Widget_ Lambda)) (mx my : F32.float) :
  all_released before ->
  fst (widgets_mouse_down svw before mx my) = false ->
  widgets_mouse_down svw (before ++ rest) mx my
  = (fst (widgets_mouse_down svw rest mx my),
     before ++ snd (widgets_mouse_down svw rest mx my)).
Proof.
  induction 1 as [|wd ws Hwd Hws IH]; intros Hmiss.
  - cbn [app]. now destruct (widgets_mouse_down svw rest mx my).
  - cbn [widgets_mouse_down app] in *.
    pose proof (Widget_HandleMouseDown_refused svw wd mx my) as Href.
    destruct (Widget_HandleMouseDown svw wd mx my) as [taken wd'].
    cbn [fst snd] in Href.
    destruct taken; [discriminate Hmiss|]. rewrite (Href eq_refl).
    destruct (widgets_mouse_down svw ws mx my) as [later ws'].
    cbn [fst] in Hmiss. rewrite (IH Hmiss). reflexivity.
Qed.

Lemma Refresh_ignores_the_lists (h : Host) (w : DevConsoleW)
    (tabs' buttons' : list (Widget_ Lambda)) :
  Refresh h (with_buttons buttons' (with_tab_buttons tabs' w)) = Refresh h w.
Proof. destruct w; reflexivity. Qed.

Lemma Refresh_lists (h : Host) (w : DevConsoleW) :
  map Widget_release_call (tab_buttons_ (Refresh h w))
  = map (fun tab => Some (Lambda_SelectTab tab)) (tabs_ w)
  /\ map Widget_selected_tab (tab_buttons_ (Refresh h w))
     = map (String.eqb (active_tab_ w)) (tabs_ w)
  /\ buttons_ (Refresh h w)
     = (if String.eqb (active_tab_ w) "Python" then [Exec_button h] else []).
Proof.
  unfold Refresh, RefreshTabsButtons_.
  cbn [active_tab_ tabs_ with_buttons with_tab_buttons buttons_ tab_buttons_].
  match goal with
  | |- context [tab_buttons_from ?a ?b ?c ?d ?e ?f] =>
      destruct (tab_buttons_from_spec a b c d e f) as [H1 H2]
  end.
  destruct (String.eqb (active_tab_ w) "Python");
    cbn [tab_buttons_ buttons_ with_buttons app]; auto.
Qed.

Lemma TabButton_release_after_press {Runnable : Type} (svw : F32.float)
    (t : TabButton_.t Runnable) (mx my : F32.float) :
  TabButton_.InUs svw t mx my = true ->
  TabButton_.HandleMouseUp svw (TabButton_.set_pressed true t) mx my
  = (TabButton_.set_pressed false t, run_if_exists (TabButton_.call t)).
Proof.
  destruct t as [a x y wd ht p sel cl sc]. unfold TabButton_.InUs. cbn.
  intros Hhit. unfold TabButton_.HandleMouseUp, TabButton_.InUs. cbn.
  now rewrite Hhit.
Qed.

(** X22. A click on a tab.  On a console that is not Inactive, with no
    widget pressed and no console press pending, a left press inside a tab
    button that is not selected, which no tab button in front of it takes, is
    consumed.  The left release at the same point runs that button's lambda
    and returns: the tab it names is the active tab, both widget lists are
    rebuilt for it (one tab button per tab, selected exactly for the new
    active tab, the Exec button exactly on the Python tab, nothing pressed),
    nothing else has changed and nothing is done outside. *)
Theorem click_on_a_tab_selects_it (h : Host) (x y : F32.float)
    (w : DevConsoleW) (before after : list (Widget_ Lambda))
    (t : TabButton_.t Lambda) (tab : string)
    (Hactive : state_ (console w) <> kInactive)
    (Hlist : tab_buttons_ w = (before ++ WTabButton t :: after)%list)
    (Hreleased : all_released (tab_buttons_ w))
    (Hpending : python_console_pressed_ w = false)
    (Hbefore : fst (widgets_mouse_down (graphics_screen_virtual_width h)
                      before x (F32.sub y (Bottom_ h (console w)))) = false)
    (Hhit : TabButton_.InUs (graphics_screen_virtual_width h) t x
              (F32.sub y (Bottom_ h (console w))) = true)
    (Hselected : TabButton_.selected t = false)
    (Hcall : TabButton_.call t = Some (Lambda_SelectTab tab)) :
  let '(consumed, w1) := HandleMouseDown h 1 x y w in
  consumed = true
  /\ exists w',
       HandleMouseUp h 1 x y w1 = Returned w' []
       /\ w' = Refresh h (with_active_tab tab w)
       /\ active_tab_ w' = tab
       /\ map Widget_selected_tab (tab_buttons_ w')
          = map (String.eqb tab) (tabs_ w)
       /\ map Widget_release_call (tab_buttons_ w')
          = map (fun name => Some (Lambda_SelectTab name)) (tabs_ w)
       /\ buttons_ w'
          = (if String.eqb tab "Python" then [Exec_button h] else [])
       /\ all_released (tab_buttons_ w') /\ all_released (buttons_ w')
       /\ console w' = console w
       /\ tabs_ w' = tabs_ w
       /\ python_console_pressed_ w' = false
       /\ string_edit_adapter_ w' = string_edit_adapter_ w.
Proof.
  set (svw := graphics_screen_virtual_width h) in *.
  set (my := F32.sub y (Bottom_ h (console w))) in *.
  rewrite Hlist in Hreleased. apply Forall_app in Hreleased as [Hb Hrest].
  assert (Hdown : HandleMouseDown h 1 x y w
                  = (true, with_tab_buttons
                             (before ++ WTabButton (TabButton_.set_pressed true t)
                                        :: after) w)).
  { unfold HandleMouseDown. fold svw. fold my.
    rewrite Hlist, (widgets_mouse_down_app svw before _ x my Hb Hbefore).
    cbn [widgets_mouse_down Widget_HandleMouseDown].
    unfold TabButton_.HandleMouseDown. rewrite Hhit, Hselected.
    cbn [negb andb fst snd Z.eqb Pos.eqb].
    destruct (state_ (console w)); [contradiction| |]; reflexivity. }
  rewrite Hdown. split; [reflexivity|].
  set (pressed_list := (before ++ WTabButton (TabButton_.set_pressed true t)
                               :: after)%list).
  set (w1 := with_tab_buttons pressed_list w).
  set (w2 := Refresh h (with_active_tab tab w)).
  destruct (Refresh_released h (with_active_tab tab w)) as [R1 R2].
  destruct (Refresh_frame h (with_active_tab tab w))
    as (F1 & F2 & F3 & F4 & F5).
  destruct (Refresh_lists h (with_active_tab tab w)) as (L1 & L2 & L3).
  fold w2 in R1, R2, F1, F2, F3, F4, F5, L1, L2, L3.
  cbn [console tabs_ active_tab_ python_console_pressed_
       string_edit_adapter_ with_active_tab] in F1, F2, F3, F4, F5, L1, L2, L3.
  assert (Htab_loop : widgets_mouse_up h true (List.length pressed_list) 0 x my w1
                      = (w2, [])).
  { unfold pressed_list at 1. rewrite length_app. cbn [List.length].
    rewrite (widgets_mouse_up_skip h true (List.length before)
               (S (List.length after)) 0 x my w1).
    2:{ intros j wd Hj Hnth. cbn [widget_list w1 with_tab_buttons tab_buttons_]
          in Hnth.
        unfold pressed_list in Hnth.
        rewrite nth_error_app1 in Hnth by lia.
        unfold all_released in Hb. rewrite Forall_forall in Hb.
        apply Hb. eapply nth_error_In; exact Hnth. }
    cbn [Nat.add widgets_mouse_up].
    assert (Hnth : nth_error (widget_list true w1) (List.length before)
                   = Some (WTabButton (TabButton_.set_pressed true t))).
    { cbn [widget_list w1 with_tab_buttons tab_buttons_]. unfold pressed_list.
      rewrite nth_error_app2 by lia. now rewrite Nat.sub_diag. }
    rewrite Hnth. cbn [Widget_HandleMouseUp]. fold svw.
    rewrite (TabButton_release_after_press svw t x my Hhit), Hcall.
    cbn [run_if_exists run_lambdas].
    assert (Hrebuilt : forall ws,
              Refresh h (with_active_tab tab (with_widget_list true ws w1))
              = w2)
      by (intros ws; subst w1 w2; destruct w; reflexivity).
    rewrite Hrebuilt.
    now rewrite (widgets_mouse_up_idle h true _ _ x my w2 R1). }
  exists w2. split.
  - unfold HandleMouseUp. cbn [Z.eqb Pos.eqb].
    change (console w1) with (console w). fold my.
    change (tab_buttons_ w1) with pressed_list.
    rewrite Htab_loop.
    rewrite (widgets_mouse_up_idle h false _ 0 x my w2 R2).
    unfold release_console_press. rewrite F4, Hpending, andb_false_r.
    reflexivity.
  - repeat split; auto; congruence.
Qed.

Lemma click_on_a_tab_selects_it_witness :
  let '(consumed, w1) :=
    HandleMouseDown host0 1 (F32.of_Z 400) (F32.of_Z 40) consoleW0 in
  consumed = true
  /\ exists w',
       HandleMouseUp host0 1 (F32.of_Z 400) (F32.of_Z 40) w1 = Returned w' []
       /\ w' = Refresh host0 (with_active_tab "AppModes" consoleW0)
       /\ active_tab_ w' = "AppModes"%string
       /\ map Widget_selected_tab (tab_buttons_ w') = [false; true; false]
       /\ map Widget_release_call (tab_buttons_ w')
          = [Some (Lambda_SelectTab "Python");
             Some (Lambda_SelectTab "AppModes");
             Some (Lambda_SelectTab "Logging")]
       /\ buttons_ w' = []
       /\ all_released (tab_buttons_ w') /\ all_released (buttons_ w')
       /\ console w' = console consoleW0
       /\ tabs_ w' = tabs_ consoleW0
       /\ python_console_pressed_ w' = false
       /\ string_edit_adapter_ w' = string_edit_adapter_ consoleW0.
Proof.
  exact (click_on_a_tab_selects_it host0 (F32.of_Z 400) (F32.of_Z 40)
           consoleW0 (firstn 1 (tab_buttons_ consoleW0))
           (skipn 2 (tab_buttons_ consoleW0)) _ "AppModes"
           ltac:(discriminate) eq_refl ltac:(repeat constructor) eq_refl
           eq_refl eq_refl eq_refl eq_refl).
Defined.

(** X23. A tap on the panel.  On a console that is not Inactive with no widget
    pressed, a left press that no widget takes and that is not below the
    panel boundary is consumed and remembered.  The left release at the same
    point forgets it, and calls [InvokeStringEditor_] exactly when the point
    is strictly above the boundary, the UI has no direct keyboard input and
    the platform has a string editor. *)
Theorem tap_on_the_panel (h : Host) (x y : F32.float) (w : DevConsoleW)
    (Hactive : state_ (console w) <> kInactive)
    (Htabs : all_released (tab_buttons_ w))
    (Hbuttons : all_released (buttons_ w))
    (Hno_tab : fst (widgets_mouse_down (graphics_screen_virtual_width h)
                      (tab_buttons_ w) x
                      (F32.sub y (Bottom_ h (console w)))) = false)
    (Hno_button : fst (widgets_mouse_down (graphics_screen_virtual_width h)
                         (buttons_ w) x
                         (F32.sub y (Bottom_ h (console w)))) = false)
    (Hinside : Cxx.f32_lt y (Bottom_ h (console w)) = false) :
  let idle := with_python_console_pressed false w in
  HandleMouseDown h 1 x y w = (true, with_python_console_pressed true w)
  /\ HandleMouseUp h 1 x y (with_python_console_pressed true w)
     = if Cxx.f32_gt y (Bottom_ h (console w))
          && negb (UIHasDirectKeyboardInput h) && HaveStringEditor h
       then Returned (fst (InvokeStringEditor_ h idle))
              (snd (InvokeStringEditor_ h idle))
       else Returned idle [].
Proof.
  set (svw := graphics_screen_virtual_width h) in *.
  set (my := F32.sub y (Bottom_ h (console w))) in *.
  cbv zeta. split.
  - unfold HandleMouseDown. fold svw. fold my.
    pose proof (widgets_mouse_down_spec svw (tab_buttons_ w) x my Htabs) as Ht.
    destruct (widgets_mouse_down svw (tab_buttons_ w) x my) as [k1 tabs'].
    cbn [fst] in Hno_tab. subst k1. destruct Ht as [_ Ht].
    rewrite (Ht eq_refl). cbn [Z.eqb Pos.eqb buttons_ with_tab_buttons].
    pose proof (widgets_mouse_down_spec svw (buttons_ w) x my Hbuttons) as Hb.
    destruct (widgets_mouse_down svw (buttons_ w) x my) as [k2 buttons'].
    cbn [fst] in Hno_button. subst k2. destruct Hb as [_ Hb].
    rewrite (Hb eq_refl), Hinside.
    destruct w as [c tabs act tb bs pend ad]; cbn in *.
    destruct (state_ c); [contradiction| |]; reflexivity.
  - unfold HandleMouseUp.
    cbn [Z.eqb Pos.eqb console with_python_console_pressed tab_buttons_
         buttons_].
    fold my.
    rewrite (widgets_mouse_up_idle h true _ 0 x my
               (with_python_console_pressed true w) Htabs).
    cbn [buttons_ with_python_console_pressed].
    rewrite (widgets_mouse_up_idle h false _ 0 x my
               (with_python_console_pressed true w) Hbuttons).
    unfold release_console_press.
    cbn [Z.eqb Pos.eqb andb python_console_pressed_
         with_python_console_pressed app map].
    destruct (Cxx.f32_gt y (Bottom_ h (console w))); cbn [andb];
      [|reflexivity].
    destruct (negb (UIHasDirectKeyboardInput h) && HaveStringEditor h);
      [|reflexivity].
    replace (with_python_console_pressed false
               (with_python_console_pressed true w))
      with (with_python_console_pressed false w) by (destruct w; reflexivity).
    now destruct (InvokeStringEditor_ h (with_python_console_pressed false w)).
Qed.

Lemma tap_on_the_panel_witness :
  HandleMouseUp host0 1 (F32.of_Z 100) (F32.of_Z 300)
    (with_python_console_pressed true consoleW0)
  = Returned (with_string_edit_adapter (Some 7%nat) consoleW0)
      [Call_StringEditAdapterClass; Platform_InvokeStringEditor 7%nat].
Proof.
  exact (proj2 (tap_on_the_panel host0 (F32.of_Z 100) (F32.of_Z 300) consoleW0
                  ltac:(discriminate) ltac:(repeat constructor)
                  ltac:(repeat constructor) eq_refl eq_refl eq_refl)).
Defined.

(** ** The string editor *)

(** X24. [InvokeStringEditor_]: while the console holds an adapter that cannot
    be replaced, nothing happens, not even a call into Python.  Otherwise
    one adapter is created; the platform editor is invoked only for that new
    adapter, only when it cannot be replaced already, and it is then the one
    the console holds.  When the editor is not invoked the console is as
    before.  Only the held adapter can change. *)
Theorem string_editor_gets_one_adapter (h : Host) (w : DevConsoleW) :
  let '(w', effects) := InvokeStringEditor_ h w in
  (holds_valid_adapter h w -> w' = w /\ effects = [])
  /\ (forall adapter,
        In (Platform_InvokeStringEditor adapter) effects ->
        StringEditAdapterClass_Call h = Some adapter
        /\ CanPyStringEditAdapterBeReplaced_after_Call h adapter = false
        /\ string_edit_adapter_ w' = Some adapter)
  /\ ((forall adapter, ~ In (Platform_InvokeStringEditor adapter) effects) ->
      w' = w)
  /\ w' = with_string_edit_adapter (string_edit_adapter_ w') w
  /\ (List.length
        (filter (fun e => match e with
                          | Platform_InvokeStringEditor _ => true
                          | _ => false
                          end) effects) <= 1)%nat.
Proof.
  unfold InvokeStringEditor_, holds_valid_adapter.
  assert (Hself : w = with_string_edit_adapter (string_edit_adapter_ w) w)
    by (destruct w; reflexivity).
  destruct (string_edit_adapter_ w) as [held|] eqn:Hheld;
    [destruct (CanPyStringEditAdapterBeReplaced h held) eqn:Hrep|];
    cbn [negb];
    try (destruct (StringEditAdapterClass_Call h) as [result|] eqn:Hcall;
         [destruct (CanPyStringEditAdapterBeReplaced_after_Call h result)
            eqn:Hnew|]);
    cbn [string_edit_adapter_ with_string_edit_adapter];
    rewrite ?Hheld;
    (split; [|split; [|split; [|split]]]);
    try solve
      [ intros (a & Ha & Hv); split; congruence
      | intros a Hin; cbn in Hin; intuition congruence
      | intros Hno; try reflexivity; exfalso; eapply Hno; cbn; eauto
      | exact Hself
      | reflexivity
      | cbn; lia ].
Qed.

Lemma string_editor_gets_one_adapter_witness :
  let w := with_string_edit_adapter (Some 3%nat) consoleW0 in
  InvokeStringEditor_ host0 w = (w, []).
Proof.
  pose proof (string_editor_gets_one_adapter host0
                (with_string_edit_adapter (Some 3%nat) consoleW0)) as H.
  cbv zeta.
  destruct (InvokeStringEditor_ host0 _) as [w' effects].
  destruct (proj1 H) as [-> ->]; [|reflexivity].
  exists 3%nat. split; reflexivity.
Defined.

(** ** The mouse before input is enabled *)

Lemma run_lambdas_disabled (h : Host) (ran : list Lambda) (w : DevConsoleW) :
  input_enabled_ (console w) = false ->
  let '(w', effects) := run_lambdas h ran w in
  console w' = console w /\ pushed_commands effects = [].
Proof.
  revert w. induction ran as [|l rest IH]; intros w Hd; [cbn; auto|].
  destruct l as [|tab]; cbn [run_lambdas].
  - pose proof (Exec_frame (console w)) as HE.
    destruct (Exec (console w)) as [c1 e1].
    destruct HE as [_ HE]. destruct (HE Hd) as [Hp ->].
    specialize (IH (with_console (console w) w) Hd).
    destruct (run_lambdas h rest (with_console (console w) w)) as [w2 e2].
    destruct IH as [IHc IHp]. split; [exact IHc|].
    now rewrite pushed_commands_app, Hp, IHp.
  - destruct (Refresh_frame h (with_active_tab tab w)) as (F1 & _).
    cbn [console with_active_tab] in F1.
    specialize (IH (Refresh h (with_active_tab tab w))).
    rewrite F1 in IH. specialize (IH Hd).
    destruct (run_lambdas h rest (Refresh h (with_active_tab tab w)))
      as [w2 e2].
    exact IH.
Qed.

Lemma widgets_mouse_up_disabled (h : Host) (tabs : bool) (steps place : nat)
    (mx my : F32.float) (w : DevConsoleW) :
  input_enabled_ (console w) = false ->
  let '(w', effects) := widgets_mouse_up h tabs steps place mx my w in
  console w' = console w /\ pushed_commands effects = [].
Proof.
  revert place w. induction steps as [|steps IH]; intros place w Hd;
    [cbn; auto|].
  cbn [widgets_mouse_up].
  destruct (nth_error (widget_list tabs w) place) as [wd|]; [|now apply IH].
  destruct (Widget_HandleMouseUp (graphics_screen_virtual_width h) wd mx my)
    as [wd' ran].
  destruct (widget_list_with tabs (set_nth place wd' (widget_list tabs w)) w)
    as (_ & _ & Lc & _).
  pose proof (run_lambdas_disabled h ran
                (with_widget_list tabs
                   (set_nth place wd' (widget_list tabs w)) w)) as Hr.
  rewrite Lc in Hr. specialize (Hr Hd).
  destruct (run_lambdas h ran _) as [w2 e1]. destruct Hr as [Hc Hp].
  specialize (IH (S place) w2). rewrite Hc in IH. specialize (IH Hd).
  destruct (widgets_mouse_up h tabs steps (S place) mx my w2) as [w3 e2].
  destruct IH as [IHc IHp]. split; [exact IHc|].
  now rewrite pushed_commands_app, Hp, IHp.
Qed.

Lemma no_pushed_command (effects : list Effect) (command : string) :
  pushed_commands effects = [] -> ~ In (PushCall_Command command) effects.
Proof.
  induction effects as [|e rest IH]; [tauto|].
  destruct e; cbn; try discriminate; intros H [F|F];
    try discriminate; now apply IH.
Qed.

Lemma HandleMouseDown_console (h : Host) (button : Z) (x y : F32.float)
    (w : DevConsoleW) :
  console (snd (HandleMouseDown h button x y w)) = console w.
Proof.
  unfold HandleMouseDown.
  destruct (state_ (console w)); [reflexivity| |].
  all: destruct (button =? 1).
  all: try destruct (widgets_mouse_down _ (tab_buttons_ w) _ _) as [k1 tabs'].
  all: try destruct k1.
  all: cbn [buttons_ with_tab_buttons].
  all: try destruct (widgets_mouse_down _ (buttons_ w) _ _) as [k2 buttons'].
  all: try destruct k2.
  all: try destruct (Cxx.f32_lt y (Bottom_ h (console w))).
  all: reflexivity.
Qed.

(** X25. Until [EnableInput] is called the mouse runs no command either: a
    press never touches the console members, and a release, whatever widget
    it activates, leaves them as they are and pushes no command to the event
    loop. *)
Theorem mouse_runs_nothing_before_EnableInput (h : Host) (button : Z)
    (x y : F32.float) (w : DevConsoleW)
    (Hdisabled : input_enabled_ (console w) = false) :
  console (snd (HandleMouseDown h button x y w)) = console w
  /\ match HandleMouseUp h button x y w with
     | Returned w' effects =>
         console w' = console w
         /\ forall command, ~ In (Core (PushCall_Command command)) effects
     end.
Proof.
  split; [apply HandleMouseDown_console|].
  assert (Hcore : forall effects command,
            pushed_commands effects = [] ->
            ~ In (Core (PushCall_Command command)) (map Core effects)).
  { intros effects command Hp Hin. apply in_map_iff in Hin as (e & He & Hin).
    inversion He; subst. revert Hin. now apply no_pushed_command. }
  unfold HandleMouseUp. destruct (button =? 1).
  - pose proof (widgets_mouse_up_disabled h true
                  (List.length (tab_buttons_ w)) 0 x
                  (F32.sub y (Bottom_ h (console w))) w Hdisabled) as H1.
    destruct (widgets_mouse_up h true _ 0 x _ w) as [w1 e1].
    destruct H1 as [C1 P1].
    pose proof (widgets_mouse_up_disabled h false
                  (List.length (buttons_ w1)) 0 x
                  (F32.sub y (Bottom_ h (console w))) w1) as H2.
    rewrite C1 in H2. specialize (H2 Hdisabled).
    destruct (widgets_mouse_up h false _ 0 x _ w1) as [w2 e2].
    destruct H2 as [C2 P2].
    match goal with
    | |- context [release_console_press ?a ?b ?c ?d ?u] =>
        pose proof (release_console_press_spec a b c d u) as Hr;
        destruct (release_console_press a b c d u) as [w' e3]
    end.
    destruct Hr as (_ & _ & Hc & _ & _ & _ & Hno).
    split; [congruence|].
    intros command Hin. apply in_app_or in Hin as [Hin|Hin].
    + revert Hin. apply Hcore. now rewrite pushed_commands_app, P1, P2.
    + now apply (Hno _ Hin).
  - match goal with
    | |- context [release_console_press ?a ?b ?c ?d ?u] =>
        pose proof (release_console_press_spec a b c d u) as Hr;
        destruct (release_console_press a b c d u) as [w' e3]
    end.
    destruct Hr as (_ & _ & Hc & _ & _ & _ & Hno).
    split; [exact Hc|]. intros command Hin. now apply (Hno _ Hin).
Qed.

Lemma mouse_runs_nothing_before_EnableInput_witness :
  match HandleMouseUp host0 1 (F32.of_Z 770) (F32.of_Z 90)
          disabled_with_Exec_pressed with
  | Returned w' effects =>
      console w' = console disabled_with_Exec_pressed
      /\ forall command, ~ In (Core (PushCall_Command command)) effects
  end.
Proof.
  exact (proj2 (mouse_runs_nothing_before_EnableInput host0 1 (F32.of_Z 770)
                  (F32.of_Z 90) disabled_with_Exec_pressed eq_refl)).
Defined.

(** * The data asset component *)




(** X27. A component created in a scene with a game stream and marked dead
    while that scene still has that stream is added to the stream once and
    removed from it once, in that order; created and marked dead without a
    stream, it touches no stream. *)
Theorem Data_is_added_and_removed (id : DataComponent.ObjectId)
    (data_name : string) (loaded : DataComponent.DataDataRef)
    (at_birth at_death : DataComponent.World)
    (Hsame : DataComponent.stream_of_scene at_birth
             = DataComponent.stream_of_scene at_death) :
  let '(d, added) := DataComponent.new id data_name at_birth loaded in
  let removed := DataComponent.destroy at_death d in
  (added ++ removed)%list
  = match DataComponent.stream_of_scene at_birth with
    | Some os => [DataComponent.AddData os id; DataComponent.RemoveData os id]
    | None => []
    end.
Proof.
  unfold DataComponent.new, DataComponent.destroy, DataComponent.MarkDead.
  cbn. rewrite <- Hsame.
  now destruct (DataComponent.stream_of_scene at_birth).
Qed.

Lemma Data_is_added_and_removed_witness :
  let '(d, added) :=
    DataComponent.new 9%nat "level" DataComponent.world0 4%nat in
  (added ++ DataComponent.destroy DataComponent.world0 d)%list
  = [DataComponent.AddData 5%nat 9%nat; DataComponent.RemoveData 5%nat 9%nat].
Proof.
  exact (Data_is_added_and_removed 9%nat "level" 4%nat DataComponent.world0
           DataComponent.world0 eq_refl).
Defined.

(** * Runs of events on a console at rest *)

(** X1. An Inactive console is inert.  As long as no activation key is
    pressed, every run of key presses, key releases and text-input events
    leaves it exactly as it is and does nothing outside, and none of these
    events is consumed except the releases of the activation keys. *)
Theorem inactive_console_is_inert {T : TextSupport} (cfg : BuildConfig)
    (events : list (seconds_t * InputEvent)) (c : DevConsole)
    (Hinactive : state_ c = kInactive)
    (Hkeys : Forall (fun e => not_an_activation_press (snd e)) events) :
  run_events cfg events c = (c, [])
  /\ Forall (fun e =>
               fst (fst (handle_event cfg (fst e) (snd e) c))
               = match snd e with
                 | KeyRelease sym => is_activation_key sym
                 | _ => false
                 end) events.
Proof.
  induction Hkeys as [|[now ev] rest Hev _ IH]; [split; [reflexivity|constructor]|].
  destruct IH as [IHrun IHc].
  assert (Hstep : handle_event cfg now ev c
                  = (match ev with
                     | KeyRelease sym => is_activation_key sym
                     | _ => false
                     end, c, [])).
  { destruct ev as [sym|sym|text]; cbn [handle_event].
    - destruct Hev as [H1 H2]. cbn [snd] in *.
      apply inactive_console_ignores_keys; assumption.
    - unfold HandleKeyRelease, is_activation_key. rewrite Hinactive.
      now destruct (_ || _).
    - unfold HandleTextEditing. now rewrite Hinactive. }
  split.
  - cbn [run_events]. now rewrite Hstep, IHrun.
  - constructor; [cbn [fst snd]; now rewrite Hstep | exact IHc].
Qed.

Lemma inactive_console_is_inert_witness :
  @run_events fixed_advance cfg0
    [(t0, TextEditing "quit()"); (t0, KeyPress SDLK_RETURN);
     (t0, KeyRelease SDLK_RETURN); (t0, KeyPress SDLK_UP)]
    (with_history ["old"%string] (EnableInput console0))
  = (with_history ["old"%string] (EnableInput console0), []).
Proof.
  apply (@inactive_console_is_inert fixed_advance cfg0);
    [reflexivity | repeat constructor; discriminate].
Defined.

(** X2. With an empty command history, any run of Up and Down presses on an
    active console leaves it as it is after every press, and every one of
    the presses is consumed and does nothing outside: the cursor does not
    drift while there is nothing to show. *)
Theorem arrows_without_history {T : TextSupport} (cfg : BuildConfig)
    (now : seconds_t) (syms : list Z) (c : DevConsole)
    (Hactive : state_ c <> kInactive)
    (Hempty : input_history_ c = [])
    (Harrows : Forall (fun sym => sym = SDLK_UP \/ sym = SDLK_DOWN) syms) :
  press_keys cfg now syms c = map (fun _ => c) syms
  /\ Forall (fun sym =>
               fst (fst (HandleKeyPress cfg now sym c)) = true
               /\ snd (fst (HandleKeyPress cfg now sym c)) = c
               /\ snd (HandleKeyPress cfg now sym c) = []) syms.
Proof.
  induction Harrows as [|sym rest Hsym _ IH]; [split; [reflexivity|constructor]|].
  destruct IH as [IHk IHc].
  pose proof (arrows_on_empty_history cfg now sym c Hactive Hempty Hsym) as E.
  split.
  - cbn [press_keys map]. now rewrite E, IHk.
  - constructor; [rewrite E; repeat split | exact IHc].
Qed.

Lemma arrows_without_history_witness :
  @press_keys fixed_advance cfg0 t0 [SDLK_UP; SDLK_DOWN; SDLK_DOWN] console_full
  = [console_full; console_full; console_full]
  /\ Forall (fun sym =>
               fst (fst (@HandleKeyPress fixed_advance cfg0 t0 sym console_full))
               = true
               /\ snd (fst (@HandleKeyPress fixed_advance cfg0 t0 sym
                              console_full)) = console_full
               /\ snd (@HandleKeyPress fixed_advance cfg0 t0 sym console_full)
                  = [])
       [SDLK_UP; SDLK_DOWN; SDLK_DOWN].
Proof.
  apply (@arrows_without_history fixed_advance cfg0 t0);
    [discriminate | reflexivity
     | repeat constructor; (now left) || (now right)].
Defined.

(** X11. In a build that is neither demo nor arcade, three presses of
    activation keys, at any times and in any state, are all consumed and
    bring the console back to the state it was in, each with a reset of the
    held inputs and a blip; the input string, the command history, its
    cursor, the input gate and the line buffer are never touched. *)
Theorem three_activation_presses_come_back {T : TextSupport}
    (cfg : BuildConfig) (n1 n2 n3 : seconds_t) (s1 s2 s3 : Z) (c : DevConsole)
    (Hdemo : demo_build cfg = false)
    (Harcade : arcade_build cfg = false)
    (H1 : is_activation_key s1 = true)
    (H2 : is_activation_key s2 = true)
    (H3 : is_activation_key s3 = true) :
  run_events cfg [(n1, KeyPress s1); (n2, KeyPress s2); (n3, KeyPress s3)] c
  = (with_state (state_ c) (next_state (next_state (state_ c))) n3 c,
     [ResetHoldStates; PlaySound_Blip; ResetHoldStates; PlaySound_Blip;
      ResetHoldStates; PlaySound_Blip])
  /\ Forall (fun st => fst (fst st) = true)
       [HandleKeyPress cfg n1 s1 c;
        HandleKeyPress cfg n2 s2 (fst (ToggleState n1 c));
        HandleKeyPress cfg n3 s3
          (fst (ToggleState n2 (fst (ToggleState n1 c))))].
Proof.
  unfold is_activation_key in *.
  assert (Hpress : forall now sym u,
            (sym =? kDevConsoleActivateKey1) || (sym =? kDevConsoleActivateKey2)
            = true ->
            HandleKeyPress cfg now sym u
            = (true, fst (ToggleState now u),
               [ResetHoldStates; PlaySound_Blip])).
  { intros now sym u H. unfold HandleKeyPress.
    now rewrite H, Hdemo, Harcade. }
  split.
  - cbn [run_events handle_event].
    rewrite (Hpress n1 s1 c H1), (Hpress n2 s2 _ H2), (Hpress n3 s3 _ H3).
    destruct c as [st sp ts inp dirty hist pos en ll lld ls].
    destruct st; reflexivity.
  - repeat constructor; rewrite Hpress by assumption; reflexivity.
Qed.

Lemma three_activation_presses_come_back_witness :
  @run_events fixed_advance cfg0
    [(t0, KeyPress SDLK_F2); (t0, KeyPress SDLK_BACKQUOTE);
     (t0, KeyPress SDLK_F2)]
    (with_input "typed" console_full)
  = (with_state kFull kMini t0 (with_input "typed" console_full),
     [ResetHoldStates; PlaySound_Blip; ResetHoldStates; PlaySound_Blip;
      ResetHoldStates; PlaySound_Blip]).
Proof.
  exact (proj1 (@three_activation_presses_come_back fixed_advance cfg0
                  t0 t0 t0 SDLK_F2 SDLK_BACKQUOTE SDLK_F2
                  (with_input "typed" console_full)
                  eq_refl eq_refl eq_refl eq_refl eq_refl)).
Defined.

(** X18. The mouse with nothing to do.  While the console is Inactive no press
    is consumed, with any button and at any point, and nothing changes; and
    on a console, in any state, with no widget pressed and no console press
    pending, a release of any button at any point changes nothing and does
    nothing outside. *)
Theorem mouse_with_nothing_to_do (h : Host) (button : Z) (x y : F32.float)
    (w : DevConsoleW) :
  (state_ (console w) = kInactive -> HandleMouseDown h button x y w = (false, w))
  /\ (all_released (tab_buttons_ w) -> all_released (buttons_ w) ->
      python_console_pressed_ w = false ->
      HandleMouseUp h button x y w = Returned w []).
Proof.
  split; [apply mouse_down_while_inactive|].
  intros Htabs Hbuttons Hpending.
  destruct (Z.eq_dec button 1) as [->|Hb];
    [|now apply mouse_up_other_buttons].
  unfold HandleMouseUp. cbn [Z.eqb Pos.eqb].
  rewrite (widgets_mouse_up_idle h true _ 0 x _ w Htabs).
  rewrite (widgets_mouse_up_idle h false _ 0 x _ w Hbuttons).
  unfold release_console_press.
  now rewrite Hpending, andb_false_r.
Qed.

Lemma mouse_with_nothing_to_do_witness :
  HandleMouseDown host0 1 (F32.of_Z 770) (F32.of_Z 90)
    (with_console console0 consoleW0)
  = (false, with_console console0 consoleW0)
  /\ HandleMouseUp host0 1 (F32.of_Z 770) (F32.of_Z 90) consoleW0
     = Returned consoleW0 [].
Proof.
  split.
  - exact (proj1 (mouse_with_nothing_to_do host0 1 (F32.of_Z 770)
                    (F32.of_Z 90) (with_console console0 consoleW0)) eq_refl).
  - exact (proj2 (mouse_with_nothing_to_do host0 1 (F32.of_Z 770)
                    (F32.of_Z 90) consoleW0)
             ltac:(repeat constructor) ltac:(repeat constructor) eq_refl).
Defined.
